(** * Smart Form Filler: field extraction, verification and template filling

    A shallow embedding of [backend/gemini.py], [backend/pdf_fill.py],
    [backend/utils.py], [backend/ocr.py] and [backend/main.py].

    Python values are an inductive type, dictionaries are finite maps with
    string keys, exceptions are an explicit result type.  The language
    model, [json.loads], the text search of the PDF library and the
    printing of values other than strings are arguments of the functions
    that use them, so every statement below holds for whatever they
    answer.  Paths follow [pathlib] on POSIX; the file system is the map
    of its regular files, a PDF document is the list of its pages, and
    coordinates are binary64 floats. *)

From Stdlib Require Import ZArith Floats Ascii String Lia.
From stdpp Require Import gmap strings list fin_maps pretty.

Set Warnings "-register-all,-clear-no-such-hyp,-notation-for-abbreviation,-inexact-float".
Set Default Proof Using "Type".

Local Open Scope string_scope.
Local Open Scope list_scope.

(* ===================================================================== *)
(** * Python strings

    A [string] is read as a sequence of code points below 256.  On that
    range [str.lower], [str.isspace] and the line boundaries of
    [str.splitlines] are the tables below. *)
(* ===================================================================== *)

Definition code (c : ascii) : N := N_of_ascii c.

(** [c.isspace()]: TAB, LF, VT, FF, CR, FS, GS, RS, US, SPACE, NEL, NBSP. *)
Definition isspace (c : ascii) : bool :=
  let n := code c in
  ((9 <=? n) && (n <=? 13) || (28 <=? n) && (n <=? 32)
   || (n =? 133) || (n =? 160))%N.

(** One code point of [str.lower]: A-Z, and the Latin-1 capitals
    U+00C0..U+00DE except the multiplication sign U+00D7. *)
Definition lower_char (c : ascii) : ascii :=
  let n := code c in
  if ((65 <=? n) && (n <=? 90)
      || (192 <=? n) && (n <=? 222) && negb (n =? 215))%N
  then ascii_of_N (n + 32) else c.

Fixpoint lower (s : string) : string :=
  match s with
  | EmptyString => EmptyString
  | String c s' => String (lower_char c) (lower s')
  end.

(** [s.split()] with no separator: the maximal runs of non-whitespace. *)
Fixpoint split_from (word s : string) : list string :=
  match s with
  | EmptyString => match word with EmptyString => [] | _ => [word] end
  | String c s' =>
      if isspace c
      then match word with
           | EmptyString => split_from EmptyString s'
           | _ => word :: split_from EmptyString s'
           end
      else split_from (word ++ String c EmptyString) s'
  end.

Definition split (s : string) : list string := split_from EmptyString s.

(** [sep.join(parts)] *)
Fixpoint join (sep : string) (parts : list string) : string :=
  match parts with
  | [] => EmptyString
  | [p] => p
  | p :: rest => p ++ sep ++ join sep rest
  end.

(** [needle in hay] on strings. *)
Fixpoint contains (needle hay : string) : bool :=
  String.prefix needle hay
  || match hay with
     | EmptyString => false
     | String _ hay' => contains needle hay'
     end.

(** [s.startswith(p)] *)
Definition startswith (p s : string) : bool := String.prefix p s.

Fixpoint lstrip (s : string) : string :=
  match s with
  | EmptyString => EmptyString
  | String c s' => if isspace c then lstrip s' else s
  end.

Fixpoint rstrip (s : string) : string :=
  match s with
  | EmptyString => EmptyString
  | String c s' =>
      match rstrip s' with
      | EmptyString => if isspace c then EmptyString else String c EmptyString
      | r => String c r
      end
  end.

(** [s.strip()] *)
Definition strip (s : string) : string := rstrip (lstrip s).

(** Line boundaries of [str.splitlines]: LF, VT, FF, CR, FS, GS, RS, NEL
    (CR LF counts once). *)
Definition is_linebreak (c : ascii) : bool :=
  let n := code c in
  ((10 <=? n) && (n <=? 13) || (28 <=? n) && (n <=? 30) || (n =? 133))%N.

Fixpoint splitlines_from (line s : string) : list string :=
  match s with
  | EmptyString => match line with EmptyString => [] | _ => [line] end
  | String c s' =>
      if is_linebreak c then
        match s' with
        | String c2 s'' =>
            if ((code c =? 13) && (code c2 =? 10))%N
            then line :: splitlines_from EmptyString s''
            else line :: splitlines_from EmptyString s'
        | EmptyString => [line]
        end
      else splitlines_from (line ++ String c EmptyString) s'
  end.

Definition splitlines (s : string) : list string :=
  splitlines_from EmptyString s.

(** [lines[1:-1]] *)
Definition slice_1_m1 {A} (l : list A) : list A :=
  removelast (tail l).

Definition LF : string := String (ascii_of_N 10) EmptyString.

(* ===================================================================== *)
(** * Python values, exceptions *)
(* ===================================================================== *)

(** The values [json.loads] can produce, and so the values a field can
    hold.  Dictionaries have string keys. *)
Inductive PyVal : Type :=
  | PyNone
  | PyBool (b : bool)
  | PyInt (z : Z)
  | PyFloat (f : float)
  | PyStr (s : string)
  | PyList (l : list PyVal)
  | PyDict (d : gmap string PyVal).

(** The exceptions that occur, all of them classes derived from
    [Exception], so that [except Exception] catches each. *)
Inductive PyExn : Type :=
  | RuntimeError (msg : string)
  | AttributeError (msg : string)
  | TypeError (msg : string)
  | JSONDecodeError (msg : string)
  | IndexError (msg : string)
  | FileDataError (msg : string)
  | OSError (msg : string)
  | OtherException (kind msg : string).

(** [str(exc)] *)
Definition exn_str (e : PyExn) : string :=
  match e with
  | RuntimeError m | AttributeError m | TypeError m | JSONDecodeError m
  | IndexError m | FileDataError m | OSError m | OtherException _ m => m
  end.

Inductive PyResult (A : Type) : Type :=
  | Ok (a : A)
  | Raise (e : PyExn).
Arguments Ok {A} a.
Arguments Raise {A} e.

#[global] Instance PyResult_ret : MRet PyResult := fun _ a => Ok a.

#[global] Instance PyResult_bind : MBind PyResult := fun _ _ k r =>
  match r with
  | Ok a => k a
  | Raise e => Raise e
  end.

(** Truth value of an object, as tested by [if not value] and [value or ''].
    A float is false exactly when it compares equal to zero. *)
Definition truthy (v : PyVal) : bool :=
  match v with
  | PyNone => false
  | PyBool b => b
  | PyInt z => negb (z =? 0)%Z
  | PyFloat f => negb (PrimFloat.eqb f 0%float)
  | PyStr s => negb (String.eqb s EmptyString)
  | PyList l => match l with [] => false | _ => true end
  | PyDict d => negb (bool_decide (d = ∅))
  end.

(** [d.get(key)]: the value, or [None] when the key is missing. *)
Definition dict_get (d : gmap string PyVal) (key : string) : PyVal :=
  default PyNone (d !! key).

(* ===================================================================== *)
(** * gemini.py: the verifier *)
(* ===================================================================== *)

Definition FIELD_KEYS : list string :=
  ["name"; "dob"; "address"; "phone"; "email"].

(** [" ".join(s.lower().split())] *)
Definition normalize (s : string) : string := join " " (split (lower s)).

(** One iteration of the [for key in ...] loop. *)
Definition enforce_key (ocr_norm : string) (data : gmap string PyVal)
    (key : string) : gmap string PyVal :=
  match dict_get data key with
  | PyStr val =>
      let val_norm := normalize val in
      if negb (String.eqb val_norm EmptyString)
         && negb (contains val_norm ocr_norm)
      then <[key := PyNone]> data
      else data
  | _ => data
  end.

Definition enforce_dict (data : gmap string PyVal) (raw_text : string)
    : gmap string PyVal :=
  let ocr_norm := normalize raw_text in
  foldl (enforce_key ocr_norm) data FIELD_KEYS.

(** [data.get] exists on dictionaries only. *)
Definition _enforce_substring_constraints (data : PyVal) (raw_text : string)
    : PyResult PyVal :=
  match data with
  | PyDict d => Ok (PyDict (enforce_dict d raw_text))
  | _ => Raise (AttributeError "object has no attribute 'get'")
  end.

(* ===================================================================== *)
(** * gemini.py: the extraction call *)
(* ===================================================================== *)

(** The module globals read from the environment at import time. *)
Record Config : Type := {
  API_KEY : option string;   (* os.getenv("GEMINI_API_KEY") *)
  MODEL_ID : string          (* os.getenv("GEMINI_MODEL_ID", "gemini-pro") *)
}.

(** [if not API_KEY]: unset, or set to the empty string.  The model handle
    is represented by its identifier. *)
Definition _get_model (cfg : Config) : PyResult string :=
  match API_KEY cfg with
  | None | Some EmptyString =>
      Raise (RuntimeError
               "GEMINI_API_KEY is not set in environment or .env file")
  | Some _ => Ok (MODEL_ID cfg)
  end.

Definition build_prompt (raw_text : string) : string :=
  "
You are an information extraction engine for ID cards and forms.

Given the OCR text of a filled document, extract the following fields when present:
- full name
- date of birth
- address
- phone number
- email

VERY IMPORTANT CONSTRAINTS:
- You must only use substrings that appear exactly in OCR_TEXT.
- Do not hallucinate or guess any value that is not clearly present.
- If you are not 100% sure a value is explicitly present in OCR_TEXT, set it to null.

Return ONLY a valid JSON object with keys:
  name, dob, address, phone, email
Missing values must be null.

OCR_TEXT:

" ++ raw_text ++ "
".

(** The five keys, all [None]. *)
Definition null_fields : gmap string PyVal :=
  <["name" := PyNone]> (<["dob" := PyNone]> (<["address" := PyNone]>
  (<["phone" := PyNone]> (<["email" := PyNone]> ∅)))).

(** The dictionary of the [except Exception as exc] branch. *)
Definition failure_dict (raw_text : string) (exc : PyExn)
    : gmap string PyVal :=
  <["_error" := PyStr ("Gemini request failed: " ++ exn_str exc)]>
    (<["raw_text" := PyStr raw_text]> null_fields).

(** The dictionary of the [except json.JSONDecodeError] branch. *)
Definition fallback_dict (text : string) : gmap string PyVal :=
  <["_raw_model_output" := PyStr text]> null_fields.

(** Code fences: when the text starts with three backquotes and has at
    least three lines, the first and the last line are dropped. *)
Definition strip_code_fence (text : string) : string :=
  if startswith "```" text then
    let lines := splitlines text in
    if (3 <=? length lines)%nat then join LF (slice_1_m1 lines) else text
  else text.

(** [data[key] = value] *)
Definition setitem (data : PyVal) (key : string) (value : PyVal)
    : PyResult PyVal :=
  match data with
  | PyDict d => Ok (PyDict (<[key := value]> d))
  | _ => Raise (TypeError "object does not support item assignment")
  end.

Section Extraction.

(** The environment of the module. *)
Variable cfg : Config.

(** [model.generate_content(prompt).text]: the text of the response, or
    the exception raised on the way. *)
Variable generate_content : string -> string -> PyResult string.

(** [json.loads]. *)
Variable json_loads : string -> PyResult PyVal.

Definition extract_fields_with_gemini (raw_text : string)
    : PyResult PyVal :=
  model ← _get_model cfg;
  let prompt := build_prompt raw_text in
  match generate_content model prompt with
  | Raise exc => Ok (PyDict (failure_dict raw_text exc))
  | Ok response_text =>
      let text := strip response_text in
      let text := strip_code_fence text in
      data ← match json_loads text with
             | Ok data => Ok data
             | Raise (JSONDecodeError _) => Ok (PyDict (fallback_dict text))
             | Raise other => Raise other
             end;
      data ← _enforce_substring_constraints data raw_text;
      setitem data "raw_text" (PyStr raw_text)
  end.

End Extraction.

(* ===================================================================== *)
(** * A reader for JSON documents

    [json.loads] is a parameter of the extraction above.  The reader below
    is an instance used to run the extraction on concrete responses.  It
    covers objects, arrays, strings with the single-character escapes,
    integers, [true], [false], [null], and the three constants [NaN],
    [Infinity] and [-Infinity] that [json.loads] takes although the
    grammar of JSON has none of them; on documents with fractions,
    exponents or unicode escapes it answers with an exception that is not
    a decode error, so that no such document is mistaken for malformed
    JSON.  With the constants switched off the reader keeps to the
    grammar of JSON. *)
(* ===================================================================== *)

Inductive Parse (A : Type) : Type :=
  | Parsed (a : A) (rest : string)
  | Malformed
  | Unsupported.
Arguments Parsed {A} a rest.
Arguments Malformed {A}.
Arguments Unsupported {A}.

Definition json_ws (c : ascii) : bool :=
  let n := code c in ((n =? 32) || (n =? 9) || (n =? 10) || (n =? 13))%N.

Fixpoint skip_ws (s : string) : string :=
  match s with
  | String c s' => if json_ws c then skip_ws s' else s
  | EmptyString => EmptyString
  end.

Definition is_digit (c : ascii) : bool :=
  let n := code c in ((48 <=? n) && (n <=? 57))%N.

Definition digit_val (c : ascii) : Z := Z.of_N (code c) - 48.

(** The digits at the head of [s], read in base ten onto [acc]. *)
Fixpoint read_digits (acc : Z) (s : string) : Z * string :=
  match s with
  | String c s' =>
      if is_digit c then read_digits (10 * acc + digit_val c) s' else (acc, s)
  | EmptyString => (acc, s)
  end.

Definition starts_float_tail (s : string) : bool :=
  match s with
  | String c _ => Ascii.eqb c "." || Ascii.eqb c "e" || Ascii.eqb c "E"
  | EmptyString => false
  end.

(** An integer without sign: [0] or a digit string without leading zero. *)
Definition read_natural (s : string) : Parse Z :=
  match s with
  | String c s' =>
      if Ascii.eqb c "0" then
        if starts_float_tail s' then Unsupported else Parsed 0%Z s'
      else if is_digit c then
        let '(z, rest) := read_digits 0 s in
        if starts_float_tail rest then Unsupported else Parsed z rest
      else Malformed
  | EmptyString => Malformed
  end.

(** The body of a string literal, after the opening quote.  Code 34 is
    the double quote, code 92 the backslash. *)
Fixpoint read_string (s : string) : Parse string :=
  match s with
  | EmptyString => Malformed
  | String c s' =>
      if (code c =? 34)%N then Parsed EmptyString s'
      else if (code c =? 92)%N then
        match s' with
        | String e s'' =>
            let continue (ch : ascii) :=
              match read_string s'' with
              | Parsed body rest => Parsed (String ch body) rest
              | Malformed => Malformed
              | Unsupported => Unsupported
              end in
            if (code e =? 34)%N then continue e
            else if (code e =? 92)%N then continue e
            else if Ascii.eqb e "/" then continue e
            else if Ascii.eqb e "b" then continue (ascii_of_N 8)
            else if Ascii.eqb e "f" then continue (ascii_of_N 12)
            else if Ascii.eqb e "n" then continue (ascii_of_N 10)
            else if Ascii.eqb e "r" then continue (ascii_of_N 13)
            else if Ascii.eqb e "t" then continue (ascii_of_N 9)
            else if Ascii.eqb e "u" then Unsupported
            else Malformed
        | EmptyString => Malformed
        end
      else if (code c <? 32)%N then Malformed
      else
        match read_string s' with
        | Parsed body rest => Parsed (String c body) rest
        | Malformed => Malformed
        | Unsupported => Unsupported
        end
  end.

Definition expect_word (word : string) (v : PyVal) (s : string)
    : Parse PyVal :=
  if String.prefix word s
  then Parsed v (String.substring (String.length word)
                   (String.length s - String.length word) s)
  else Malformed.

(** One of the constants [NaN], [Infinity], [-Infinity]: a float for
    [json.loads], nothing for the grammar of JSON. *)
Definition read_constant (constants : bool) (word : string) (f : float)
    (s : string) : Parse PyVal :=
  if constants then expect_word word (PyFloat f) s else Malformed.

(** The items of an array, from the first item on; [value] reads one
    value, [n] bounds the number of items. *)
Fixpoint read_items (value : string -> Parse PyVal) (n : nat) (s : string)
    : Parse (list PyVal) :=
  match n with
  | O => Malformed
  | S n' =>
      match value (skip_ws s) with
      | Parsed v rest =>
          match skip_ws rest with
          | String c rest' =>
              if Ascii.eqb c "]" then Parsed [v] rest'
              else if Ascii.eqb c "," then
                match read_items value n' rest' with
                | Parsed vs rest'' => Parsed (v :: vs) rest''
                | Malformed => Malformed
                | Unsupported => Unsupported
                end
              else Malformed
          | EmptyString => Malformed
          end
      | Malformed => Malformed
      | Unsupported => Unsupported
      end
  end.

(** The members of an object, from the first key on; a key met again
    replaces the earlier value. *)
Fixpoint read_members (value : string -> Parse PyVal) (n : nat)
    (acc : gmap string PyVal) (s : string) : Parse (gmap string PyVal) :=
  match n with
  | O => Malformed
  | S n' =>
      match skip_ws s with
      | String q s1 =>
          if (code q =? 34)%N then
            match read_string s1 with
            | Parsed key s2 =>
                match skip_ws s2 with
                | String colon s3 =>
                    if Ascii.eqb colon ":" then
                      match value (skip_ws s3) with
                      | Parsed v s4 =>
                          let acc' := <[key := v]> acc in
                          match skip_ws s4 with
                          | String c s5 =>
                              if Ascii.eqb c "}" then Parsed acc' s5
                              else if Ascii.eqb c ","
                              then read_members value n' acc' s5
                              else Malformed
                          | EmptyString => Malformed
                          end
                      | Malformed => Malformed
                      | Unsupported => Unsupported
                      end
                    else Malformed
                | EmptyString => Malformed
                end
            | Malformed => Malformed
            | Unsupported => Unsupported
            end
          else Malformed
      | EmptyString => Malformed
      end
  end.

(** One JSON value at the head of [s] (no leading whitespace); [fuel]
    bounds the nesting depth, [constants] says whether the three
    constants are values. *)
Fixpoint read_value (constants : bool) (fuel : nat) (s : string)
    : Parse PyVal :=
  match fuel with
  | O => Unsupported
  | S fuel' =>
      match s with
      | EmptyString => Malformed
      | String c s' =>
          if (code c =? 34)%N then
            match read_string s' with
            | Parsed body rest => Parsed (PyStr body) rest
            | Malformed => Malformed
            | Unsupported => Unsupported
            end
          else if Ascii.eqb c "{" then
            match skip_ws s' with
            | String c2 rest =>
                if Ascii.eqb c2 "}" then Parsed (PyDict ∅) rest
                else
                  match read_members (read_value constants fuel') (String.length s)
                          ∅ s' with
                  | Parsed d rest' => Parsed (PyDict d) rest'
                  | Malformed => Malformed
                  | Unsupported => Unsupported
                  end
            | EmptyString => Malformed
            end
          else if Ascii.eqb c "[" then
            match skip_ws s' with
            | String c2 rest =>
                if Ascii.eqb c2 "]" then Parsed (PyList []) rest
                else
                  match read_items (read_value constants fuel') (String.length s)
                          s' with
                  | Parsed l rest' => Parsed (PyList l) rest'
                  | Malformed => Malformed
                  | Unsupported => Unsupported
                  end
            | EmptyString => Malformed
            end
          else if Ascii.eqb c "n" then expect_word "null" PyNone s
          else if Ascii.eqb c "t" then expect_word "true" (PyBool true) s
          else if Ascii.eqb c "f" then expect_word "false" (PyBool false) s
          else if String.prefix "NaN" s
          then read_constant constants "NaN" nan s
          else if String.prefix "Infinity" s
          then read_constant constants "Infinity" infinity s
          else if String.prefix "-Infinity" s
          then read_constant constants "-Infinity" neg_infinity s
          else if Ascii.eqb c "-" then
            match read_natural s' with
            | Parsed z rest => Parsed (PyInt (- z)) rest
            | Malformed => Malformed
            | Unsupported => Unsupported
            end
          else
            match read_natural s with
            | Parsed z rest => Parsed (PyInt z) rest
            | Malformed => Malformed
            | Unsupported => Unsupported
            end
      end
  end.

Definition read_document (constants : bool) (text : string)
    : PyResult PyVal :=
  match read_value constants (S (String.length text)) (skip_ws text) with
  | Parsed v rest =>
      match skip_ws rest with
      | EmptyString => Ok v
      | _ => Raise (JSONDecodeError "Extra data")
      end
  | Malformed => Raise (JSONDecodeError "Expecting value")
  | Unsupported => Raise (OtherException "NotCovered" "outside the fragment")
  end.

(** [json.loads], on the fragment. *)
Definition json_reader (text : string) : PyResult PyVal :=
  read_document true text.

(** The grammar of JSON (RFC 8259), on the fragment. *)
Definition rfc_reader (text : string) : PyResult PyVal :=
  read_document false text.

(* ===================================================================== *)
(** * pathlib: pure POSIX paths *)
(* ===================================================================== *)

Definition SLASH : ascii := "/"%char.
Definition DOT : ascii := "."%char.

(** [s.split("/")]: the pieces between slashes, empty ones included. *)
Fixpoint split_slash_from (piece s : string) : list string :=
  match s with
  | EmptyString => [piece]
  | String c s' =>
      if Ascii.eqb c SLASH
      then piece :: split_slash_from EmptyString s'
      else split_slash_from (piece ++ String c EmptyString) s'
  end.

Definition split_slash (s : string) : list string :=
  split_slash_from EmptyString s.

(** A path: its root (empty, one slash or two slashes) and its
    components. *)
Record Path : Type := {
  root : string;
  comps : list string
}.

(** The root of a path string: two leading slashes are kept when there
    are exactly two, any other number of leading slashes is one. *)
Definition root_of (s : string) : string :=
  match s with
  | String a (String b rest) =>
      if Ascii.eqb a SLASH then
        if Ascii.eqb b SLASH then
          match rest with
          | String c _ => if Ascii.eqb c SLASH then "/" else "//"
          | EmptyString => "//"
          end
        else "/"
      else EmptyString
  | String a EmptyString => if Ascii.eqb a SLASH then "/" else EmptyString
  | EmptyString => EmptyString
  end.

Definition is_component (piece : string) : bool :=
  negb (String.eqb piece EmptyString) && negb (String.eqb piece ".").

(** [Path(s)] *)
Definition path_of (s : string) : Path :=
  {| root := root_of s;
     comps := List.filter is_component (split_slash s) |}.

(** [str(p)] *)
Definition path_str (p : Path) : string :=
  match root p, comps p with
  | EmptyString, [] => "."
  | r, cs => r ++ join "/" cs
  end.

(** [p / s] *)
Definition path_join (p : Path) (s : string) : Path :=
  let q := path_of s in
  match root q with
  | EmptyString => {| root := root p; comps := comps p ++ comps q |}
  | _ => q
  end.

(** [p.name] *)
Definition path_name (p : Path) : string := List.last (comps p) EmptyString.

(** [p.parent] *)
Definition path_parent (p : Path) : Path :=
  {| root := root p; comps := removelast (comps p) |}.

(** [name[:i]] and [name[i:]] for [i = name.rfind(".")], when there is
    a dot. *)
Fixpoint rsplit_dot (name : string) : option (string * string) :=
  match name with
  | EmptyString => None
  | String c rest =>
      match rsplit_dot rest with
      | Some (before, after) => Some (String c before, after)
      | None => if Ascii.eqb c DOT then Some (EmptyString, name) else None
      end
  end.

(** The split at the last dot counts when [0 < i < len(name) - 1]. *)
Definition split_suffix (name : string) : string * string :=
  match rsplit_dot name with
  | Some (before, after) =>
      if negb (String.eqb before EmptyString)
         && (1 <? String.length after)%nat
      then (before, after) else (name, EmptyString)
  | None => (name, EmptyString)
  end.

(** [p.suffix] *)
Definition path_suffix (p : Path) : string := snd (split_suffix (path_name p)).

(** [p.stem] *)
Definition path_stem (p : Path) : string := fst (split_suffix (path_name p)).

(* ===================================================================== *)
(** * Pages, documents, files

    Coordinates are Python floats, that is binary64 numbers, and the
    arithmetic on them is the arithmetic of the machine. *)
(* ===================================================================== *)

Record Rect : Type := { x0 : float; y0 : float; x1 : float; y1 : float }.

(** One call of [page.insert_text(point, text, fontsize=...)]; the font
    size is given as an integer. *)
Record TextOp : Type := {
  op_x : float;
  op_y : float;
  op_text : string;
  op_fontsize : Z
}.

(** A page: the text spans it came with, each with its bounding box, and
    the text inserted since, oldest first. *)
Record Page : Type := {
  spans : list (string * Rect);
  drawn : list TextOp
}.

Definition blank_page : Page := {| spans := []; drawn := [] |}.

Definition insert_text (page : Page) (x y : float) (text : string)
    (fontsize : Z) : Page :=
  {| spans := spans page;
     drawn := drawn page ++ [{| op_x := x; op_y := y; op_text := text;
                                op_fontsize := fontsize |}] |}.

Notation Document := (list Page).

(** What a regular file holds, as far as the PDF library tells: a PDF with
    its pages; an image, which the library opens as a document of one
    page without text, whatever the file is called; or anything else,
    which the library does not open. *)
Inductive FileContent : Type :=
  | PdfFile (doc : Document)
  | ImageFile
  | OtherFile.

(** The regular files, by path string. *)
Notation FS := (gmap string FileContent).

(** [p.is_file()] *)
Definition is_file (fs : FS) (p : Path) : bool :=
  bool_decide (is_Some (fs !! path_str p)).

(** [p.mkdir(parents=True, exist_ok=True)]: fails when [p] is a regular
    file. *)
Definition mkdir (fs : FS) (p : Path) : PyResult unit :=
  if is_file fs p then Raise (OSError "File exists") else Ok tt.

(** [fitz.open(filename)] *)
Definition fitz_open (fs : FS) (filename : string) : PyResult Document :=
  match fs !! filename with
  | Some (PdfFile doc) => Ok doc
  | Some ImageFile => Ok [blank_page]
  | Some OtherFile => Raise (FileDataError "Failed to open file")
  | None => Raise (OSError "no such file")
  end.

(** [doc.new_page()] on a document without pages: the document with one
    blank page, and that page. *)
Definition new_page (doc : Document) : Document * Page :=
  (doc ++ [blank_page], blank_page).

(** [doc[0]] *)
Definition first_page (doc : Document) : PyResult Page :=
  match doc with
  | page :: _ => Ok page
  | [] => Raise (IndexError "page not in document")
  end.

(** [doc.save(filename)], with the first page as it stands after the
    insertions. *)
Definition save (fs : FS) (doc : Document) (page : Page) (filename : string)
    : FS :=
  <[filename := PdfFile (<[0%nat := page]> doc)]> fs.

(* ===================================================================== *)
(** * pdf_fill.py *)
(* ===================================================================== *)

(** [fields.get(key) if isinstance(fields, dict) else None] *)
Definition field_of (fields : PyVal) (key : string) : PyVal :=
  match fields with
  | PyDict d => dict_get d key
  | _ => PyNone
  end.

(** The test [template is not None and template.is_file() and
    template.suffix.lower() == ".pdf"]: the template when it holds. *)
Definition pdf_template (fs : FS) (template : option Path) : option Path :=
  match template with
  | Some t =>
      if is_file fs t && String.eqb (lower (path_suffix t)) ".pdf"
      then Some t else None
  | None => None
  end.

(** The entries of [label_map], in insertion order. *)
Definition label_map (name dob address phone email : PyVal)
    : list (string * PyVal) :=
  [ ("Full Name:", name);
    ("Current Address:", address);
    ("Telephone Number:", phone);
    ("Email Address:", email);
    ("Name:", name);
    ("Date of Birth:", dob) ].

(** The labels alone. *)
Definition LABELS : list string :=
  ["Full Name:"; "Current Address:"; "Telephone Number:"; "Email Address:";
   "Name:"; "Date of Birth:"].

Section TemplateFiller.

(** [page.search_for(label)]: the bounding boxes of the hits, on the page
    as it stands. *)
Variable search_for : Page -> string -> list Rect.

(** [str(value)] of a value that is not a string. *)
Variable py_repr : PyVal -> string.

(** [str(value)], also the text an f-string puts for the value. *)
Definition py_str (value : PyVal) : string :=
  match value with
  | PyStr s => s
  | other => py_repr other
  end.

(** [value or ''] *)
Definition or_empty (value : PyVal) : PyVal :=
  if truthy value then value else PyStr EmptyString.

(** The body of the loop over [label_map]. *)
Definition place_label (page : Page) (entry : string * PyVal) : Page :=
  let '(label, value) := entry in
  if negb (truthy value) then page
  else
    match search_for page label with
    | [] => page
    | rect :: _ =>
        let x := (x1 rect + 8)%float in
        let y := (y0 rect + (y1 rect - y0 rect) * 0.7)%float in
        insert_text page x y (py_str value) 10%Z
    end.

Definition place_labels (page : Page) (entries : list (string * PyVal))
    : Page :=
  foldl place_label page entries.

(** The text of the summary page. *)
Definition summary_text (name dob address phone email : PyVal) : string :=
  join LF
    [ "Smart Form Filler - Extracted Data";
      EmptyString;
      ("Name: " ++ py_str (or_empty name))%string;
      ("Date of Birth: " ++ py_str (or_empty dob))%string;
      ("Address: " ++ py_str (or_empty address))%string;
      ("Phone: " ++ py_str (or_empty phone))%string;
      ("Email: " ++ py_str (or_empty email))%string ].

(** The file system before the call is an argument, the file system after
    it is returned next to the path. *)
Definition generate_filled_pdf (fs : FS) (fields : PyVal)
    (output_dir : string) (template_path : option string)
    : PyResult (string * FS) :=
  let out_dir := path_of output_dir in
  _ ← mkdir fs out_dir;
  let template := path_of <$> template_path in
  '(doc, page, pdf_path) ←
    match pdf_template fs template with
    | Some t =>
        doc ← fitz_open fs (path_str t);
        page ← first_page doc;
        Ok (doc, page,
            path_join out_dir (path_stem t ++ "_filled.pdf")%string)
    | None =>
        let '(doc, page) := new_page [] in
        Ok (doc, page, path_join out_dir "filled_form.pdf")
    end;
  let name := field_of fields "name" in
  let dob := field_of fields "dob" in
  let address := field_of fields "address" in
  let phone := field_of fields "phone" in
  let email := field_of fields "email" in
  let page :=
    match pdf_template fs template with
    | Some _ => place_labels page (label_map name dob address phone email)
    | None =>
        insert_text page 72%float 72%float
          (summary_text name dob address phone email) 12%Z
    end in
  Ok (path_str pdf_path, save fs doc page (path_str pdf_path)).

End TemplateFiller.

(* ===================================================================== *)
(** * Predicates used in the statements *)
(* ===================================================================== *)

(** [needle] occurs in [hay] as a contiguous block. *)
Definition is_substring (needle hay : string) : Prop :=
  ∃ before after : string, hay = (before ++ needle ++ after)%string.

(** The test of the loop body: a string whose normal form is not empty
    and does not occur in the normalized source. *)
Definition rejected (ocr_norm : string) (v : PyVal) : bool :=
  match v with
  | PyStr val =>
      negb (String.eqb (normalize val) EmptyString)
      && negb (contains (normalize val) ocr_norm)
  | _ => false
  end.

(** [normalize] yields the empty string exactly on texts made of
    whitespace only. *)
Fixpoint whitespace_only (s : string) : bool :=
  match s with
  | EmptyString => true
  | String c s' => isspace c && whitespace_only s'
  end.

(** The text has a slash. *)
Fixpoint has_slash (s : string) : bool :=
  match s with
  | EmptyString => false
  | String c s' => Ascii.eqb c SLASH || has_slash s'
  end.

(** A path as [Path] builds it: one of the three roots, and components
    without slash that are neither empty nor a single dot. *)
Definition well_formed (p : Path) : Prop :=
  (root p = EmptyString ∨ root p = "/" ∨ root p = "//")
  ∧ Forall (λ x, has_slash x = false ∧ is_component x = true) (comps p).

Section ExtractionOrigin.

Variable cfg : Config.
Variable generate_content : string -> string -> PyResult string.
Variable json_loads : string -> PyResult PyVal.

(** Where the result dictionary comes from, when there is one. *)
Inductive Origin (raw_text : string) : gmap string PyVal → Prop :=
  | call_failed model exc :
      _get_model cfg = Ok model →
      generate_content model (build_prompt raw_text) = Raise exc →
      Origin raw_text (failure_dict raw_text exc)
  | decode_failed model response msg :
      _get_model cfg = Ok model →
      generate_content model (build_prompt raw_text) = Ok response →
      json_loads (strip_code_fence (strip response))
        = Raise (JSONDecodeError msg) →
      Origin raw_text
        (<["raw_text" := PyStr raw_text]>
           (fallback_dict (strip_code_fence (strip response))))
  | object_decoded model response d :
      _get_model cfg = Ok model →
      generate_content model (build_prompt raw_text) = Ok response →
      json_loads (strip_code_fence (strip response)) = Ok (PyDict d) →
      Origin raw_text
        (<["raw_text" := PyStr raw_text]> (enforce_dict d raw_text)).

End ExtractionOrigin.

(** The invariant as the data model words it: every non-null value among
    the five fields is a string whose normal form occurs in the normalized
    source. *)
Definition fields_grounded (raw_text : string) (r : gmap string PyVal)
    : Prop :=
  ∀ k v, k ∈ FIELD_KEYS → r !! k = Some v → v ≠ PyNone →
    ∃ s, v = PyStr s ∧ is_substring (normalize s) (normalize raw_text).

(** [json.loads] raises [JSONDecodeError] on [text]. *)
Definition json_loads_is_decode_error
    (json_loads : string -> PyResult PyVal) (text : string) : Prop :=
  ∃ msg, json_loads text = Raise (JSONDecodeError msg).


(** The conditions under which the extraction gets past its external
    collaborators: the key is configured, and the model call raises, or
    [json.loads] raises [JSONDecodeError] on its answer, or its answer
    decodes to an object. *)
Definition answer_is_usable (cfg : Config)
    (generate_content : string -> string -> PyResult string)
    (json_loads : string -> PyResult PyVal) (raw_text : string) : Prop :=
  ∃ model, _get_model cfg = Ok model
    ∧ match generate_content model (build_prompt raw_text) with
      | Raise _ => True
      | Ok response =>
          match json_loads (strip_code_fence (strip response)) with
          | Ok (PyDict _) | Raise (JSONDecodeError _) => True
          | _ => False
          end
      end.


(** All five fields are null. *)
Definition all_fields_null (r : gmap string PyVal) : Prop :=
  ∀ k, k ∈ FIELD_KEYS → dict_get r k = PyNone.

(** The text is not valid JSON: the grammar of JSON rejects it. *)
Definition not_valid_json (text : string) : Prop :=
  ∃ msg, rfc_reader text = Raise (JSONDecodeError msg).

(** The result the data model gives for an answer that is not valid
    JSON: the five fields null and the answer kept under
    [_raw_model_output]. *)
Definition fallback_result (text : string) (r : gmap string PyVal) : Prop :=
  all_fields_null r ∧ r !! "_raw_model_output" = Some (PyStr text).

(** The text [s] is on the page: in a span it came with, or in a text
    inserted since. *)
Definition page_shows (page : Page) (s : string) : Prop :=
  (∃ span, span ∈ spans page ∧ is_substring s (fst span))
  ∨ (∃ op, op ∈ drawn page ∧ is_substring s (op_text op)).

(** A one-page document that lists the five fields: every non-null field
    value is on the page. *)
Definition summary_page_of (py_repr : PyVal -> string) (fields : PyVal)
    (doc : Document) : Prop :=
  ∃ page, doc = [page]
    ∧ ∀ k, k ∈ FIELD_KEYS → field_of fields k ≠ PyNone →
        page_shows page (py_str py_repr (field_of fields k)).

(** The value is written strictly right of the box and at the middle of
    its height. *)
Definition placed_beside_centered (page : Page) (rect : Rect) (text : string)
    : Prop :=
  ∃ op, op ∈ drawn page ∧ op_text op = text
    ∧ (x1 rect <? op_x op)%float = true
    ∧ (op_y op =? (y0 rect + y1 rect) / 2)%float = true.

(** Adding eight units moves the coordinate to the right.  In binary64
    that holds of the coordinates of a page and fails far out, where
    neighbouring floats are more than sixteen apart, and at infinity. *)
Definition eight_moves_right (x : float) : Prop :=
  (x <? x + 8)%float = true.

(** The template, when one is used, opens as a PDF with a first page. *)
Definition template_opens (fs : FS) (template : option Path) : Prop :=
  match pdf_template fs template with
  | Some t =>
      ∃ doc page,
        fitz_open fs (path_str t) = Ok doc ∧ first_page doc = Ok page
  | None => True
  end.

(** The file name [generate_filled_pdf] chooses. *)
Definition output_name (fs : FS) (template : option Path) : string :=
  match pdf_template fs template with
  | Some t => path_stem t ++ "_filled.pdf"
  | None => "filled_form.pdf"
  end.

(* ===================================================================== *)
(** * Sample inputs *)
(* ===================================================================== *)

(** A text between double quotes (code 34). *)
Definition quoted (s : string) : string :=
  let dq := String (ascii_of_N 34) EmptyString in dq ++ s ++ dq.

Definition sample_cfg : Config :=
  {| API_KEY := Some "secret"; MODEL_ID := "gemini-pro" |}.

Definition unset_cfg : Config :=
  {| API_KEY := None; MODEL_ID := "gemini-pro" |}.

(** A model that answers every prompt with the same text. *)
Definition answering (text : string) : string -> string -> PyResult string :=
  fun _ _ => Ok text.

(** A model whose call raises. *)
Definition failing (exc : PyExn) : string -> string -> PyResult string :=
  fun _ _ => Raise exc.

Definition texas : string := "John Smith lives in Texas".

(** The answer of the example: an object with the name John Smith and
    the date of birth 1990-01-01. *)
Definition texas_answer : string :=
  "{" ++ quoted "name" ++ ": " ++ quoted "John Smith" ++ ", "
      ++ quoted "dob" ++ ": " ++ quoted "1990-01-01" ++ "}".

Definition texas_parsed : gmap string PyVal :=
  <["name" := PyStr "John Smith"]> (<["dob" := PyStr "1990-01-01"]> ∅).

(** An object whose name is the number 42 and whose date of birth is the
    empty string. *)
Definition number_answer : string :=
  "{" ++ quoted "name" ++ ": 42, " ++ quoted "dob" ++ ": " ++ quoted EmptyString
      ++ "}".

(** An object whose name is the constant NaN: no JSON, and decoded by
    [json.loads] all the same. *)
Definition nan_answer : string := "{" ++ quoted "name" ++ ": NaN}".

(** An object with a name that has visible characters and an empty date
    of birth. *)
Definition blank_dob_answer : string :=
  "{" ++ quoted "name" ++ ": " ++ quoted "John Smith" ++ ", "
      ++ quoted "dob" ++ ": " ++ quoted EmptyString ++ "}".


(** A fenced answer that is not JSON. *)
Definition fenced_prose : string :=
  "```json" ++ LF ++ "I could not read the form." ++ LF ++ "```".

Definition texas_result : PyVal :=
  PyDict (<["raw_text" := PyStr texas]>
          (<["name" := PyStr "John Smith"]> (<["dob" := PyNone]> ∅))).


(** Search by text: the boxes of the spans that contain the label. *)
Definition sample_search (page : Page) (label : string) : list Rect :=
  snd <$> List.filter (λ span, contains label (fst span)) (spans page).

Definition sample_repr (v : PyVal) : string :=
  match v with
  | PyNone => "None"
  | PyBool true => "True"
  | PyBool false => "False"
  | PyInt z => pretty z
  | _ => "<object>"
  end.

Definition name_box : Rect :=
  {| x0 := 50; y0 := 100; x1 := 90; y1 := 110 |}.

Definition phone_box : Rect :=
  {| x0 := 50; y0 := 130; x1 := 150; y1 := 140 |}.

Definition form_page : Page :=
  {| spans := [("Name:", name_box); ("Telephone Number:", phone_box)];
     drawn := [] |}.

(** Two PDF forms, an image, and a text file that carries the suffix
    .pdf. *)
Definition sample_fs : FS :=
  <["/up/form.pdf" := PdfFile [form_page]]>
    (<["/up/empty.pdf" := PdfFile [blank_page]]>
       (<["/up/scan.png" := ImageFile]>
          (<["/up/notes.pdf" := OtherFile]> ∅))).

(** The fields of a request: the name Jane Doe, and the empty string as
    phone number. *)
Definition jane : PyVal :=
  PyDict (<["name" := PyStr "Jane Doe"]>
          (<["phone" := PyStr EmptyString]> ∅)).

(** The same with the number 0 as phone number. *)
Definition jane_zero : PyVal :=
  PyDict (<["name" := PyStr "Jane Doe"]> (<["phone" := PyInt 0]> ∅)).

Definition jane_op : TextOp :=
  {| op_x := 90 + 8; op_y := 100 + (110 - 100) * 0.7;
     op_text := "Jane Doe"; op_fontsize := 10 |}.

Definition jane_filled_page : Page :=
  {| spans := spans form_page; drawn := [jane_op] |}.

Definition jane_summary_page : Page :=
  {| spans := [];
     drawn := [{| op_x := 72; op_y := 72;
                  op_text :=
                    join LF
                      [ "Smart Form Filler - Extracted Data"; EmptyString;
                        "Name: Jane Doe"; "Date of Birth: "; "Address: ";
                        "Phone: "; "Email: " ];
                  op_fontsize := 12 |}] |}.

(* ===================================================================== *)
(** * Words and line breaks *)
(* ===================================================================== *)

(** The text has a whitespace character. *)
Fixpoint has_space (s : string) : bool :=
  match s with
  | EmptyString => false
  | String c s' => isspace c || has_space s'
  end.

(** A word of a normal form: not empty, without whitespace, and left as
    it is by [lower]. *)
Definition is_word (w : string) : Prop :=
  w ≠ EmptyString ∧ has_space w = false ∧ lower w = w.

(** The text has a line boundary. *)
Fixpoint has_linebreak (s : string) : bool :=
  match s with
  | EmptyString => false
  | String c s' => is_linebreak c || has_linebreak s'
  end.

(** Every line boundary of the text is a line feed. *)
Fixpoint breaks_are_lf (s : string) : bool :=
  match s with
  | EmptyString => true
  | String c s' =>
      (negb (is_linebreak c) || (code c =? 10)%N) && breaks_are_lf s'
  end.

(** The text is not empty and its last character is not whitespace. *)
Fixpoint ends_visible (s : string) : bool :=
  match s with
  | EmptyString => false
  | String c EmptyString => negb (isspace c)
  | String _ s' => ends_visible s'
  end.

(* ===================================================================== *)
(** * Insertions of the filler *)
(* ===================================================================== *)

(** An insertion made for an entry of the label map: the text of a truthy
    value, in size 10, at the point the source computes from the first
    hit of the label on a page with the spans of the template. *)
Definition placed_for (search_for : Page -> string -> list Rect)
    (py_repr : PyVal -> string) (template : Page)
    (entries : list (string * PyVal)) (op : TextOp) : Prop :=
  ∃ label value rect rects current,
    (label, value) ∈ entries
    ∧ truthy value = true
    ∧ spans current = spans template
    ∧ search_for current label = rect :: rects
    ∧ op = {| op_x := (x1 rect + 8)%float;
              op_y := (y0 rect + (y1 rect - y0 rect) * 0.7)%float;
              op_text := py_str py_repr value;
              op_fontsize := 10%Z |}.

(* ===================================================================== *)
(** * utils.py *)
(* ===================================================================== *)

(** An upload: the file name the client sent, if any, and the content. *)
Record UploadFile : Type := {
  filename : option string;
  file : FileContent
}.

(** [Path(__file__).resolve().parent / "uploads"], from the directory of
    the module. *)
Definition uploads_of (module_dir : Path) : Path :=
  path_join module_dir "uploads".

(** [upload_file.filename or "file"] *)
Definition original_name_of (upload_file : UploadFile) : string :=
  match filename upload_file with
  | None | Some EmptyString => "file"
  | Some name => name
  end.

(** [hex] is [uuid.uuid4().hex].  The file system after the call is
    returned next to the path; nothing is written when the call raises. *)
Definition save_upload_file (module_dir : Path) (hex : string) (fs : FS)
    (upload_file : UploadFile) (base_dir : option Path)
    : PyResult (Path * FS) :=
  let base_dir :=
    match base_dir with
    | None => uploads_of module_dir
    | Some dir => dir
    end in
  _ ← mkdir fs base_dir;
  let original_name := original_name_of upload_file in
  let suffix := path_suffix (path_of original_name) in
  let filename := (hex ++ suffix)%string in
  let dest_path := path_join base_dir filename in
  Ok (dest_path, <[path_str dest_path := file upload_file]> fs).

(* ===================================================================== *)
(** * ocr.py *)
(* ===================================================================== *)

Section Ocr.

(** Opening an image file, preprocessing it and reading it with
    Tesseract: the text, or the exception of whichever step fails. *)
Variable image_to_string : FileContent -> PyResult string.

(** Rendering a page at 200 dpi, preprocessing the picture and reading it
    with Tesseract. *)
Variable page_to_string : Page -> PyResult string.

Definition extract_text_from_image (fs : FS) (image_path : string)
    : PyResult string :=
  match fs !! image_path with
  | Some content => image_to_string content
  | None => Raise (OSError "No such file or directory")
  end.

Definition extract_text_from_pdf (fs : FS) (pdf_path : string)
    : PyResult string :=
  doc ← fitz_open fs pdf_path;
  if (length doc =? 0)%nat then Ok EmptyString
  else
    page ← first_page doc;
    page_to_string page.

End Ocr.

(* ===================================================================== *)
(** * main.py *)
(* ===================================================================== *)

(** What an endpoint answers: a body, or [HTTPException]. *)
Inductive Response (A : Type) : Type :=
  | Success (body : A)
  | HTTPException (status_code : Z) (detail : string).
Arguments Success {A} body.
Arguments HTTPException {A} status_code detail.

(** The body of [/process]. *)
Record Processed : Type := {
  fields : PyVal;
  template_pdf_filename : option string
}.

Section Endpoints.

Variable module_dir : Path.
(** The hexadecimal identifiers drawn, in the order of the draws. *)
Variable uuids : nat -> string.
Variable image_to_string : FileContent -> PyResult string.
Variable page_to_string : Page -> PyResult string.
Variable cfg : Config.
Variable generate_content : string -> string -> PyResult string.
Variable json_loads : string -> PyResult PyVal.
Variable search_for : Page -> string -> list Rect.
Variable py_repr : PyVal -> string.

(** [[save_upload_file(doc, dir) for doc in documents]]: the uploads are
    stored one after the other; the files stored before one fails stay. *)
Fixpoint save_documents (draw : nat) (fs : FS) (dir : Path)
    (documents : list UploadFile) : FS * PyResult (list Path) :=
  match documents with
  | [] => (fs, Ok [])
  | doc :: rest =>
      match save_upload_file module_dir (uuids draw) fs doc (Some dir) with
      | Raise e => (fs, Raise e)
      | Ok (path, fs1) =>
          match save_documents (S draw) fs1 dir rest with
          | (fs2, Ok paths) => (fs2, Ok (path :: paths))
          | (fs2, Raise e) => (fs2, Raise e)
          end
      end
  end.

(** The part of [process_form] inside [try]: the file system it leaves,
    and the body or the exception. *)
Definition process_form_body (fs : FS) (form_image : UploadFile)
    (documents : list UploadFile) : FS * PyResult Processed :=
  let base_upload_dir := uploads_of module_dir in
  match mkdir fs base_upload_dir with
  | Raise e => (fs, Raise e)
  | Ok _ =>
  match save_upload_file module_dir (uuids 0) fs form_image
          (Some base_upload_dir) with
  | Raise e => (fs, Raise e)
  | Ok (form_path, fs1) =>
  match save_documents 1 fs1 (path_join base_upload_dir "docs")
          documents with
  | (fs2, Raise e) => (fs2, Raise e)
  | (fs2, Ok _doc_paths) =>
      let ocr_source :=
        match _doc_paths with
        | first :: _ => first
        | [] => form_path
        end in
      (fs2,
       raw_text ←
         (if String.eqb (lower (path_suffix ocr_source)) ".pdf"
          then extract_text_from_pdf page_to_string fs2 (path_str ocr_source)
          else extract_text_from_image image_to_string fs2
                 (path_str ocr_source));
       fields ←
         extract_fields_with_gemini cfg generate_content json_loads raw_text;
       let template_path :=
         if String.eqb (lower (path_suffix form_path)) ".pdf"
         then Some form_path else None in
       let template_filename := path_name <$> template_path in
       Ok {| fields := fields;
             template_pdf_filename := template_filename |})
  end end end.

(** [except Exception as exc: raise HTTPException(500, detail=str(exc))] *)
Definition respond {A} (outcome : PyResult A) : Response A :=
  match outcome with
  | Ok body => Success body
  | Raise exc => HTTPException 500 (exn_str exc)
  end.

Definition process_form (fs : FS) (form_image : UploadFile)
    (documents : list UploadFile) : FS * Response Processed :=
  let '(fs', outcome) := process_form_body fs form_image documents in
  (fs', respond outcome).

(** [fill_pdf]: the request carries the fields, a dictionary, and
    possibly the file name of a template.  Paths are handed to
    [generate_filled_pdf] as their strings. *)
Definition fill_pdf (fs : FS) (request_fields : gmap string PyVal)
    (request_template : option string) : FS * Response string :=
  let base_upload_dir := uploads_of module_dir in
  match mkdir fs base_upload_dir with
  | Raise e => (fs, respond (Raise e))
  | Ok _ =>
      let template_path :=
        match request_template with
        | None | Some EmptyString => None
        | Some name =>
            let candidate := path_join base_upload_dir name in
            if is_file fs candidate then Some candidate else None
        end in
      match generate_filled_pdf search_for py_repr fs (PyDict request_fields)
              (path_str base_upload_dir) (path_str <$> template_path) with
      | Raise e => (fs, respond (Raise e))
      | Ok (filled_pdf_path, fs') =>
          (fs', Success (path_name (path_of filled_pdf_path)))
      end
  end.

End Endpoints.

(** A string of 32 hexadecimal digits in lower case, as [uuid4().hex]
    gives. *)
Definition is_hex_digit (c : ascii) : bool :=
  let n := code c in
  ((48 <=? n) && (n <=? 57) || (97 <=? n) && (n <=? 102))%N.

Fixpoint all_hex (s : string) : bool :=
  match s with
  | EmptyString => true
  | String c s' => is_hex_digit c && all_hex s'
  end.

Definition is_uuid_hex (s : string) : bool :=
  (String.length s =? 32)%nat && all_hex s.

(** The text has a dot. *)
Fixpoint has_dot (s : string) : bool :=
  match s with
  | EmptyString => false
  | String c s' => Ascii.eqb c DOT || has_dot s'
  end.

(* ===================================================================== *)
(** * Sample requests *)
(* ===================================================================== *)

(** The request names no template that is on disk: it names none, or the
    empty name, or a name that is not a file of the uploads directory. *)
Definition names_no_file (fs : FS) (uploads : Path)
    (request_template : option string) : Prop :=
  match request_template with
  | None | Some EmptyString => True
  | Some name => is_file fs (path_join uploads name) = false
  end.

(** The directory of the backend modules. *)
Definition backend_dir : Path := path_of "/srv/backend".

Definition sample_hex : string := "0123456789abcdef0123456789abcdef".

Definition sample_uuids : nat -> string := fun _ => sample_hex.

(** An upload whose name tries to leave the directory. *)
Definition sneaky_upload : UploadFile :=
  {| filename := Some "../../etc/passwd.PDF"; file := OtherFile |}.

(** A one-page PDF form, uploaded as [form.pdf]. *)
Definition form_upload : UploadFile :=
  {| filename := Some "form.pdf"; file := PdfFile [form_page] |}.

Definition jane_fields : gmap string PyVal :=
  <["name" := PyStr "Jane Doe"]> ∅.

(** Text recognition that reads the same text everywhere. *)
Definition reading (text : string) {A} : A -> PyResult string :=
  fun _ => Ok text.

(** What [/process] leaves and answers on the sample form. *)
Definition processed_fs : FS :=
  <["/srv/backend/uploads/0123456789abcdef0123456789abcdef.pdf"
      := PdfFile [form_page]]> ∅.

Definition processed_body : Processed :=
  {| fields := texas_result;
     template_pdf_filename := Some "0123456789abcdef0123456789abcdef.pdf" |}.

(* ===================================================================== *)
(** * Proof tools *)
(* ===================================================================== *)

(** Unfold the result monad and the two dictionary operations, and
    nothing below them. *)
Ltac run :=
  cbn [mbind PyResult_bind _enforce_substring_constraints setitem].

#[local] Arguments build_prompt : simpl never.
#[local] Arguments strip : simpl never.
#[local] Arguments strip_code_fence : simpl never.
#[local] Arguments normalize : simpl never.
#[local] Arguments enforce_dict : simpl never.
#[local] Arguments failure_dict : simpl never.
#[local] Arguments fallback_dict : simpl never.
#[local] Arguments null_fields : simpl never.

(* ===================================================================== *)
(** * The primitives on examples *)
(* ===================================================================== *)

Example normalize_ex :
  normalize "  John   SMITH
 lives" = "john smith lives".
Proof. reflexivity. Qed.

Example splitlines_ex :
  splitlines ("a" ++ LF ++ LF ++ "b" ++ LF) = ["a"; EmptyString; "b"].
Proof. reflexivity. Qed.

Example strip_ex : strip "  a b  " = "a b".
Proof. reflexivity. Qed.

(* ===================================================================== *)
(** * Facts about the string primitives *)
(* ===================================================================== *)

Lemma prefix_spec (p s : string) :
  String.prefix p s = true ↔ ∃ rest : string, s = (p ++ rest)%string.
Proof.
  revert s. induction p as [|c p IH]; intros s; simpl.
  - split; [intros _; by exists s | by destruct s].
  - destruct s as [|c' s]; simpl.
    + split; [done | intros [rest Hrest]; discriminate].
    + destruct (Ascii.ascii_dec c c') as [->|Hne].
      * rewrite IH. split; intros [rest Hrest]; exists rest.
        -- by rewrite Hrest.
        -- by injection Hrest.
      * split; [done | intros [rest Hrest]; injection Hrest; congruence].
Qed.

Lemma contains_empty (hay : string) : contains EmptyString hay = true.
Proof. by destruct hay. Qed.

Lemma contains_spec (needle hay : string) :
  contains needle hay = true ↔ is_substring needle hay.
Proof.
  unfold is_substring. induction hay as [|c hay IH].
  - cbn [contains]. rewrite orb_false_r, prefix_spec. split.
    + intros [rest Hrest]. by exists EmptyString, rest.
    + intros [before [after Heq]]. destruct before; [by exists after|done].
  - cbn [contains]. rewrite orb_true_iff, IH, prefix_spec. split.
    + intros [[rest Hrest] | [before [after Heq]]].
      * by exists EmptyString, rest.
      * exists (String c before), after. simpl. by rewrite Heq.
    + intros [before [after Heq]]. destruct before as [|c' before].
      * left. by exists after.
      * right. exists before, after. simpl in Heq. by injection Heq.
Qed.

Lemma contains_in_empty (needle : string) :
  contains needle EmptyString = true → needle = EmptyString.
Proof. destruct needle; [done | simpl; discriminate]. Qed.

Lemma string_eqb_empty (s : string) :
  String.eqb s EmptyString = true ↔ s = EmptyString.
Proof. apply String.eqb_eq. Qed.

Lemma isspace_lower_char (c : ascii) : isspace (lower_char c) = isspace c.
Proof. by destruct c as [[] [] [] [] [] [] [] []]. Qed.

Lemma whitespace_only_lower (s : string) :
  whitespace_only (lower s) = whitespace_only s.
Proof.
  induction s as [|c s IH]; [done|]. simpl.
  by rewrite isspace_lower_char, IH.
Qed.

Lemma append_nonempty_r (a : string) (c : ascii) :
  (a ++ String c EmptyString)%string ≠ EmptyString.
Proof. by destruct a. Qed.

Lemma split_from_nil (word s : string) :
  split_from word s = [] ↔ word = EmptyString ∧ whitespace_only s = true.
Proof.
  revert word. induction s as [|c s IH]; intros word; simpl.
  - destruct word; naive_solver.
  - destruct (isspace c); simpl.
    + destruct word; [rewrite IH|]; naive_solver.
    + rewrite IH. split; [|naive_solver].
      intros [Hw _]. by apply append_nonempty_r in Hw.
Qed.

Lemma split_from_words (word s w : string) :
  w ∈ split_from word s → w ≠ EmptyString.
Proof.
  revert word. induction s as [|c s IH]; intros word; simpl.
  - destruct word; [by intros ?%elem_of_nil|].
    by intros ->%list_elem_of_singleton.
  - destruct (isspace c).
    + destruct word; [apply IH|].
      intros [->|Hin]%elem_of_cons; [done | by eapply IH].
    + apply IH.
Qed.

Lemma join_empty (sep : string) (parts : list string) :
  (∀ w, w ∈ parts → w ≠ EmptyString) →
  join sep parts = EmptyString → parts = [].
Proof.
  destruct parts as [|p rest]; [done|]. intros Hne.
  assert (p ≠ EmptyString) as Hp by (apply Hne; left).
  destruct p as [|c p]; [done|]. simpl. by destruct rest.
Qed.

Lemma normalize_empty_iff (s : string) :
  normalize s = EmptyString ↔ whitespace_only s = true.
Proof.
  unfold normalize, split. rewrite <- (whitespace_only_lower s). split.
  - intros Hj. apply join_empty in Hj.
    + by apply split_from_nil in Hj as [_ ?].
    + intros w. apply split_from_words.
  - intros Hw.
    assert (split_from EmptyString (lower s) = []) as ->; [|done].
    by apply split_from_nil.
Qed.

Lemma append_cons (c : ascii) (a b : string) :
  (String c a ++ b)%string = String c (a ++ b)%string.
Proof. reflexivity. Qed.

Lemma append_assoc (a b c : string) :
  ((a ++ b) ++ c)%string = (a ++ (b ++ c))%string.
Proof.
  induction a as [|x a IH]; [done|]. rewrite !append_cons. by rewrite IH.
Qed.

Lemma append_empty_r (a : string) : (a ++ EmptyString)%string = a.
Proof.
  induction a as [|x a IH]; [done|]. rewrite append_cons. by rewrite IH.
Qed.

Lemma is_substring_refl (s : string) : is_substring s s.
Proof. exists EmptyString, EmptyString. by rewrite append_empty_r. Qed.

Lemma is_substring_app_l (s a b : string) :
  is_substring s b → is_substring s (a ++ b).
Proof.
  intros [before [after ->]]. exists (a ++ before)%string, after.
  by rewrite append_assoc.
Qed.

Lemma is_substring_app_r (s a b : string) :
  is_substring s a → is_substring s (a ++ b).
Proof.
  intros [before [after ->]]. exists before, (after ++ b)%string.
  by rewrite !append_assoc.
Qed.

Lemma is_substring_empty (s : string) : is_substring EmptyString s.
Proof. by exists EmptyString, s. Qed.

(* ===================================================================== *)
(** * The verifier, key by key *)
(* ===================================================================== *)

Lemma enforce_key_unfold ocr_norm (d : gmap string PyVal) key :
  enforce_key ocr_norm d key
  = if rejected ocr_norm (dict_get d key) then <[key := PyNone]> d else d.
Proof. unfold enforce_key, rejected. by destruct (dict_get d key). Qed.

Lemma enforce_key_lookup ocr_norm (d : gmap string PyVal) key k :
  enforce_key ocr_norm d key !! k
  = if bool_decide (k = key) && rejected ocr_norm (dict_get d k)
    then Some PyNone else d !! k.
Proof.
  rewrite enforce_key_unfold. case_bool_decide as Hk; simpl.
  - subst k. destruct (rejected _ _); [apply lookup_insert_eq | done].
  - destruct (rejected _ _); [by rewrite lookup_insert_ne | done].
Qed.

Lemma enforce_fold_lookup ocr_norm keys (d : gmap string PyVal) k :
  foldl (enforce_key ocr_norm) d keys !! k
  = if bool_decide (k ∈ keys) && rejected ocr_norm (dict_get d k)
    then Some PyNone else d !! k.
Proof.
  revert d. induction keys as [|key keys IH]; intros d; simpl.
  - done.
  - rewrite IH. unfold dict_get at 1. rewrite !enforce_key_lookup.
    destruct (decide (k = key)) as [->|Hne].
    + rewrite (bool_decide_eq_true_2 (key = key)) by done.
      rewrite (bool_decide_eq_true_2 (key ∈ key :: keys)) by set_solver.
      simpl. destruct (rejected ocr_norm (dict_get d key)) eqn:Hrej; simpl.
      * by rewrite andb_false_r.
      * fold (dict_get d key). rewrite Hrej. by rewrite andb_false_r.
    + rewrite (bool_decide_eq_false_2 (k = key)) by done. simpl.
      fold (dict_get d k).
      assert (bool_decide (k ∈ key :: keys) = bool_decide (k ∈ keys)) as ->.
      { apply bool_decide_ext. rewrite elem_of_cons. naive_solver. }
      done.
Qed.

Lemma enforce_dict_lookup (d : gmap string PyVal) raw_text k :
  enforce_dict d raw_text !! k
  = if bool_decide (k ∈ FIELD_KEYS)
       && rejected (normalize raw_text) (dict_get d k)
    then Some PyNone else d !! k.
Proof. apply enforce_fold_lookup. Qed.

Lemma enforce_dict_dom (d : gmap string PyVal) raw_text :
  dom (enforce_dict d raw_text) = dom d.
Proof.
  apply set_eq. intros k. rewrite !elem_of_dom, enforce_dict_lookup.
  destruct (bool_decide _ && rejected _ _) eqn:Hb; [|done].
  apply andb_true_iff in Hb as [_ Hrej].
  unfold dict_get in Hrej. destruct (d !! k); [|done].
  split; intros _; by eexists.
Qed.

Lemma enforce_dict_idem (d : gmap string PyVal) raw_text :
  enforce_dict (enforce_dict d raw_text) raw_text = enforce_dict d raw_text.
Proof.
  apply map_eq. intros k. rewrite enforce_dict_lookup.
  unfold dict_get at 1. rewrite enforce_dict_lookup.
  destruct (bool_decide (k ∈ FIELD_KEYS)); simpl; [|done].
  destruct (rejected _ (dict_get d k)) eqn:Hrej; simpl; [done|].
  fold (dict_get d k). by rewrite Hrej.
Qed.

(** A string that survives the verifier occurs in the source. *)
Lemma enforce_dict_kept_string (d : gmap string PyVal) raw_text k s :
  k ∈ FIELD_KEYS →
  enforce_dict d raw_text !! k = Some (PyStr s) →
  d !! k = Some (PyStr s)
  ∧ contains (normalize s) (normalize raw_text) = true.
Proof.
  intros Hk. rewrite enforce_dict_lookup.
  rewrite (bool_decide_eq_true_2 _ Hk). simpl.
  destruct (rejected _ _) eqn:Hrej; [done|]. intros Hd. split; [done|].
  unfold dict_get in Hrej. rewrite Hd in Hrej. simpl in Hrej.
  apply andb_false_iff in Hrej as [Hn | Hc].
  - apply negb_false_iff, string_eqb_empty in Hn. rewrite Hn.
    apply contains_empty.
  - by apply negb_false_iff in Hc.
Qed.

(* ===================================================================== *)
(** * The extraction call, case by case *)
(* ===================================================================== *)

Lemma null_fields_lookup (k : string) :
  k ∈ FIELD_KEYS → null_fields !! k = Some PyNone.
Proof.
  unfold FIELD_KEYS. rewrite !elem_of_cons, elem_of_nil.
  intros [->|[->|[->|[->|[->|[]]]]]]; by vm_compute.
Qed.

Lemma field_key_not_reserved (k : string) :
  k ∈ FIELD_KEYS →
  k ≠ "raw_text" ∧ k ≠ "_error" ∧ k ≠ "_raw_model_output".
Proof.
  unfold FIELD_KEYS. rewrite !elem_of_cons, elem_of_nil.
  intros [->|[->|[->|[->|[->|[]]]]]]; done.
Qed.

Lemma failure_dict_field raw_text exc (k : string) :
  k ∈ FIELD_KEYS → failure_dict raw_text exc !! k = Some PyNone.
Proof.
  intros Hk. destruct (field_key_not_reserved k Hk) as (? & ? & ?).
  unfold failure_dict. rewrite !lookup_insert_ne by done.
  by apply null_fields_lookup.
Qed.

Lemma fallback_dict_field text (k : string) :
  k ∈ FIELD_KEYS → fallback_dict text !! k = Some PyNone.
Proof.
  intros Hk. destruct (field_key_not_reserved k Hk) as (? & ? & ?).
  unfold fallback_dict. rewrite lookup_insert_ne by done.
  by apply null_fields_lookup.
Qed.

Lemma not_rejected_of_none ocr_norm (d : gmap string PyVal) (k : string) :
  d !! k = Some PyNone → rejected ocr_norm (dict_get d k) = false.
Proof. intros Hk. unfold dict_get. by rewrite Hk. Qed.

(** The verifier leaves the dictionary of the decode-error branch as
    it is. *)
Lemma enforce_fallback_dict text raw_text :
  enforce_dict (fallback_dict text) raw_text = fallback_dict text.
Proof.
  apply map_eq. intros k. rewrite enforce_dict_lookup.
  case_bool_decide as Hk; simpl; [|done].
  by rewrite (not_rejected_of_none _ _ _ (fallback_dict_field text k Hk)).
Qed.

Lemma null_fields_dom :
  dom null_fields = list_to_set FIELD_KEYS.
Proof. unfold null_fields. rewrite !dom_insert_L, dom_empty_L. set_solver. Qed.

Section ExtractionFacts.

Variable cfg : Config.
Variable generate_content : string -> string -> PyResult string.
Variable json_loads : string -> PyResult PyVal.

Notation extract :=
  (extract_fields_with_gemini cfg generate_content json_loads).
Notation Origin := (Origin cfg generate_content json_loads).

Lemma extract_of_origin raw_text r :
  Origin raw_text r → extract raw_text = Ok (PyDict r).
Proof.
  unfold extract_fields_with_gemini.
  intros [model exc Hm Hg | model response msg Hm Hg Hj
         | model response d Hm Hg Hj];
    rewrite Hm; run; rewrite Hg; [reflexivity| |]; rewrite Hj; run.
  - by rewrite enforce_fallback_dict.
  - reflexivity.
Qed.

Lemma origin_of_extract raw_text v :
  extract raw_text = Ok v → ∃ r, v = PyDict r ∧ Origin raw_text r.
Proof.
  unfold extract_fields_with_gemini.
  destruct (_get_model cfg) as [model|e] eqn:Hm; run; [|discriminate].
  destruct (generate_content model _) as [response|exc] eqn:Hg.
  - destruct (json_loads _) as [data|e] eqn:Hj; run.
    + destruct data; run; try discriminate.
      intros [= <-]. eexists; split; [reflexivity|].
      by eapply object_decoded.
    + destruct e; run; try discriminate. rewrite enforce_fallback_dict.
      intros [= <-]. eexists; split; [reflexivity|].
      by eapply decode_failed.
  - intros [= <-]. eexists; split; [reflexivity|]. by eapply call_failed.
Qed.

(** A string among the five fields of a result occurs in the source. *)
Lemma origin_string_field raw_text r (k s : string) :
  Origin raw_text r → k ∈ FIELD_KEYS → r !! k = Some (PyStr s) →
  contains (normalize s) (normalize raw_text) = true.
Proof.
  intros Horigin Hk. destruct (field_key_not_reserved k Hk) as (? & ? & ?).
  destruct Horigin.
  - by rewrite failure_dict_field.
  - rewrite lookup_insert_ne by done. by rewrite fallback_dict_field.
  - rewrite lookup_insert_ne by done. intros Hr.
    by apply enforce_dict_kept_string in Hr as [_ ?].
Qed.

End ExtractionFacts.

(* ===================================================================== *)
(** * Properties of the verifier *)
(* ===================================================================== *)

(** C10: the verification step is idempotent.  For every value and every
    source text, running [_enforce_substring_constraints] on its own
    result with the same source text gives the same outcome as running it
    once (the same dictionary, or the same exception when the value is not
    a dictionary). *)
Theorem enforce_substring_constraints_idempotent
    (data : PyVal) (raw_text : string) :
  (once ← _enforce_substring_constraints data raw_text;
   _enforce_substring_constraints once raw_text)
  = _enforce_substring_constraints data raw_text.
Proof.
  destruct data; try reflexivity.
  run. by rewrite enforce_dict_idem.
Qed.

(** C4: for a dictionary [d] and a field [k] of the five that holds a
    string [s], the verifier returns a dictionary in which [k] is null
    when the normal form of [s] does not occur in the normalized source,
    and holds [s] unchanged when it occurs.  The nulling is silent: the
    result has the keys of [d] and no other, and every key outside the
    five keeps its value. *)
Theorem verifier_nulls_absent_keeps_present
    (d : gmap string PyVal) (raw_text k s : string) :
  k ∈ FIELD_KEYS →
  d !! k = Some (PyStr s) →
  ∃ d', _enforce_substring_constraints (PyDict d) raw_text = Ok (PyDict d')
    ∧ (¬ is_substring (normalize s) (normalize raw_text) →
       d' !! k = Some PyNone)
    ∧ (is_substring (normalize s) (normalize raw_text) →
       d' !! k = Some (PyStr s))
    ∧ dom d' = dom d
    ∧ (∀ k', k' ∉ FIELD_KEYS → d' !! k' = d !! k').
Proof.
  intros Hk Hd. exists (enforce_dict d raw_text).
  split; [reflexivity|].
  assert (enforce_dict d raw_text !! k
          = if contains (normalize s) (normalize raw_text)
            then Some (PyStr s) else Some PyNone) as Hlook.
  { rewrite enforce_dict_lookup, (bool_decide_eq_true_2 _ Hk).
    unfold dict_get. rewrite Hd. simpl.
    destruct (contains _ _) eqn:Hc; simpl.
    - by rewrite andb_false_r.
    - rewrite andb_true_r.
      destruct (String.eqb _ _) eqn:He; [|done].
      apply string_eqb_empty in He. rewrite He in Hc.
      by rewrite contains_empty in Hc. }
  rewrite <- contains_spec. rewrite Hlook.
  destruct (contains _ _); repeat split; try done.
  - apply enforce_dict_dom.
  - intros k' Hk'. rewrite enforce_dict_lookup.
    by rewrite (bool_decide_eq_false_2 _ Hk').
  - apply enforce_dict_dom.
  - intros k' Hk'. rewrite enforce_dict_lookup.
    by rewrite (bool_decide_eq_false_2 _ Hk').
Qed.

(** The example of the specification: the date of birth is nulled. *)
Lemma verifier_nulls_absent_keeps_present_witness :
  "dob" ∈ FIELD_KEYS
  ∧ texas_parsed !! "dob" = Some (PyStr "1990-01-01")
  ∧ ∃ d', _enforce_substring_constraints (PyDict texas_parsed) texas
          = Ok (PyDict d')
    ∧ (¬ is_substring (normalize "1990-01-01") (normalize texas) →
       d' !! "dob" = Some PyNone)
    ∧ (is_substring (normalize "1990-01-01") (normalize texas) →
       d' !! "dob" = Some (PyStr "1990-01-01"))
    ∧ dom d' = dom texas_parsed
    ∧ (∀ k', k' ∉ FIELD_KEYS → d' !! k' = texas_parsed !! k').
Proof.
  assert ("dob" ∈ FIELD_KEYS) as Hk by (right; left).
  assert (texas_parsed !! "dob" = Some (PyStr "1990-01-01")) as Hd
    by (vm_compute; reflexivity).
  split; [exact Hk|]. split; [exact Hd|].
  exact (verifier_nulls_absent_keeps_present texas_parsed texas
           "dob" "1990-01-01" Hk Hd).
Defined.

(** The same example, run: the name is kept and the date is nulled. *)
Example verifier_on_texas :
  _enforce_substring_constraints (PyDict texas_parsed) texas
  = Ok (PyDict (<["name" := PyStr "John Smith"]> (<["dob" := PyNone]> ∅))).
Proof. vm_compute. reflexivity. Qed.

(* ===================================================================== *)
(** * Properties of the extraction call *)
(* ===================================================================== *)

(** When the call returns at all: the key is configured, and the model
    call fails, or its answer is not valid JSON, or it decodes to an
    object. *)
Lemma extract_returns_iff cfg generate_content json_loads raw_text v :
  extract_fields_with_gemini cfg generate_content json_loads raw_text = Ok v
  ↔ ∃ r, v = PyDict r ∧ Origin cfg generate_content json_loads raw_text r.
Proof.
  split; [apply origin_of_extract|].
  intros [r [-> Hr]]. by apply extract_of_origin.
Qed.

(** The dictionary of a failed call. *)
Lemma model_failure_gives_null_fields_core raw_text exc :
  all_fields_null (failure_dict raw_text exc)
  ∧ failure_dict raw_text exc !! "raw_text" = Some (PyStr raw_text)
  ∧ failure_dict raw_text exc !! "_error"
    = Some (PyStr ("Gemini request failed: " ++ exn_str exc))
  ∧ dom (failure_dict raw_text exc)
    = list_to_set FIELD_KEYS ∪ {["raw_text"; "_error"]}.
Proof.
  split; [|split; [|split]].
  - intros k Hk. unfold dict_get. by rewrite failure_dict_field.
  - unfold failure_dict. rewrite lookup_insert_ne by done.
    apply lookup_insert_eq.
  - apply lookup_insert_eq.
  - unfold failure_dict. rewrite !dom_insert_L, null_fields_dom. set_solver.
Qed.

(** The dictionary of an answer that is not valid JSON. *)
Lemma decode_failure_gives_null_fields_core raw_text text :
  let r := <["raw_text" := PyStr raw_text]> (fallback_dict text) in
  all_fields_null r
  ∧ r !! "_raw_model_output" = Some (PyStr text)
  ∧ r !! "raw_text" = Some (PyStr raw_text)
  ∧ dom r = list_to_set FIELD_KEYS ∪ {["raw_text"; "_raw_model_output"]}.
Proof.
  split; [|split; [|split]].
  - intros k Hk. destruct (field_key_not_reserved k Hk) as (? & ? & ?).
    unfold dict_get. rewrite lookup_insert_ne by done.
    by rewrite fallback_dict_field.
  - rewrite lookup_insert_ne by done. apply lookup_insert_eq.
  - apply lookup_insert_eq.
  - unfold fallback_dict. rewrite !dom_insert_L, null_fields_dom. set_solver.
Qed.

(** X19: what the verifier does enforce.  For every configuration, model,
    JSON reader and source text, whenever [extract_fields_with_gemini]
    returns, it returns a dictionary in which each of the five keys that
    holds a string holds one whose normal form (lowercased, whitespace
    collapsed) occurs as a contiguous substring of the normalized source
    text. *)
Theorem extracted_strings_occur_in_source
    cfg generate_content json_loads (raw_text : string) (v : PyVal) :
  extract_fields_with_gemini cfg generate_content json_loads raw_text = Ok v →
  ∃ r, v = PyDict r
    ∧ ∀ k s, k ∈ FIELD_KEYS → r !! k = Some (PyStr s) →
        is_substring (normalize s) (normalize raw_text).
Proof.
  intros [r [-> Hr]]%origin_of_extract. exists r. split; [reflexivity|].
  intros k s Hk Hs. apply contains_spec. by eapply origin_string_field.
Qed.

Lemma extracted_strings_occur_in_source_witness :
  extract_fields_with_gemini sample_cfg (answering texas_answer) json_reader
    texas = Ok texas_result
  ∧ ∃ r, texas_result = PyDict r
    ∧ ∀ k s, k ∈ FIELD_KEYS → r !! k = Some (PyStr s) →
        is_substring (normalize s) (normalize texas).
Proof.
  assert (extract_fields_with_gemini sample_cfg (answering texas_answer)
            json_reader texas = Ok texas_result) as Hrun
    by (vm_compute; reflexivity).
  split; [exact Hrun|].
  exact (extracted_strings_occur_in_source sample_cfg
           (answering texas_answer) json_reader texas texas_result Hrun).
Defined.

(** C1 fails on the code: a number sent by the model under the key [name]
    is not null and occurs nowhere in the source text, and it is returned
    as it came, because the verifier looks at strings only. *)
Lemma number_field_is_not_grounded :
  ∃ r, extract_fields_with_gemini sample_cfg (answering number_answer)
         json_reader texas = Ok (PyDict r)
    ∧ r !! "name" = Some (PyInt 42)
    ∧ ¬ fields_grounded texas r.
Proof.
  eexists. split; [vm_compute; reflexivity|].
  split; [vm_compute; reflexivity|].
  intros Hg.
  destruct (Hg "name" (PyInt 42)) as [s [Hs _]];
    [left | vm_compute; reflexivity | discriminate | discriminate].
Qed.

(** C2, as amended: when the key is configured and the model call
    raises, [extract_fields_with_gemini] returns (it does not raise) the
    dictionary with the five fields null, [raw_text] the original text and
    [_error] the message of the exception after a fixed prefix, and with
    no other key. *)
Theorem model_failure_gives_null_fields
    cfg generate_content json_loads (raw_text model : string) (exc : PyExn) :
  _get_model cfg = Ok model →
  generate_content model (build_prompt raw_text) = Raise exc →
  ∃ r, extract_fields_with_gemini cfg generate_content json_loads raw_text
       = Ok (PyDict r)
    ∧ all_fields_null r
    ∧ r !! "raw_text" = Some (PyStr raw_text)
    ∧ r !! "_error"
      = Some (PyStr ("Gemini request failed: " ++ exn_str exc))
    ∧ dom r = list_to_set FIELD_KEYS ∪ {["raw_text"; "_error"]}.
Proof.
  intros Hm Hg. exists (failure_dict raw_text exc). split.
  - apply extract_of_origin. by eapply call_failed.
  - apply model_failure_gives_null_fields_core.
Qed.

Lemma model_failure_gives_null_fields_witness :
  _get_model sample_cfg = Ok "gemini-pro"
  ∧ failing (OtherException "NotFound" "model is not supported")
      "gemini-pro" (build_prompt texas)
    = Raise (OtherException "NotFound" "model is not supported")
  ∧ ∃ r, extract_fields_with_gemini sample_cfg
           (failing (OtherException "NotFound" "model is not supported"))
           json_reader texas = Ok (PyDict r)
    ∧ all_fields_null r
    ∧ r !! "raw_text" = Some (PyStr texas)
    ∧ r !! "_error"
      = Some (PyStr ("Gemini request failed: "
                     ++ exn_str (OtherException "NotFound"
                                   "model is not supported")))
    ∧ dom r = list_to_set FIELD_KEYS ∪ {["raw_text"; "_error"]}.
Proof.
  split; [reflexivity|]. split; [reflexivity|].
  exact (model_failure_gives_null_fields sample_cfg
           (failing (OtherException "NotFound" "model is not supported"))
           json_reader texas "gemini-pro"
           (OtherException "NotFound" "model is not supported")
           eq_refl eq_refl).
Defined.

(** C2 as stated fails: with the key missing, [_get_model] raises before
    the guarded call, and the exception leaves the function. *)
Lemma missing_key_raises :
  extract_fields_with_gemini unset_cfg (answering texas_answer) json_reader
    texas
  = Raise (RuntimeError
             "GEMINI_API_KEY is not set in environment or .env file").
Proof. reflexivity. Qed.

(** C3, as amended: when the key is configured, the model answers, and
    [json.loads] raises [JSONDecodeError] on the answer stripped of
    surrounding whitespace and of its code-fence lines,
    [extract_fields_with_gemini] returns a dictionary with the five fields
    null and [_raw_model_output] set to that stripped text (next to
    [raw_text], and no other key). *)
Theorem malformed_json_gives_null_fields
    cfg generate_content json_loads (raw_text model response msg : string) :
  _get_model cfg = Ok model →
  generate_content model (build_prompt raw_text) = Ok response →
  json_loads (strip_code_fence (strip response))
    = Raise (JSONDecodeError msg) →
  ∃ r, extract_fields_with_gemini cfg generate_content json_loads raw_text
       = Ok (PyDict r)
    ∧ all_fields_null r
    ∧ r !! "_raw_model_output"
      = Some (PyStr (strip_code_fence (strip response)))
    ∧ r !! "raw_text" = Some (PyStr raw_text)
    ∧ dom r
      = list_to_set FIELD_KEYS ∪ {["raw_text"; "_raw_model_output"]}.
Proof.
  intros Hm Hg Hj.
  exists (<["raw_text" := PyStr raw_text]>
            (fallback_dict (strip_code_fence (strip response)))).
  split.
  - apply extract_of_origin. by eapply decode_failed.
  - apply decode_failure_gives_null_fields_core.
Qed.

Lemma malformed_json_gives_null_fields_witness :
  _get_model sample_cfg = Ok "gemini-pro"
  ∧ answering fenced_prose "gemini-pro" (build_prompt texas)
    = Ok fenced_prose
  ∧ json_loads_is_decode_error json_reader
      (strip_code_fence (strip fenced_prose))
  ∧ strip_code_fence (strip fenced_prose) = "I could not read the form."
  ∧ ∃ r, extract_fields_with_gemini sample_cfg (answering fenced_prose)
           json_reader texas = Ok (PyDict r)
    ∧ all_fields_null r
    ∧ r !! "_raw_model_output"
      = Some (PyStr (strip_code_fence (strip fenced_prose)))
    ∧ r !! "raw_text" = Some (PyStr texas)
    ∧ dom r
      = list_to_set FIELD_KEYS ∪ {["raw_text"; "_raw_model_output"]}.
Proof.
  assert (json_reader (strip_code_fence (strip fenced_prose))
          = Raise (JSONDecodeError "Expecting value")) as Hj
    by (vm_compute; reflexivity).
  split; [reflexivity|]. split; [reflexivity|].
  split; [by exists "Expecting value"|].
  split; [vm_compute; reflexivity|].
  exact (malformed_json_gives_null_fields sample_cfg
           (answering fenced_prose) json_reader texas "gemini-pro"
           fenced_prose "Expecting value" eq_refl eq_refl Hj).
Defined.

(** C3 as stated fails: the answer [{"name": NaN}] is not valid JSON, the
    grammar of JSON having no NaN, and [json.loads] decodes it all the
    same.  The answer is then treated as a decoded object: nothing is kept
    under [_raw_model_output], and the name comes back as that float. *)
Lemma nan_answer_is_not_valid_json_and_decodes :
  strip_code_fence (strip nan_answer) = nan_answer
  ∧ not_valid_json nan_answer
  ∧ ∃ r, extract_fields_with_gemini sample_cfg (answering nan_answer)
           json_reader texas = Ok (PyDict r)
      ∧ r !! "name" = Some (PyFloat nan)
      ∧ r !! "_raw_model_output" = None
      ∧ ¬ fallback_result nan_answer r.
Proof.
  split; [vm_compute; reflexivity|].
  split; [exists "Expecting value"; vm_compute; reflexivity|].
  eexists. split; [vm_compute; reflexivity|].
  split; [vm_compute; reflexivity|].
  split; [vm_compute; reflexivity|].
  intros [_ Hraw]. vm_compute in Hraw. discriminate Hraw.
Qed.

Lemma normalize_of_empty : normalize EmptyString = EmptyString.
Proof. reflexivity. Qed.

(** Against the empty source a string is rejected exactly when it has a
    visible character. *)
Lemma rejected_on_empty_source (s : string) :
  rejected (normalize EmptyString) (PyStr s) = negb (whitespace_only s).
Proof.
  rewrite normalize_of_empty. cbn [rejected].
  destruct (whitespace_only s) eqn:Hw.
  - apply normalize_empty_iff in Hw. by rewrite Hw.
  - destruct (String.eqb (normalize s) EmptyString) eqn:He.
    + apply String.eqb_eq, normalize_empty_iff in He. congruence.
    + destruct (contains (normalize s) EmptyString) eqn:Hc; [|done].
      apply contains_in_empty in Hc. rewrite Hc in He. done.
Qed.

Lemma origin_of_usable_answer cfg generate_content json_loads raw_text :
  answer_is_usable cfg generate_content json_loads raw_text →
  ∃ r, Origin cfg generate_content json_loads raw_text r.
Proof.
  intros [model [Hm Hcall]].
  destruct (generate_content model _) as [response|exc] eqn:Hg.
  - destruct (json_loads _) as [data|e] eqn:Hj.
    + destruct data; try done. eexists. by eapply object_decoded.
    + destruct e; try done. eexists. by eapply decode_failed.
  - eexists. by eapply call_failed.
Qed.

(** C5, as amended: for the empty source text, when the key is
    configured and the model call fails, or [json.loads] raises
    [JSONDecodeError] on the answer, or the answer decodes to an object,
    [extract_fields_with_gemini] returns a dictionary.  No field of the
    five holds a string with a visible character in it.  After a failed
    call or a decode error the five fields are null; after a decoded
    object, each of the five that the object held as a string is null when
    the string has a visible character and is that string when it is empty
    or made of whitespace. *)
Theorem empty_source_keeps_no_visible_string
    cfg generate_content json_loads :
  answer_is_usable cfg generate_content json_loads EmptyString →
  ∃ r, extract_fields_with_gemini cfg generate_content json_loads EmptyString
       = Ok (PyDict r)
    ∧ (∀ k s, k ∈ FIELD_KEYS → r !! k = Some (PyStr s) →
         whitespace_only s = true)
    ∧ ∀ model, _get_model cfg = Ok model →
        match generate_content model (build_prompt EmptyString) with
        | Raise _ => all_fields_null r
        | Ok response =>
            match json_loads (strip_code_fence (strip response)) with
            | Ok (PyDict d) =>
                ∀ k s, k ∈ FIELD_KEYS → d !! k = Some (PyStr s) →
                  r !! k
                  = Some (if whitespace_only s then PyStr s else PyNone)
            | _ => all_fields_null r
            end
        end.
Proof.
  intros [r Hr]%origin_of_usable_answer. exists r.
  split; [by apply extract_of_origin|]. split.
  - intros k s Hk Hs. apply normalize_empty_iff.
    apply contains_in_empty.
    apply (origin_string_field _ _ _ EmptyString r k s Hr Hk Hs).
  - intros model Hm.
    destruct Hr as [model' exc Hm' Hg | model' response msg Hm' Hg Hj
                   | model' response d Hm' Hg Hj];
      rewrite Hm in Hm'; injection Hm' as <-; rewrite Hg.
    + apply model_failure_gives_null_fields_core.
    + rewrite Hj.
      apply (decode_failure_gives_null_fields_core EmptyString).
    + rewrite Hj. intros k s Hk Hd.
      destruct (field_key_not_reserved k Hk) as (Hne & _).
      rewrite lookup_insert_ne by done. rewrite enforce_dict_lookup.
      rewrite (bool_decide_eq_true_2 _ Hk). unfold dict_get. rewrite Hd.
      change (default PyNone (Some (PyStr s))) with (PyStr s).
      rewrite rejected_on_empty_source.
      by destruct (whitespace_only s).
Qed.

Lemma empty_source_keeps_no_visible_string_witness :
  answer_is_usable sample_cfg (answering blank_dob_answer) json_reader
    EmptyString
  ∧ ∃ r, extract_fields_with_gemini sample_cfg (answering blank_dob_answer)
           json_reader EmptyString = Ok (PyDict r)
    ∧ (∀ k s, k ∈ FIELD_KEYS → r !! k = Some (PyStr s) →
         whitespace_only s = true)
    ∧ ∀ model, _get_model sample_cfg = Ok model →
        match answering blank_dob_answer model (build_prompt EmptyString) with
        | Raise _ => all_fields_null r
        | Ok response =>
            match json_reader (strip_code_fence (strip response)) with
            | Ok (PyDict d) =>
                ∀ k s, k ∈ FIELD_KEYS → d !! k = Some (PyStr s) →
                  r !! k
                  = Some (if whitespace_only s then PyStr s else PyNone)
            | _ => all_fields_null r
            end
        end.
Proof.
  assert (answer_is_usable sample_cfg (answering blank_dob_answer)
            json_reader EmptyString) as Husable.
  { exists "gemini-pro". split; [reflexivity|]. vm_compute. exact I. }
  split; [exact Husable|].
  exact (empty_source_keeps_no_visible_string sample_cfg
           (answering blank_dob_answer) json_reader Husable).
Defined.

(** C5 as stated fails: on the empty source text an empty string sent by
    the model comes back as it is, not as null, while the name, which has
    visible characters, is nulled. *)
Lemma empty_source_keeps_empty_string :
  ∃ r, extract_fields_with_gemini sample_cfg (answering blank_dob_answer)
         json_reader EmptyString = Ok (PyDict r)
    ∧ r !! "name" = Some PyNone
    ∧ r !! "dob" = Some (PyStr EmptyString)
    ∧ ¬ all_fields_null r.
Proof.
  eexists. split; [vm_compute; reflexivity|].
  split; [vm_compute; reflexivity|].
  split; [vm_compute; reflexivity|].
  intros Hnull. specialize (Hnull "dob"). vm_compute in Hnull.
  assert (PyStr EmptyString = PyNone) as Habs
    by (apply Hnull; right; left).
  discriminate Habs.
Qed.




(* ===================================================================== *)
(** * Facts about paths *)
(* ===================================================================== *)

Lemma has_slash_app (a b : string) :
  has_slash (a ++ b) = has_slash a || has_slash b.
Proof.
  induction a as [|c a IH]; [done|].
  rewrite append_cons. simpl. by rewrite IH, orb_assoc.
Qed.

Lemma split_slash_from_single (piece s : string) :
  has_slash s = false → split_slash_from piece s = [(piece ++ s)%string].
Proof.
  revert piece. induction s as [|c s IH]; intros piece; simpl.
  - by rewrite append_empty_r.
  - intros [Hc Hs]%orb_false_iff. rewrite Hc, (IH _ Hs).
    by rewrite append_assoc.
Qed.

Lemma split_slash_from_pieces (piece s p : string) :
  has_slash piece = false → p ∈ split_slash_from piece s →
  has_slash p = false.
Proof.
  revert piece. induction s as [|c s IH]; intros piece Hpiece; simpl.
  - by intros ->%list_elem_of_singleton.
  - destruct (Ascii.eqb c SLASH) eqn:Hc.
    + intros [->|Hin]%elem_of_cons; [done | by apply (IH EmptyString)].
    + apply IH. rewrite has_slash_app, Hpiece. simpl. by rewrite Hc.
Qed.

Lemma root_of_no_slash (s : string) :
  has_slash s = false → root_of s = EmptyString.
Proof.
  destruct s as [|a [|b rest]]; simpl; try done.
  - by intros ->%orb_false_iff%proj1.
  - by intros ->%orb_false_iff%proj1.
Qed.

(** Joining one plain component: it becomes the last component. *)
Lemma path_join_component (p : Path) (seg : string) :
  has_slash seg = false → is_component seg = true →
  path_join p seg = {| root := root p; comps := comps p ++ [seg] |}.
Proof.
  intros Hs Hc. unfold path_join, path_of. cbn [root comps].
  rewrite (root_of_no_slash _ Hs). unfold split_slash.
  rewrite (split_slash_from_single _ _ Hs).
  change (EmptyString ++ seg)%string with seg. simpl. by rewrite Hc.
Qed.

Lemma path_join_name_parent (p : Path) (seg : string) :
  has_slash seg = false → is_component seg = true →
  path_name (path_join p seg) = seg ∧ path_parent (path_join p seg) = p.
Proof.
  intros Hs Hc. rewrite (path_join_component _ _ Hs Hc).
  unfold path_name, path_parent. cbn [root comps].
  rewrite last_last, removelast_last. by destruct p.
Qed.

Lemma last_elem_of {A} (l : list A) (d : A) :
  List.last l d = d ∨ List.last l d ∈ l.
Proof.
  destruct l as [|x l _] using rev_ind; [by left|].
  right. rewrite last_last. apply elem_of_app. right. by left.
Qed.

Lemma path_name_no_slash (s : string) :
  has_slash (path_name (path_of s)) = false.
Proof.
  unfold path_name, path_of. cbn [comps].
  destruct (last_elem_of (List.filter is_component (split_slash s))
              EmptyString)
    as [-> | Hin]; [done|].
  apply list_elem_of_In, filter_In in Hin as [Hin _].
  apply list_elem_of_In in Hin.
  by apply (split_slash_from_pieces EmptyString s).
Qed.

Lemma rsplit_dot_app (name before after : string) :
  rsplit_dot name = Some (before, after) → name = (before ++ after)%string.
Proof.
  revert before. induction name as [|c name IH]; intros before; [done|].
  simpl. destruct (rsplit_dot name) as [[b a]|].
  - intros [= <- <-]. rewrite append_cons. by rewrite (IH b).
  - destruct (Ascii.eqb c DOT); [|done]. by intros [= <- <-].
Qed.

Lemma split_suffix_app (name : string) :
  name = (fst (split_suffix name) ++ snd (split_suffix name))%string.
Proof.
  unfold split_suffix. destruct (rsplit_dot name) as [[b a]|] eqn:Hr.
  - destruct (_ && _); simpl;
      [by apply rsplit_dot_app | by rewrite append_empty_r].
  - simpl. by rewrite append_empty_r.
Qed.

Lemma path_stem_no_slash (s : string) :
  has_slash (path_stem (path_of s)) = false.
Proof.
  pose proof (path_name_no_slash s) as Hn.
  rewrite (split_suffix_app (path_name (path_of s))), has_slash_app in Hn.
  by apply orb_false_iff in Hn as [? _].
Qed.

Lemma filled_name_is_component (stem : string) :
  has_slash stem = false →
  has_slash (stem ++ "_filled.pdf") = false
  ∧ is_component (stem ++ "_filled.pdf") = true.
Proof.
  intros Hs. split; [by rewrite has_slash_app, Hs|].
  unfold is_component. destruct stem as [|c stem]; [reflexivity|].
  rewrite append_cons. simpl.
  destruct stem as [|c' stem]; [|rewrite append_cons]; simpl;
    by destruct (Ascii.eqb c ".").
Qed.

(** Reading a path string back gives the path it was printed from. *)
Lemma split_slash_from_sep (piece a rest : string) :
  has_slash a = false →
  split_slash_from piece (a ++ String SLASH rest)
  = (piece ++ a)%string :: split_slash_from EmptyString rest.
Proof.
  revert piece. induction a as [|c a IH]; intros piece.
  - intros _. by rewrite append_empty_r.
  - intros [Hc Ha]%orb_false_iff. rewrite append_cons. simpl. rewrite Hc.
    rewrite (IH _ Ha). by rewrite append_assoc.
Qed.

Lemma split_slash_from_join (piece c : string) (cs : list string) :
  Forall (λ x, has_slash x = false) (c :: cs) →
  split_slash_from piece (join "/" (c :: cs)) = (piece ++ c)%string :: cs.
Proof.
  revert piece c. induction cs as [|c' cs IH]; intros piece c Hall.
  - apply split_slash_from_single. by inversion Hall.
  - inversion Hall as [|? ? Hc Hrest]; subst.
    change (join "/" (c :: c' :: cs))
      with (c ++ String SLASH (join "/" (c' :: cs)))%string.
    rewrite (split_slash_from_sep _ _ _ Hc). by rewrite (IH _ _ Hrest).
Qed.

Lemma filter_components (cs : list string) :
  Forall (λ x, has_slash x = false ∧ is_component x = true) cs →
  List.filter is_component cs = cs.
Proof.
  induction 1 as [|c cs [_ Hc] _ IH]; [done|]. simpl. by rewrite Hc, IH.
Qed.

Lemma filter_skips_empty (cs : list string) :
  List.filter is_component (EmptyString :: cs) = List.filter is_component cs.
Proof. reflexivity. Qed.

Lemma path_of_str (p : Path) :
  well_formed p → comps p ≠ [] → path_of (path_str p) = p.
Proof.
  destruct p as [r cs]. intros [Hroot Hall] Hne. simpl in *.
  destruct cs as [|c cs]; [done|].
  assert (Forall (λ x, has_slash x = false) (c :: cs)) as Hplain.
  { eapply Forall_impl; [exact Hall|]. by intros ? [? _]. }
  pose proof (filter_components _ Hall) as Hfilter.
  assert (∃ a c', c = String a c' ∧ Ascii.eqb a SLASH = false)
    as (a & c' & -> & Ha).
  { inversion Hall as [|? ? [Hs Hc] _]; subst. destruct c as [|a c'].
    - done.
    - exists a, c'. split; [done|]. simpl in Hs.
      by apply orb_false_iff in Hs as [? _]. }
  assert (∃ tl, join "/" (String a c' :: cs) = String a tl) as [tl Htl].
  { destruct cs; simpl; eauto. }
  assert (path_str {| root := r; comps := String a c' :: cs |}
          = (r ++ join "/" (String a c' :: cs))%string) as Hstr
    by (by destruct r).
  unfold path_of. rewrite Hstr. unfold split_slash.
  destruct Hroot as [-> | [-> | ->]].
  - change (EmptyString ++ join "/" (String a c' :: cs))%string
      with (join "/" (String a c' :: cs)).
    rewrite (split_slash_from_join _ _ _ Hplain).
    change (EmptyString ++ String a c')%string with (String a c').
    rewrite Hfilter. f_equal. rewrite Htl. simpl.
    destruct tl; by rewrite Ha.
  - change ("/" ++ join "/" (String a c' :: cs))%string
      with (String SLASH (join "/" (String a c' :: cs))).
    cbn [split_slash_from]. rewrite Ascii.eqb_refl.
    rewrite (split_slash_from_join _ _ _ Hplain).
    change (EmptyString ++ String a c')%string with (String a c').
    rewrite !filter_skips_empty, Hfilter. f_equal. rewrite Htl. simpl. by rewrite Ha.
  - change ("//" ++ join "/" (String a c' :: cs))%string
      with (String SLASH (String SLASH (join "/" (String a c' :: cs)))).
    cbn [split_slash_from]. rewrite !Ascii.eqb_refl.
    rewrite (split_slash_from_join _ _ _ Hplain).
    change (EmptyString ++ String a c')%string with (String a c').
    rewrite !filter_skips_empty, Hfilter. f_equal. rewrite Htl. simpl. by rewrite Ha.
Qed.

Lemma root_of_cases (s : string) :
  root_of s = EmptyString ∨ root_of s = "/" ∨ root_of s = "//".
Proof.
  destruct s as [|a [|b [|c rest]]]; simpl;
    repeat (match goal with |- context [if ?b then _ else _] =>
              destruct b end); auto.
Qed.

Lemma path_of_well_formed (s : string) : well_formed (path_of s).
Proof.
  split; [apply root_of_cases|]. simpl.
  apply Forall_forall. intros c Hin.
  apply list_elem_of_In, filter_In in Hin as [Hin Hc].
  split; [|done]. apply list_elem_of_In in Hin.
  by apply (split_slash_from_pieces EmptyString s).
Qed.

(** The string printed for a joined path reads back as that path. *)
Lemma path_join_round_trip (s seg : string) :
  has_slash seg = false → is_component seg = true →
  path_of (path_str (path_join (path_of s) seg)) = path_join (path_of s) seg.
Proof.
  intros Hs Hc. rewrite (path_join_component _ _ Hs Hc).
  apply path_of_str.
  - destruct (path_of_well_formed s) as [Hroot Hall]. split; [done|].
    simpl. apply Forall_app. split; [done|]. by repeat constructor.
  - simpl. intros Hnil. by apply app_eq_nil in Hnil as [_ ?].
Qed.

(* ===================================================================== *)
(** * The template filler, branch by branch *)
(* ===================================================================== *)

Section TemplateFillerFacts.

Variable search_for : Page -> string -> list Rect.
Variable py_repr : PyVal -> string.

Notation generate := (generate_filled_pdf search_for py_repr).
Notation place_one := (place_label search_for py_repr).
Notation place_all := (place_labels search_for py_repr).

Lemma generate_without_template fs fields output_dir template_path :
  mkdir fs (path_of output_dir) = Ok tt →
  pdf_template fs (path_of <$> template_path) = None →
  let pdf_path := path_join (path_of output_dir) "filled_form.pdf" in
  generate fs fields output_dir template_path
  = Ok (path_str pdf_path,
        save fs [blank_page]
          (insert_text blank_page 72 72
             (summary_text py_repr (field_of fields "name")
                (field_of fields "dob") (field_of fields "address")
                (field_of fields "phone") (field_of fields "email")) 12)
          (path_str pdf_path)).
Proof.
  intros Hmk Hno. unfold generate_filled_pdf. rewrite Hmk.
  cbn [mbind PyResult_bind]. by rewrite Hno.
Qed.

Lemma generate_with_template fs fields output_dir template_path t doc page :
  mkdir fs (path_of output_dir) = Ok tt →
  pdf_template fs (path_of <$> template_path) = Some t →
  fitz_open fs (path_str t) = Ok doc →
  first_page doc = Ok page →
  let pdf_path :=
    path_join (path_of output_dir) (path_stem t ++ "_filled.pdf") in
  generate fs fields output_dir template_path
  = Ok (path_str pdf_path,
        save fs doc
          (place_all page
             (label_map (field_of fields "name") (field_of fields "dob")
                (field_of fields "address") (field_of fields "phone")
                (field_of fields "email")))
          (path_str pdf_path)).
Proof.
  intros Hmk Ht Hopen Hpage. unfold generate_filled_pdf. rewrite Hmk.
  cbn [mbind PyResult_bind]. rewrite Ht, Hopen.
  cbn [mbind PyResult_bind]. by rewrite Hpage.
Qed.

(** Insertions only add to the page. *)
Lemma place_label_drawn page entry op :
  op ∈ drawn page → op ∈ drawn (place_one page entry).
Proof.
  destruct entry as [label value]. unfold place_label.
  destruct (truthy value); simpl; [|done].
  destruct (search_for page label); [done|]. simpl.
  intros Hop. apply elem_of_app. by left.
Qed.

(** A truthy value whose label is found is written next to the first
    hit. *)
Lemma place_label_hit page label value rect rects :
  truthy value = true →
  search_for page label = rect :: rects →
  drawn (place_one page (label, value))
  = drawn page
    ++ [ {| op_x := (x1 rect + 8)%float;
            op_y := (y0 rect + (y1 rect - y0 rect) * 0.7)%float;
            op_text := py_str py_repr value; op_fontsize := 10%Z |} ].
Proof. intros Ht Hhit. unfold place_label. by rewrite Ht, Hhit. Qed.

Lemma place_labels_drawn page entries op :
  op ∈ drawn page → op ∈ drawn (place_all page entries).
Proof.
  revert page. induction entries as [|entry entries IH]; intros page; [done|].
  intros Hop. apply IH. by apply place_label_drawn.
Qed.

Lemma place_label_spans page entry :
  spans (place_one page entry) = spans page.
Proof.
  destruct entry as [label value]. unfold place_label.
  destruct (truthy value); simpl; [|done].
  by destruct (search_for page label).
Qed.

(** With no hit for any entry, the page stays as it is. *)
Lemma place_labels_no_hit page entries :
  (∀ label, label ∈ entries.*1 → search_for page label = []) →
  place_all page entries = page.
Proof.
  induction entries as [|[label value] entries IH]; [done|].
  intros Hno. unfold place_labels. simpl.
  rewrite (Hno label) by (simpl; left).
  destruct (truthy value); simpl; apply IH; intros l Hl; apply Hno;
    simpl; by right.
Qed.

Lemma first_page_insert doc page :
  first_page doc = Ok page → <[0%nat := page]> doc = doc.
Proof. destruct doc as [|p doc]; [done|]. by intros [= ->]. Qed.

Lemma first_page_insert_lookup doc page page' :
  first_page doc = Ok page → <[0%nat := page']> doc !! 0%nat = Some page'.
Proof. by destruct doc. Qed.

Lemma truthy_or_empty (v : PyVal) :
  truthy v = true → or_empty v = v.
Proof. unfold or_empty. by intros ->. Qed.

(** Every truthy field value is part of the summary text. *)
Lemma summary_text_lists name dob address phone email v :
  v ∈ [name; dob; address; phone; email] →
  truthy v = true →
  is_substring (py_str py_repr v)
    (summary_text py_repr name dob address phone email).
Proof.
  intros Hv Ht. unfold summary_text. cbn [join].
  rewrite !elem_of_cons, elem_of_nil in Hv.
  destruct Hv as [->|[->|[->|[->|[->|[]]]]]];
    rewrite (truthy_or_empty _ Ht);
    eauto 20 using is_substring_refl, is_substring_app_l, is_substring_app_r.
Qed.

End TemplateFillerFacts.

(* ===================================================================== *)
(** * Properties of the template filler *)
(* ===================================================================== *)

(** A template on which no label is found is saved as it is. *)
Lemma template_without_labels_is_saved_unchanged
    search_for py_repr fs fields output_dir template_path t doc page :
  mkdir fs (path_of output_dir) = Ok tt →
  pdf_template fs (path_of <$> template_path) = Some t →
  fitz_open fs (path_str t) = Ok doc →
  first_page doc = Ok page →
  (∀ label, label ∈ LABELS → search_for page label = []) →
  ∃ path fs',
    generate_filled_pdf search_for py_repr fs fields output_dir template_path
    = Ok (path, fs')
    ∧ fs' !! path = Some (PdfFile doc).
Proof.
  intros Hmk Ht Hopen Hpage Hno. eexists _, _. split.
  - by eapply generate_with_template.
  - unfold save. rewrite lookup_insert_eq. rewrite place_labels_no_hit.
    + by rewrite (first_page_insert _ _ Hpage).
    + exact Hno.
Qed.

(** C6, as amended: for every call in which no template PDF is used (no
    template path is given, or it does not name an existing file with the
    suffix .pdf), the document written is a new document of one page that
    carries one text, the summary, in which every truthy field value, and
    so every string value, of the five fields occurs. *)
Theorem no_template_gives_summary_page
    search_for py_repr fs (fields : PyVal) (output_dir : string)
    (template_path : option string) :
  mkdir fs (path_of output_dir) = Ok tt →
  pdf_template fs (path_of <$> template_path) = None →
  ∃ path fs' text,
    generate_filled_pdf search_for py_repr fs fields output_dir template_path
    = Ok (path, fs')
    ∧ fs' !! path
      = Some (PdfFile
                [ {| spans := [];
                     drawn := [ {| op_x := 72; op_y := 72; op_text := text;
                                   op_fontsize := 12 |} ] |} ])
    ∧ (∀ k, k ∈ FIELD_KEYS → truthy (field_of fields k) = true →
         is_substring (py_str py_repr (field_of fields k)) text)
    ∧ (∀ k s, k ∈ FIELD_KEYS → field_of fields k = PyStr s →
         is_substring s text).
Proof.
  intros Hmk Hno. eexists _, _, _. split.
  { by apply generate_without_template. }
  split; [unfold save; by rewrite lookup_insert_eq|].
  assert (∀ k, k ∈ FIELD_KEYS → truthy (field_of fields k) = true →
            is_substring (py_str py_repr (field_of fields k))
              (summary_text py_repr (field_of fields "name")
                 (field_of fields "dob") (field_of fields "address")
                 (field_of fields "phone") (field_of fields "email")))
    as Hlist.
  { intros k Hk Ht. apply summary_text_lists; [|exact Ht].
    unfold FIELD_KEYS in Hk. rewrite !elem_of_cons, elem_of_nil in Hk.
    rewrite !elem_of_cons.
    destruct Hk as [->|[->|[->|[->|[->|[]]]]]]; auto 10. }
  split; [exact Hlist|].
  intros k s Hk Hs. destruct s as [|c s]; [apply is_substring_empty|].
  specialize (Hlist k Hk). rewrite Hs in Hlist. by apply Hlist.
Qed.

Lemma no_template_gives_summary_page_witness :
  mkdir sample_fs (path_of "/up") = Ok tt
  ∧ pdf_template sample_fs (path_of <$> Some "/up/scan.png") = None
  ∧ ∃ path fs' text,
      generate_filled_pdf sample_search sample_repr sample_fs jane "/up"
        (Some "/up/scan.png") = Ok (path, fs')
      ∧ fs' !! path
        = Some (PdfFile
                  [ {| spans := [];
                       drawn := [ {| op_x := 72; op_y := 72; op_text := text;
                                     op_fontsize := 12 |} ] |} ])
      ∧ (∀ k, k ∈ FIELD_KEYS → truthy (field_of jane k) = true →
           is_substring (py_str sample_repr (field_of jane k)) text)
      ∧ (∀ k s, k ∈ FIELD_KEYS → field_of jane k = PyStr s →
           is_substring s text).
Proof.
  assert (mkdir sample_fs (path_of "/up") = Ok tt) as Hmk
    by (vm_compute; reflexivity).
  assert (pdf_template sample_fs (path_of <$> Some "/up/scan.png") = None)
    as Hno by (vm_compute; reflexivity).
  split; [exact Hmk|]. split; [exact Hno|].
  exact (no_template_gives_summary_page sample_search sample_repr sample_fs
           jane "/up" (Some "/up/scan.png") Hmk Hno).
Defined.

(** C6 as stated fails twice.  A template PDF on which no label is found
    is written back as it is, with none of the field values on it; and
    without a template, a field holding the number zero is not null and
    is not in the summary. *)
Lemma unlabelled_template_gets_no_summary :
  (∀ label, label ∈ LABELS → sample_search blank_page label = [])
  ∧ generate_filled_pdf sample_search sample_repr sample_fs jane "/up"
      (Some "/up/empty.pdf")
    = Ok ("/up/empty_filled.pdf",
          <["/up/empty_filled.pdf" := PdfFile [blank_page]]> sample_fs)
  ∧ ¬ summary_page_of sample_repr jane [blank_page]
  ∧ generate_filled_pdf sample_search sample_repr sample_fs jane_zero
      "/up" None
    = Ok ("/up/filled_form.pdf",
          <["/up/filled_form.pdf" := PdfFile [jane_summary_page]]> sample_fs)
  ∧ ¬ summary_page_of sample_repr jane_zero [jane_summary_page].
Proof.
  split; [by intros label _|].
  split; [vm_compute; reflexivity|].
  split.
  { intros [page [[= <-] Hshows]].
    destruct (Hshows "name") as [[span [Hin _]] | [op [Hin _]]].
    - left.
    - vm_compute. discriminate.
    - by apply elem_of_nil in Hin.
    - by apply elem_of_nil in Hin. }
  split; [vm_compute; reflexivity|].
  intros [page [[= <-] Hshows]].
  destruct (Hshows "phone") as [[span [Hin _]] | [op [Hin Hsub]]].
  - do 3 right. left.
  - vm_compute. discriminate.
  - by apply elem_of_nil in Hin.
  - apply list_elem_of_singleton in Hin as ->.
    apply contains_spec in Hsub. vm_compute in Hsub. discriminate Hsub.
Qed.

(** C7, as amended: when the output directory can be made and the
    template, if one is used, opens as a PDF with a first page,
    [generate_filled_pdf] returns the path of the file it has written;
    read as a path, the returned string has as its name the stem of the
    template followed by [_filled.pdf] when a template PDF is used and
    [filled_form.pdf] otherwise, and as its parent the output directory. *)
Theorem output_path_is_named_after_template
    search_for py_repr fs (fields : PyVal) (output_dir : string)
    (template_path : option string) :
  mkdir fs (path_of output_dir) = Ok tt →
  template_opens fs (path_of <$> template_path) →
  ∃ path fs' doc,
    generate_filled_pdf search_for py_repr fs fields output_dir template_path
    = Ok (path, fs')
    ∧ fs' !! path = Some (PdfFile doc)
    ∧ path_name (path_of path) = output_name fs (path_of <$> template_path)
    ∧ path_parent (path_of path) = path_of output_dir.
Proof.
  intros Hmk Hopens. unfold template_opens, output_name in *.
  destruct (pdf_template fs (path_of <$> template_path)) as [t|] eqn:Ht.
  - destruct Hopens as [doc [page [Hopen Hpage]]].
    eexists _, _, _. split; [by eapply generate_with_template|].
    split; [unfold save; by rewrite lookup_insert_eq|].
    assert (∃ s, t = path_of s) as [s ->].
    { destruct template_path as [s|]; [|done]. exists s. simpl in Ht.
      destruct (_ && _); by inversion Ht. }
    destruct (filled_name_is_component _ (path_stem_no_slash s)) as [Hs Hc].
    rewrite (path_join_round_trip _ _ Hs Hc).
    by apply path_join_name_parent.
  - eexists _, _, _. split; [by apply generate_without_template|].
    split; [unfold save; by rewrite lookup_insert_eq|].
    rewrite path_join_round_trip by done.
    by apply path_join_name_parent.
Qed.

Lemma output_path_is_named_after_template_witness :
  mkdir sample_fs (path_of "/up") = Ok tt
  ∧ template_opens sample_fs (path_of <$> Some "/up/form.pdf")
  ∧ output_name sample_fs (path_of <$> Some "/up/form.pdf")
    = "form_filled.pdf"
  ∧ ∃ path fs' doc,
      generate_filled_pdf sample_search sample_repr sample_fs jane "/up"
        (Some "/up/form.pdf") = Ok (path, fs')
      ∧ fs' !! path = Some (PdfFile doc)
      ∧ path_name (path_of path)
        = output_name sample_fs (path_of <$> Some "/up/form.pdf")
      ∧ path_parent (path_of path) = path_of "/up".
Proof.
  assert (mkdir sample_fs (path_of "/up") = Ok tt) as Hmk
    by (vm_compute; reflexivity).
  assert (template_opens sample_fs (path_of <$> Some "/up/form.pdf"))
    as Hopens.
  { exists [form_page], form_page. split; vm_compute; reflexivity. }
  split; [exact Hmk|]. split; [exact Hopens|].
  split; [vm_compute; reflexivity|].
  exact (output_path_is_named_after_template sample_search sample_repr
           sample_fs jane "/up" (Some "/up/form.pdf") Hmk Hopens).
Defined.

(** C7 as stated fails: an existing file with the suffix .pdf that is
    not a PDF passes the test for a template, and opening it raises; no
    path is returned and nothing is written. *)
Lemma unreadable_template_raises :
  pdf_template sample_fs (path_of <$> Some "/up/notes.pdf")
    = Some (path_of "/up/notes.pdf")
  ∧ generate_filled_pdf sample_search sample_repr sample_fs jane "/up"
      (Some "/up/notes.pdf")
    = Raise (FileDataError "Failed to open file").
Proof. split; vm_compute; reflexivity. Qed.

(** C8, as amended: when a template PDF is used, for every entry of the
    label map whose value is truthy and whose label is found on the first
    page as it stands when the label is searched, the value is written on
    the saved first page eight units past the right edge of the bounding
    box of the first hit, computed as the source computes it; that point
    is strictly right of the box wherever adding eight moves a coordinate
    to the right. *)
Theorem value_is_placed_right_of_label
    search_for py_repr fs (fields : PyVal) (output_dir : string)
    (template_path : option string) (t : Path) (doc : Document) (page : Page)
    (before after : list (string * PyVal)) (label : string) (value : PyVal)
    (rect : Rect) (rects : list Rect) :
  mkdir fs (path_of output_dir) = Ok tt →
  pdf_template fs (path_of <$> template_path) = Some t →
  fitz_open fs (path_str t) = Ok doc →
  first_page doc = Ok page →
  label_map (field_of fields "name") (field_of fields "dob")
    (field_of fields "address") (field_of fields "phone")
    (field_of fields "email") = before ++ (label, value) :: after →
  truthy value = true →
  search_for (place_labels search_for py_repr page before) label
    = rect :: rects →
  eight_moves_right (x1 rect) →
  ∃ path fs' doc' page' op,
    generate_filled_pdf search_for py_repr fs fields output_dir template_path
    = Ok (path, fs')
    ∧ fs' !! path = Some (PdfFile doc')
    ∧ doc' !! 0%nat = Some page'
    ∧ op ∈ drawn page'
    ∧ op_text op = py_str py_repr value
    ∧ op_x op = (x1 rect + 8)%float
    ∧ (x1 rect <? op_x op)%float = true.
Proof.
  intros Hmk Ht Hopen Hpage Hmap Htruthy Hhit Hright.
  eexists _, _, _, _,
    {| op_x := (x1 rect + 8)%float;
       op_y := (y0 rect + (y1 rect - y0 rect) * 0.7)%float;
       op_text := py_str py_repr value; op_fontsize := 10%Z |}.
  split; [by eapply generate_with_template|].
  split; [unfold save; by rewrite lookup_insert_eq|].
  split; [by eapply first_page_insert_lookup|].
  split; [|split; [reflexivity|split; [reflexivity|]]].
  - rewrite Hmap. unfold place_labels. rewrite foldl_app. cbn [foldl].
    apply place_labels_drawn.
    rewrite (place_label_hit _ _ _ _ _ _ _ Htruthy Hhit).
    apply elem_of_app. right. by left.
  - exact Hright.
Qed.

Lemma value_is_placed_right_of_label_witness :
  mkdir sample_fs (path_of "/up") = Ok tt
  ∧ pdf_template sample_fs (path_of <$> Some "/up/form.pdf")
    = Some (path_of "/up/form.pdf")
  ∧ fitz_open sample_fs (path_str (path_of "/up/form.pdf")) = Ok [form_page]
  ∧ first_page [form_page] = Ok form_page
  ∧ truthy (PyStr "Jane Doe") = true
  ∧ eight_moves_right (x1 name_box)
  ∧ ∃ path fs' doc' page' op,
      generate_filled_pdf sample_search sample_repr sample_fs jane "/up"
        (Some "/up/form.pdf") = Ok (path, fs')
      ∧ fs' !! path = Some (PdfFile doc')
      ∧ doc' !! 0%nat = Some page'
      ∧ op ∈ drawn page'
      ∧ op_text op = py_str sample_repr (PyStr "Jane Doe")
      ∧ op_x op = (x1 name_box + 8)%float
      ∧ (x1 name_box <? op_x op)%float = true.
Proof.
  assert (mkdir sample_fs (path_of "/up") = Ok tt) as Hmk
    by (vm_compute; reflexivity).
  assert (pdf_template sample_fs (path_of <$> Some "/up/form.pdf")
          = Some (path_of "/up/form.pdf")) as Ht
    by (vm_compute; reflexivity).
  assert (fitz_open sample_fs (path_str (path_of "/up/form.pdf"))
          = Ok [form_page]) as Hopen
    by (vm_compute; reflexivity).
  repeat (split; [first [exact Hmk | exact Ht | exact Hopen | reflexivity]|]).
  refine (value_is_placed_right_of_label sample_search sample_repr
            sample_fs jane "/up" (Some "/up/form.pdf")
            (path_of "/up/form.pdf") [form_page] form_page
            [("Full Name:", PyStr "Jane Doe"); ("Current Address:", PyNone);
             ("Telephone Number:", PyStr EmptyString);
             ("Email Address:", PyNone)]
            [("Date of Birth:", PyNone)]
            "Name:" (PyStr "Jane Doe") name_box []
            Hmk Ht Hopen eq_refl _ eq_refl _ eq_refl);
    vm_compute; reflexivity.
Defined.

(** C8 as stated fails twice on a form with the labels [Name:] and
    [Telephone Number:].  The name is written at 0.7 of the height of its
    label's box, not at the middle; and the phone number,
    the number 0, is not null, its label is found, and nothing is written
    for it. *)
Lemma value_is_not_centered_and_zero_is_skipped :
  sample_search form_page "Name:" = [name_box]
  ∧ sample_search form_page "Telephone Number:" = [phone_box]
  ∧ field_of jane_zero "phone" = PyInt 0
  ∧ py_str sample_repr (PyInt 0) = "0"
  ∧ generate_filled_pdf sample_search sample_repr sample_fs jane_zero "/up"
      (Some "/up/form.pdf")
    = Ok ("/up/form_filled.pdf",
          <["/up/form_filled.pdf" := PdfFile [jane_filled_page]]> sample_fs)
  ∧ ¬ placed_beside_centered jane_filled_page name_box "Jane Doe"
  ∧ ¬ placed_beside_centered jane_filled_page phone_box "0".
Proof.
  split; [vm_compute; reflexivity|].
  split; [vm_compute; reflexivity|].
  split; [vm_compute; reflexivity|].
  split; [vm_compute; reflexivity|].
  split; [vm_compute; reflexivity|].
  split.
  - intros [op [Hin [_ [_ Hy]]]].
    apply list_elem_of_singleton in Hin as ->.
    vm_compute in Hy. discriminate Hy.
  - intros [op [Hin [Htext _]]].
    apply list_elem_of_singleton in Hin as ->. discriminate Htext.
Qed.

(** Where the name of the sample form is written: at height 107, in a box
    that spans 100 to 110. *)
Example jane_op_position :
  op_y jane_op = 107%float
  ∧ ((y0 name_box + y1 name_box) / 2)%float = 105%float.
Proof. split; reflexivity. Qed.

(** Where adding eight moves right, and where it does not. *)
Example eight_moves_right_ex :
  eight_moves_right 90 ∧ eight_moves_right (-4)
  ∧ ¬ eight_moves_right 0x1p57 ∧ ¬ eight_moves_right infinity.
Proof. repeat split; try reflexivity; intros H; discriminate H. Qed.

(* ===================================================================== *)
(** * Evaluation of closed terms *)
(* ===================================================================== *)

(** Close a goal [lhs = rhs] between closed terms by evaluation. *)
Ltac by_evaluation :=
  lazymatch goal with
  | |- ?lhs = _ => vm_cast_no_check (@eq_refl _ lhs)
  end.

(* ===================================================================== *)
(** * More on normal forms *)
(* ===================================================================== *)

Lemma lower_char_idem (c : ascii) : lower_char (lower_char c) = lower_char c.
Proof. by destruct c as [[] [] [] [] [] [] [] []]. Qed.

Lemma lower_idem (s : string) : lower (lower s) = lower s.
Proof.
  induction s as [|c s IH]; [done|]. simpl. by rewrite lower_char_idem, IH.
Qed.

Lemma lower_app (a b : string) :
  lower (a ++ b) = (lower a ++ lower b)%string.
Proof.
  induction a as [|c a IH]; [done|]. rewrite append_cons. simpl.
  by rewrite IH.
Qed.

Lemma has_space_app (a b : string) :
  has_space (a ++ b) = has_space a || has_space b.
Proof.
  induction a as [|c a IH]; [done|]. rewrite append_cons. simpl.
  by rewrite IH, orb_assoc.
Qed.

Lemma has_space_lower (s : string) : has_space (lower s) = has_space s.
Proof.
  induction s as [|c s IH]; [done|]. simpl.
  by rewrite isspace_lower_char, IH.
Qed.

Lemma append_eq_empty (a b : string) :
  (a ++ b)%string = EmptyString → a = EmptyString ∧ b = EmptyString.
Proof. destruct a; [done|]. rewrite append_cons. discriminate. Qed.

(** The words [split] yields have no whitespace and, on a lowered text,
    are lowered. *)
Lemma split_from_clean (word s w : string) :
  has_space word = false → w ∈ split_from word s → has_space w = false.
Proof.
  revert word. induction s as [|c s IH]; intros word Hword; simpl.
  - destruct word; [by intros ?%elem_of_nil|].
    by intros ->%list_elem_of_singleton.
  - destruct (isspace c) eqn:Hc.
    + destruct word; [by apply IH|].
      intros [->|Hin]%elem_of_cons; [done | by apply (IH EmptyString)].
    + apply IH. rewrite has_space_app, Hword. simpl. by rewrite Hc.
Qed.

Lemma split_from_lowered (word s w : string) :
  lower word = word → lower s = s → w ∈ split_from word s → lower w = w.
Proof.
  revert word. induction s as [|c s IH]; intros word Hword Hs; simpl.
  - destruct word; [by intros ?%elem_of_nil|].
    by intros ->%list_elem_of_singleton.
  - simpl in Hs. injection Hs as Hc Hs. destruct (isspace c).
    + destruct word; [by apply IH|].
      intros [->|Hin]%elem_of_cons; [done | by apply (IH EmptyString)].
    + apply IH; [|done]. rewrite lower_app, Hword. simpl. by rewrite Hc.
Qed.

Lemma split_words (s : string) : Forall is_word (split (lower s)).
Proof.
  apply Forall_forall. intros w Hw. split; [|split].
  - by eapply split_from_words.
  - by apply (split_from_clean EmptyString (lower s)).
  - apply (split_from_lowered EmptyString (lower s)); [done| |done].
    apply lower_idem.
Qed.

(** Reading a spaceless text extends the word under way. *)
Lemma split_from_app_clean (word w rest : string) :
  has_space w = false →
  split_from word (w ++ rest) = split_from (word ++ w) rest.
Proof.
  revert word. induction w as [|c w IH]; intros word.
  - intros _. by rewrite append_empty_r.
  - intros [Hc Hw]%orb_false_iff. rewrite append_cons. simpl. rewrite Hc.
    rewrite (IH _ Hw). by rewrite append_assoc.
Qed.

Lemma split_from_space (word rest : string) (c : ascii) :
  isspace c = true → word ≠ EmptyString →
  split_from word (String c rest) = word :: split_from EmptyString rest.
Proof. intros Hc Hw. simpl. rewrite Hc. by destruct word. Qed.

(** Splitting the joined words gives the words back. *)
Lemma split_join (ws : list string) :
  Forall is_word ws → split (join " " ws) = ws.
Proof.
  unfold split. induction 1 as [|w ws [Hne [Hclean _]] Hws IH]; [done|].
  destruct ws as [|w' ws].
  - simpl. rewrite <- (append_empty_r w) at 1.
    rewrite (split_from_app_clean _ _ _ Hclean). simpl.
    by destruct w.
  - change (join " " (w :: w' :: ws))
      with (w ++ String " " (join " " (w' :: ws)))%string.
    rewrite (split_from_app_clean _ _ _ Hclean).
    change (EmptyString ++ w)%string with w.
    rewrite split_from_space by done. by rewrite IH.
Qed.

Lemma lower_join_words (ws : list string) :
  Forall is_word ws → lower (join " " ws) = join " " ws.
Proof.
  induction 1 as [|w ws [_ [_ Hlow]] Hws IH]; [done|].
  destruct ws as [|w' ws]; [done|].
  change (join " " (w :: w' :: ws))
    with (w ++ String " " (join " " (w' :: ws)))%string.
  rewrite lower_app, Hlow.
  change (lower (String " " (join " " (w' :: ws))))
    with (String " " (lower (join " " (w' :: ws)))).
  by rewrite IH.
Qed.

(** X1: the normal form of a text is a list of words joined by single
    spaces, each word not empty, free of whitespace and in lower case; the
    words are those of the lowered text. *)
Theorem normalize_is_words_joined_by_single_spaces (s : string) :
  ∃ words, normalize s = join " " words
    ∧ Forall is_word words
    ∧ split (normalize s) = words.
Proof.
  exists (split (lower s)). split; [done|].
  split; [apply split_words|]. apply split_join, split_words.
Qed.

Lemma normalize_normalize (s : string) :
  normalize (normalize s) = normalize s.
Proof.
  unfold normalize. rewrite (lower_join_words _ (split_words s)).
  by rewrite (split_join _ (split_words s)).
Qed.

Lemma normalize_lower (s : string) : normalize (lower s) = normalize s.
Proof. unfold normalize. by rewrite lower_idem. Qed.

(** X2: normalizing is idempotent, and it does not see the case of the
    letters: a text, its lowered form and its normal form have the same
    normal form. *)
Theorem normalize_idempotent (s : string) :
  normalize (normalize s) = normalize s
  ∧ normalize (lower s) = normalize s.
Proof. split; [apply normalize_normalize | apply normalize_lower]. Qed.

(* ===================================================================== *)
(** * More on the verifier *)
(* ===================================================================== *)

Lemma is_substring_trans (a b c : string) :
  is_substring a b → is_substring b c → is_substring a c.
Proof.
  intros [p [q ->]] [p' [q' ->]]. exists (p' ++ p)%string, (q ++ q')%string.
  by rewrite !append_assoc.
Qed.

(** X3: the verifier does not see the case or the spacing of the source:
    run against the lowered source or against the normalized source, it
    gives what it gives against the source itself. *)
Theorem verifier_ignores_case_and_spacing_of_source
    (data : PyVal) (raw_text : string) :
  _enforce_substring_constraints data (lower raw_text)
    = _enforce_substring_constraints data raw_text
  ∧ _enforce_substring_constraints data (normalize raw_text)
    = _enforce_substring_constraints data raw_text.
Proof.
  destruct data; try done. unfold _enforce_substring_constraints, enforce_dict.
  by rewrite normalize_lower, normalize_normalize.
Qed.

Lemma rejected_mono (small large : string) (v : PyVal) :
  is_substring small large →
  rejected small v = false → rejected large v = false.
Proof.
  intros Hsub. destruct v; try done. simpl.
  destruct (String.eqb (normalize s) EmptyString); [done|]. simpl.
  intros Hc%negb_false_iff%contains_spec. apply negb_false_iff, contains_spec.
  by eapply is_substring_trans.
Qed.

(** X4: a larger source keeps more.  When the normal form of one source
    occurs in the normal form of another, every entry that the verifier
    leaves non-null against the first is left as it is against the
    second. *)
Theorem verifier_keeps_more_with_larger_source
    (d d1 d2 : gmap string PyVal) (raw_text raw_text' : string) :
  is_substring (normalize raw_text) (normalize raw_text') →
  _enforce_substring_constraints (PyDict d) raw_text = Ok (PyDict d1) →
  _enforce_substring_constraints (PyDict d) raw_text' = Ok (PyDict d2) →
  ∀ k v, v ≠ PyNone → d1 !! k = Some v → d2 !! k = Some v.
Proof.
  intros Hsub [= <-] [= <-] k v Hv. rewrite !enforce_dict_lookup.
  destruct (bool_decide (k ∈ FIELD_KEYS)); simpl; [|done].
  destruct (rejected (normalize raw_text) _) eqn:Hrej.
  - by intros [= <-].
  - by rewrite (rejected_mono _ _ _ Hsub Hrej).
Qed.

Lemma verifier_keeps_more_with_larger_source_witness :
  is_substring (normalize "John Smith") (normalize texas)
  ∧ ∀ k v, v ≠ PyNone →
      enforce_dict texas_parsed "John Smith" !! k = Some v →
      enforce_dict texas_parsed texas !! k = Some v.
Proof.
  assert (is_substring (normalize "John Smith") (normalize texas)) as Hsub.
  { apply contains_spec. by_evaluation. }
  split; [exact Hsub|].
  exact (verifier_keeps_more_with_larger_source texas_parsed
           (enforce_dict texas_parsed "John Smith")
           (enforce_dict texas_parsed texas) "John Smith" texas
           Hsub eq_refl eq_refl).
Defined.

(** X5: the verifier does nothing but null strings.  It returns a
    dictionary for every dictionary; each key either keeps what it had
    (also when it had nothing), or is one of the five fields, held a
    string whose normal form is not empty and does not occur in the
    normalized source, and now holds null. *)
Theorem verifier_only_nulls_absent_strings
    (d : gmap string PyVal) (raw_text : string) :
  ∃ d', _enforce_substring_constraints (PyDict d) raw_text = Ok (PyDict d')
    ∧ ∀ k, d' !! k = d !! k
        ∨ (k ∈ FIELD_KEYS
           ∧ d' !! k = Some PyNone
           ∧ ∃ s, d !! k = Some (PyStr s)
               ∧ normalize s ≠ EmptyString
               ∧ ¬ is_substring (normalize s) (normalize raw_text)).
Proof.
  exists (enforce_dict d raw_text). split; [done|]. intros k.
  rewrite enforce_dict_lookup. case_bool_decide as Hk; simpl; [|by left].
  destruct (rejected _ _) eqn:Hrej; [|by left]. right.
  split; [done|]. split; [done|].
  unfold dict_get in Hrej. destruct (d !! k) as [[]|]; try done.
  eexists. split; [done|]. simpl in Hrej.
  apply andb_true_iff in Hrej as [Hne Hc]. split.
  - intros He. by rewrite He in Hne.
  - rewrite <- contains_spec. by destruct (contains _ _).
Qed.

(* ===================================================================== *)
(** * More on the extraction call *)
(* ===================================================================== *)

Lemma has_linebreak_app (a b : string) :
  has_linebreak (a ++ b) = has_linebreak a || has_linebreak b.
Proof.
  induction a as [|c a IH]; [done|]. rewrite append_cons. simpl.
  by rewrite IH, orb_assoc.
Qed.

(** X6: the extraction call raises in three situations and no other: the
    key is unset or empty ([RuntimeError], before the model is asked);
    [json.loads] raises something that is not a decode error (it passes
    through); or the answer decodes to a value that is not an object
    (the [AttributeError] that the verifier's [data.get] raises). *)
Theorem extraction_raises_exactly_when
    cfg generate_content json_loads (raw_text : string) (e : PyExn) :
  extract_fields_with_gemini cfg generate_content json_loads raw_text
    = Raise e
  ↔ ((API_KEY cfg = None ∨ API_KEY cfg = Some EmptyString)
     ∧ e = RuntimeError
             "GEMINI_API_KEY is not set in environment or .env file")
    ∨ (∃ model response,
         _get_model cfg = Ok model
         ∧ generate_content model (build_prompt raw_text) = Ok response
         ∧ ((json_loads (strip_code_fence (strip response)) = Raise e
             ∧ ∀ msg, e ≠ JSONDecodeError msg)
            ∨ (∃ v, json_loads (strip_code_fence (strip response)) = Ok v
                 ∧ (∀ d, v ≠ PyDict d)
                 ∧ _enforce_substring_constraints v raw_text = Raise e
                 ∧ ∃ msg, e = AttributeError msg))).
Proof.
  split.
  - unfold extract_fields_with_gemini, _get_model.
    destruct (API_KEY cfg) as [[|c key]|] eqn:Hkey; run.
    + intros [= <-]. left. split; [by right | reflexivity].
    + destruct (generate_content _ _) as [response|exc] eqn:Hg;
        [|discriminate].
      destruct (json_loads _) as [v|e'] eqn:Hj; run.
      * destruct v; run; try discriminate;
          (intros [= <-]; right; exists (MODEL_ID cfg), response;
           split; [reflexivity|]; split; [exact Hg|]; right;
           eexists; split; [exact Hj|]; split; [discriminate|];
           split; [reflexivity | by eexists]).
      * destruct e'; run; try discriminate;
          (intros [= <-]; right; exists (MODEL_ID cfg), response;
           split; [reflexivity|]; split; [exact Hg|]; left;
           split; [exact Hj | discriminate]).
    + intros [= <-]. left. split; [by left | reflexivity].
  - intros [[Hkey ->] | (model & response & Hm & Hg & Hcase)].
    + unfold extract_fields_with_gemini, _get_model.
      by destruct Hkey as [-> | ->].
    + unfold extract_fields_with_gemini. rewrite Hm. run. rewrite Hg.
      destruct Hcase as [[Hj Hnot] | (v & Hj & Hnd & He & _)]; rewrite Hj.
      * run. destruct e; try reflexivity. by destruct (Hnot msg).
      * cbn [mbind PyResult_bind]. by rewrite He.
Qed.

Lemma append_empty_l (s : string) : (EmptyString ++ s)%string = s.
Proof. reflexivity. Qed.

Lemma LF_app (s : string) : (LF ++ s)%string = String (ascii_of_N 10) s.
Proof. reflexivity. Qed.

Lemma splitlines_from_plain (line t : string) :
  has_linebreak t = false → (line ++ t)%string ≠ EmptyString →
  splitlines_from line t = [(line ++ t)%string].
Proof.
  revert line. induction t as [|c t IH]; intros line.
  - intros _. rewrite append_empty_r. simpl. by destruct line.
  - intros [Hc Ht]%orb_false_iff Hne. simpl. rewrite Hc.
    rewrite IH; [by rewrite append_assoc|done|].
    by rewrite append_assoc.
Qed.

Lemma splitlines_from_lf (line rest : string) :
  rest ≠ EmptyString →
  splitlines_from line (String (ascii_of_N 10) rest)
  = line :: splitlines_from EmptyString rest.
Proof. by destruct rest. Qed.

Lemma splitlines_from_head (line a rest : string) :
  has_linebreak a = false → rest ≠ EmptyString →
  splitlines_from line (a ++ String (ascii_of_N 10) rest)
  = (line ++ a)%string :: splitlines_from EmptyString rest.
Proof.
  revert line. induction a as [|c a IH]; intros line.
  - intros _ Hrest. rewrite append_empty_r. by apply splitlines_from_lf.
  - intros [Hc Ha]%orb_false_iff Hrest. rewrite append_cons.
    cbn [splitlines_from]. rewrite Hc, (IH _ Ha Hrest).
    by rewrite append_assoc.
Qed.

Lemma code_10 (c : ascii) : (code c =? 10)%N = true → c = ascii_of_N 10.
Proof.
  intros Hc%N.eqb_eq. unfold code in Hc.
  by rewrite <- (ascii_N_embedding c), Hc.
Qed.

Lemma join_cons (sep p : string) (rest : list string) :
  rest ≠ [] → join sep (p :: rest) = (p ++ sep ++ join sep rest)%string.
Proof. by destruct rest. Qed.

(** The lines of a body with line feeds only, followed by one more line. *)
Lemma splitlines_from_body (line body last : string) :
  breaks_are_lf body = true → has_linebreak last = false →
  last ≠ EmptyString →
  ∃ lines, splitlines_from line (body ++ String (ascii_of_N 10) last)
           = lines ++ [last]
    ∧ join LF lines = (line ++ body)%string ∧ lines ≠ [].
Proof.
  intros Hbody Hlast Hne. revert line Hbody.
  induction body as [|c body IH]; intros line Hbody.
  - exists [line]. rewrite append_empty_l, splitlines_from_lf by done.
    rewrite splitlines_from_plain by done.
    by rewrite append_empty_r.
  - simpl in Hbody. apply andb_true_iff in Hbody as [Hc Hbody].
    rewrite append_cons. destruct (is_linebreak c) eqn:Hbreak.
    + simpl in Hc. apply code_10 in Hc as ->.
      rewrite splitlines_from_lf by (by destruct body).
      destruct (IH EmptyString Hbody) as (lines & -> & Hjoin & Hlines).
      exists (line :: lines). split; [done|]. split; [|done].
      rewrite join_cons by done. by rewrite Hjoin, LF_app.
    + cbn [splitlines_from]. rewrite Hbreak.
      destruct (IH (line ++ String c EmptyString)%string Hbody)
        as (lines & -> & Hjoin & Hlines).
      exists lines. split; [done|]. split; [|done].
      by rewrite Hjoin, append_assoc.
Qed.

(** Fence stripping alone, on a text that starts with the fence. *)
Lemma strip_code_fence_unwraps (tag body last : string) :
  has_linebreak tag = false →
  breaks_are_lf body = true →
  has_linebreak last = false →
  last ≠ EmptyString →
  strip_code_fence ("```" ++ tag ++ LF ++ body ++ LF ++ last) = body.
Proof.
  intros Htag Hbody Hlast Hne. unfold strip_code_fence.
  assert (startswith "```" ("```" ++ tag ++ LF ++ body ++ LF ++ last) = true)
    as -> by (apply prefix_spec; by eexists).
  rewrite !LF_app. unfold splitlines.
  rewrite <- append_assoc.
  rewrite splitlines_from_head;
    [|by rewrite has_linebreak_app, Htag | by destruct body].
  destruct (splitlines_from_body EmptyString body last Hbody Hlast Hne)
    as (lines & -> & Hjoin & Hlines).
  assert ((3 <=? length ((EmptyString ++ "```" ++ tag)%string :: lines ++ [last]))%nat
          = true) as ->.
  { apply Nat.leb_le. rewrite length_cons, length_app. simpl.
    destruct lines; [done|simpl; lia]. }
  unfold slice_1_m1. cbn [tail]. by rewrite removelast_last.
Qed.

Lemma lstrip_whitespace (ws s : string) :
  whitespace_only ws = true → lstrip (ws ++ s) = lstrip s.
Proof.
  induction ws as [|c ws IH]; [done|]. rewrite append_cons. simpl.
  intros [-> Hws]%andb_true_iff. by apply IH.
Qed.

Lemma rstrip_whitespace_only (ws : string) :
  whitespace_only ws = true → rstrip ws = EmptyString.
Proof.
  induction ws as [|c ws IH]; [done|]. simpl.
  intros [-> Hws]%andb_true_iff. by rewrite IH.
Qed.

Lemma rstrip_whitespace (s ws : string) :
  whitespace_only ws = true → rstrip (s ++ ws) = rstrip s.
Proof.
  intros Hws. induction s as [|c s IH].
  - by rewrite rstrip_whitespace_only.
  - rewrite append_cons. simpl. by rewrite IH.
Qed.

Lemma ends_visible_nonempty (s : string) :
  ends_visible s = true → s ≠ EmptyString.
Proof. by destruct s. Qed.

Lemma rstrip_ends_visible (s : string) :
  ends_visible s = true → rstrip s = s.
Proof.
  induction s as [|c s IH]; [done|]. destruct s as [|c' s'].
  - simpl. by intros ->%negb_true_iff.
  - intros Hs. change (rstrip (String c (String c' s')))
      with (match rstrip (String c' s') with
            | EmptyString =>
                if isspace c then EmptyString else String c EmptyString
            | r => String c r
            end).
    by rewrite (IH Hs).
Qed.

Lemma ends_visible_app (a b : string) :
  ends_visible b = true → ends_visible (a ++ b) = true.
Proof.
  intros Hb. induction a as [|c a IH]; [done|]. rewrite append_cons.
  destruct (a ++ b)%string eqn:Hab; [|done].
  apply append_eq_empty in Hab as [_ ->]. done.
Qed.

(** X7: a fenced block is unwrapped to its content.  For an answer made
    of a first line that starts with three backquotes, a body whose line
    boundaries are line feeds, and one more line that ends in a visible
    character, with whitespace before and after, the text handed to
    [json.loads] (the answer stripped of surrounding whitespace and of its
    fence) is the body; the last line is dropped whatever it holds. *)
Theorem code_fence_is_unwrapped (before tag body last after : string) :
  whitespace_only before = true →
  whitespace_only after = true →
  has_linebreak tag = false →
  breaks_are_lf body = true →
  has_linebreak last = false →
  ends_visible last = true →
  strip_code_fence
    (strip (before ++ "```" ++ tag ++ LF ++ body ++ LF ++ last ++ after))
  = body.
Proof.
  intros Hbefore Hafter Htag Hbody Hlast Hvisible.
  assert (strip (before ++ "```" ++ tag ++ LF ++ body ++ LF ++ last ++ after)
          = ("```" ++ tag ++ LF ++ body ++ LF ++ last)%string) as ->.
  { unfold strip. rewrite (lstrip_whitespace _ _ Hbefore).
    change (lstrip ("```" ++ tag ++ LF ++ body ++ LF ++ last ++ after))
      with ("```" ++ tag ++ LF ++ body ++ LF ++ last ++ after)%string.
    assert (("```" ++ tag ++ LF ++ body ++ LF ++ last ++ after)%string
            = (("```" ++ tag ++ LF ++ body ++ LF ++ last) ++ after)%string)
      as -> by (by rewrite !append_assoc).
    rewrite (rstrip_whitespace _ _ Hafter).
    apply rstrip_ends_visible.
    change ("```" ++ tag ++ LF ++ body ++ LF ++ last)%string
      with ("```" ++ (tag ++ LF ++ body ++ LF ++ last))%string.
    repeat apply ends_visible_app. exact Hvisible. }
  apply strip_code_fence_unwraps; try done.
  by apply ends_visible_nonempty.
Qed.

Lemma code_fence_is_unwrapped_witness :
  whitespace_only " " = true
  ∧ whitespace_only LF = true
  ∧ has_linebreak "json" = false
  ∧ breaks_are_lf texas_answer = true
  ∧ has_linebreak "```" = false
  ∧ ends_visible "```" = true
  ∧ strip_code_fence
      (strip (" " ++ "```" ++ "json" ++ LF ++ texas_answer ++ LF ++ "```"
                  ++ LF))
    = texas_answer.
Proof.
  repeat (split; [reflexivity|]).
  exact (code_fence_is_unwrapped " " "json" texas_answer "```" LF
           eq_refl eq_refl eq_refl eq_refl eq_refl eq_refl).
Defined.

(* ===================================================================== *)
(** * More on paths *)
(* ===================================================================== *)

(** Reading a printed path back gives the path, also for a path without
    components. *)
Lemma path_of_str_wf (p : Path) : well_formed p → path_of (path_str p) = p.
Proof.
  intros Hwf. destruct (comps p) as [|c cs] eqn:Hcomps.
  - destruct p as [r cs']. simpl in Hcomps. subst cs'.
    destruct Hwf as [[Hr | [Hr | Hr]] _]; simpl in Hr; subst r; reflexivity.
  - apply path_of_str; [done|]. by rewrite Hcomps.
Qed.

Lemma path_str_inj (p q : Path) :
  well_formed p → well_formed q → path_str p = path_str q → p = q.
Proof.
  intros Hp Hq Heq. rewrite <- (path_of_str_wf p Hp), <- (path_of_str_wf q Hq).
  by rewrite Heq.
Qed.

Lemma path_join_well_formed (p : Path) (s : string) :
  well_formed p → well_formed (path_join p s).
Proof.
  intros [Hroot Hall]. unfold path_join.
  destruct (path_of_well_formed s) as [Hroot' Hall'].
  destruct (root (path_of s)) eqn:Hr.
  - split; [done|]. simpl. apply Forall_app. by split.
  - split; [by rewrite Hr|done].
Qed.

(** The name of a template has a suffix that lowers to .pdf, so it is not
    the name the output gets. *)
Lemma lower_length (s : string) : String.length (lower s) = String.length s.
Proof. induction s as [|c s IH]; [done|]. simpl. by rewrite IH. Qed.

Lemma append_inj_l (a b c : string) :
  (a ++ b)%string = (a ++ c)%string → b = c.
Proof.
  induction a as [|x a IH]; [done|]. rewrite !append_cons.
  intros [= H]. by apply IH.
Qed.

Lemma output_name_differs (t : Path) :
  lower (path_suffix t) = ".pdf" →
  (path_stem t ++ "_filled.pdf")%string ≠ path_name t.
Proof.
  intros Hsuffix Heq.
  assert ((path_stem t ++ "_filled.pdf")%string
          = (path_stem t ++ path_suffix t)%string) as Happ
    by (rewrite Heq; apply split_suffix_app).
  apply append_inj_l in Happ. rewrite <- Happ in Hsuffix.
  discriminate Hsuffix.
Qed.

(* ===================================================================== *)
(** * More on the template filler *)
(* ===================================================================== *)

(** What a successful call has done. *)
Lemma generate_inv search_for py_repr fs fields output_dir template_path
    path fs' :
  generate_filled_pdf search_for py_repr fs fields output_dir template_path
    = Ok (path, fs') →
  mkdir fs (path_of output_dir) = Ok tt
  ∧ ((pdf_template fs (path_of <$> template_path) = None
      ∧ path = path_str (path_join (path_of output_dir) "filled_form.pdf")
      ∧ fs' = save fs [blank_page]
                (insert_text blank_page 72 72
                   (summary_text py_repr (field_of fields "name")
                      (field_of fields "dob") (field_of fields "address")
                      (field_of fields "phone") (field_of fields "email"))
                   12) path)
     ∨ (∃ t doc page,
          pdf_template fs (path_of <$> template_path) = Some t
          ∧ fitz_open fs (path_str t) = Ok doc
          ∧ first_page doc = Ok page
          ∧ path = path_str (path_join (path_of output_dir)
                               (path_stem t ++ "_filled.pdf"))
          ∧ fs' = save fs doc
                    (place_labels search_for py_repr page
                       (label_map (field_of fields "name")
                          (field_of fields "dob") (field_of fields "address")
                          (field_of fields "phone") (field_of fields "email")))
                    path)).
Proof.
  intros Hgen.
  destruct (mkdir fs (path_of output_dir)) as [[]|e] eqn:Hmk;
    [|unfold generate_filled_pdf in Hgen; by rewrite Hmk in Hgen].
  split; [done|].
  destruct (pdf_template fs (path_of <$> template_path)) as [t|] eqn:Ht.
  - right. exists t.
    destruct (fitz_open fs (path_str t)) as [doc|e] eqn:Hopen;
      [|unfold generate_filled_pdf in Hgen;
        by rewrite Hmk, Ht, Hopen in Hgen].
    destruct (first_page doc) as [page|e] eqn:Hpage;
      [|unfold generate_filled_pdf in Hgen;
        rewrite Hmk in Hgen; cbn [mbind PyResult_bind] in Hgen;
        rewrite Ht, Hopen in Hgen; cbn [mbind PyResult_bind] in Hgen;
        by rewrite Hpage in Hgen].
    exists doc, page.
    rewrite (generate_with_template _ _ _ _ _ _ _ _ _ Hmk Ht Hopen Hpage)
      in Hgen.
    by injection Hgen as <- <-.
  - left. rewrite (generate_without_template _ _ _ _ _ _ Hmk Ht) in Hgen.
    by injection Hgen as <- <-.
Qed.

Lemma pdf_template_inv fs (template_path : option string) (t : Path) :
  pdf_template fs (path_of <$> template_path) = Some t →
  ∃ s, template_path = Some s ∧ t = path_of s
    ∧ is_file fs t = true ∧ lower (path_suffix t) = ".pdf".
Proof.
  destruct template_path as [s|]; [|done]. simpl.
  destruct (is_file fs (path_of s)) eqn:Hfile; [|done].
  destruct (String.eqb _ _) eqn:Hsuffix; [|done]. simpl.
  intros [= <-]. exists s. by apply String.eqb_eq in Hsuffix.
Qed.

(** The output path of the template branch is not the template's. *)
Lemma output_path_differs fs (output_dir : string)
    (template_path : option string) (t : Path) :
  pdf_template fs (path_of <$> template_path) = Some t →
  path_str (path_join (path_of output_dir) (path_stem t ++ "_filled.pdf"))
  ≠ path_str t.
Proof.
  intros (s & _ & -> & _ & Hsuffix)%pdf_template_inv Heq.
  destruct (filled_name_is_component _ (path_stem_no_slash s)) as [Hs Hc].
  apply path_str_inj in Heq;
    [|by apply path_join_well_formed, path_of_well_formed
     |by apply path_of_well_formed].
  apply (output_name_differs _ Hsuffix). rewrite <- Heq at 2.
  symmetry. by apply path_join_name_parent.
Qed.

(** X8: a call that returns has written one file and touched no other:
    the path returned holds a document with a first page afterwards, and
    every other path holds what it held.  When a template is used the file
    written is not the template: the template is on disk afterwards as it
    was. *)
Theorem filler_writes_one_file_and_spares_the_template
    search_for py_repr fs (fields : PyVal) (output_dir : string)
    (template_path : option string) (path : string) fs' :
  generate_filled_pdf search_for py_repr fs fields output_dir template_path
    = Ok (path, fs') →
  (∃ doc page, fs' !! path = Some (PdfFile doc) ∧ doc !! 0%nat = Some page)
  ∧ (∀ other, other ≠ path → fs' !! other = fs !! other)
  ∧ ∀ t, pdf_template fs (path_of <$> template_path) = Some t →
      path ≠ path_str t ∧ fs' !! path_str t = fs !! path_str t.
Proof.
  intros Hgen. apply generate_inv in Hgen as [_ Hcase].
  split.
  { destruct Hcase as [(_ & _ & ->)
                      | (t & doc & page & _ & _ & Hpage & _ & ->)];
      unfold save; rewrite lookup_insert_eq; eexists _, _;
      (split; [reflexivity|]).
    - reflexivity.
    - by eapply first_page_insert_lookup. }
  assert (∀ other, other ≠ path → fs' !! other = fs !! other) as Hother.
  { intros other Hne.
    destruct Hcase as [(_ & _ & ->) | (t & doc & page & _ & _ & _ & _ & ->)];
      unfold save; by rewrite lookup_insert_ne. }
  split; [exact Hother|]. intros t Ht.
  assert (path ≠ path_str t) as Hne.
  { destruct Hcase as [(Hno & _) | (t' & doc & page & Ht' & _ & _ & -> & _)].
    - by rewrite Hno in Ht.
    - rewrite Ht in Ht'. injection Ht' as <-.
      by eapply output_path_differs. }
  split; [exact Hne|]. by apply Hother.
Qed.

Lemma filler_writes_one_file_and_spares_the_template_witness :
  generate_filled_pdf sample_search sample_repr sample_fs jane "/up"
    (Some "/up/form.pdf")
  = Ok ("/up/form_filled.pdf",
        <["/up/form_filled.pdf" := PdfFile [jane_filled_page]]> sample_fs)
  ∧ (∃ doc page,
       (<["/up/form_filled.pdf" := PdfFile [jane_filled_page]]> sample_fs)
         !! "/up/form_filled.pdf" = Some (PdfFile doc)
       ∧ doc !! 0%nat = Some page)
  ∧ (∀ other, other ≠ "/up/form_filled.pdf" →
       (<["/up/form_filled.pdf" := PdfFile [jane_filled_page]]> sample_fs)
         !! other = sample_fs !! other)
  ∧ ∀ t, pdf_template sample_fs (path_of <$> Some "/up/form.pdf") = Some t →
      "/up/form_filled.pdf" ≠ path_str t
      ∧ (<["/up/form_filled.pdf" := PdfFile [jane_filled_page]]> sample_fs)
          !! path_str t = sample_fs !! path_str t.
Proof.
  assert (generate_filled_pdf sample_search sample_repr sample_fs jane "/up"
            (Some "/up/form.pdf")
          = Ok ("/up/form_filled.pdf",
                <["/up/form_filled.pdf" := PdfFile [jane_filled_page]]>
                  sample_fs)) as Hrun by by_evaluation.
  split; [exact Hrun|].
  exact (filler_writes_one_file_and_spares_the_template sample_search
           sample_repr sample_fs jane "/up" (Some "/up/form.pdf") _ _ Hrun).
Defined.

Section TemplateFillerMore.

Variable search_for : Page -> string -> list Rect.
Variable py_repr : PyVal -> string.

Notation place_one := (place_label search_for py_repr).
Notation place_all := (place_labels search_for py_repr).

Lemma place_label_cases page label value :
  (place_one page (label, value) = page
   ∧ (truthy value = false ∨ search_for page label = []))
  ∨ (∃ rect rects,
       truthy value = true ∧ search_for page label = rect :: rects
       ∧ place_one page (label, value)
         = insert_text page (x1 rect + 8)%float
             (y0 rect + (y1 rect - y0 rect) * 0.7)%float
             (py_str py_repr value) 10).
Proof.
  unfold place_label. destruct (truthy value); simpl; [|left; auto].
  destruct (search_for page label) as [|rect rects]; [left; auto|].
  right. by exists rect, rects.
Qed.

(** The loop keeps the spans and appends at most one text per entry. *)
Lemma place_labels_shape page entries :
  ∃ added,
    spans (place_all page entries) = spans page
    ∧ drawn (place_all page entries) = drawn page ++ added
    ∧ (length added ≤ length entries)%nat
    ∧ Forall (placed_for search_for py_repr page entries) added.
Proof.
  revert page. induction entries as [|[label value] entries IH]; intros page.
  - exists []. simpl. by rewrite app_nil_r.
  - destruct (IH (place_one page (label, value)))
      as (added & Hspans & Hdrawn & Hlen & Hall).
    assert (Forall (placed_for search_for py_repr page
                      ((label, value) :: entries)) added) as Hall'.
    { eapply Forall_impl; [exact Hall|].
      intros op (l & v & r & rs & cur & Hin & Ht & Hs & Hhit & ->).
      exists l, v, r, rs, cur. split; [by right|]. split; [done|].
      split; [by rewrite Hs, place_label_spans|]. done. }
    change (place_all page ((label, value) :: entries))
      with (place_all (place_one page (label, value)) entries).
    destruct (place_label_cases page label value)
      as [[Hsame _] | (rect & rects & Ht & Hhit & Hins)].
    + exists added. rewrite Hspans, Hdrawn, Hsame.
      repeat split; [simpl; lia | done].
    + exists ({| op_x := (x1 rect + 8)%float;
                 op_y := (y0 rect + (y1 rect - y0 rect) * 0.7)%float;
                 op_text := py_str py_repr value;
                 op_fontsize := 10%Z |} :: added).
      rewrite Hspans, Hdrawn, Hins. cbn [insert_text spans drawn].
      split; [done|]. split; [by rewrite <- app_assoc|].
      split; [simpl; lia|]. constructor; [|done].
      exists label, value, rect, rects, page. split; [by left|]. done.
Qed.

(** With nothing to place the page stays as it is. *)
Lemma place_labels_nothing page entries :
  (∀ label value, (label, value) ∈ entries →
     truthy value = false ∨ search_for page label = []) →
  place_all page entries = page.
Proof.
  induction entries as [|[label value] entries IH]; [done|]. intros Hno.
  change (place_all page ((label, value) :: entries))
    with (place_all (place_one page (label, value)) entries).
  assert (place_one page (label, value) = page) as ->.
  { unfold place_label. destruct (Hno label value) as [-> | ->];
      [by left | done | by destruct (truthy value)]. }
  apply IH. intros l v Hin. apply Hno. by right.
Qed.

End TemplateFillerMore.

Lemma first_page_lookup (doc : Document) page :
  first_page doc = Ok page → doc !! 0%nat = Some page.
Proof. destruct doc; [done|]. by intros [= ->]. Qed.

(** X9: filling a template removes and alters nothing.  The document
    written has as many pages as the template, its pages after the first
    are the template's, and its first page has the template's spans and
    begins with the texts the template's first page already carried. *)
Theorem filler_keeps_the_template_content
    search_for py_repr fs (fields : PyVal) (output_dir : string)
    (template_path : option string) (path : string) fs' (t : Path) :
  generate_filled_pdf search_for py_repr fs fields output_dir template_path
    = Ok (path, fs') →
  pdf_template fs (path_of <$> template_path) = Some t →
  ∃ doc doc' page page',
    fitz_open fs (path_str t) = Ok doc
    ∧ fs' !! path = Some (PdfFile doc')
    ∧ length doc' = length doc
    ∧ (∀ i, i ≠ 0%nat → doc' !! i = doc !! i)
    ∧ doc !! 0%nat = Some page
    ∧ doc' !! 0%nat = Some page'
    ∧ spans page' = spans page
    ∧ drawn page `prefix_of` drawn page'.
Proof.
  intros Hgen Ht. apply generate_inv in Hgen as [_ Hcase].
  destruct Hcase as [(Hno & _) | (t' & doc & page & Ht' & Hopen & Hpage & _ & ->)];
    [by rewrite Hno in Ht|].
  rewrite Ht in Ht'. injection Ht' as <-.
  destruct (place_labels_shape search_for py_repr page
              (label_map (field_of fields "name") (field_of fields "dob")
                 (field_of fields "address") (field_of fields "phone")
                 (field_of fields "email")))
    as (added & Hspans & Hdrawn & _).
  eexists doc, _, page, _. split; [exact Hopen|].
  split; [unfold save; by rewrite lookup_insert_eq|].
  split; [by rewrite length_insert|].
  split; [intros i Hi; by rewrite list_lookup_insert_ne|].
  split; [by apply first_page_lookup|].
  split; [by eapply first_page_insert_lookup|].
  split; [exact Hspans|]. rewrite Hdrawn. by eexists.
Qed.

Lemma filler_keeps_the_template_content_witness :
  generate_filled_pdf sample_search sample_repr sample_fs jane "/up"
    (Some "/up/form.pdf")
  = Ok ("/up/form_filled.pdf",
        <["/up/form_filled.pdf" := PdfFile [jane_filled_page]]> sample_fs)
  ∧ pdf_template sample_fs (path_of <$> Some "/up/form.pdf")
    = Some (path_of "/up/form.pdf")
  ∧ ∃ doc doc' page page',
      fitz_open sample_fs (path_str (path_of "/up/form.pdf")) = Ok doc
      ∧ (<["/up/form_filled.pdf" := PdfFile [jane_filled_page]]> sample_fs)
          !! "/up/form_filled.pdf" = Some (PdfFile doc')
      ∧ length doc' = length doc
      ∧ (∀ i, i ≠ 0%nat → doc' !! i = doc !! i)
      ∧ doc !! 0%nat = Some page
      ∧ doc' !! 0%nat = Some page'
      ∧ spans page' = spans page
      ∧ drawn page `prefix_of` drawn page'.
Proof.
  assert (generate_filled_pdf sample_search sample_repr sample_fs jane "/up"
            (Some "/up/form.pdf")
          = Ok ("/up/form_filled.pdf",
                <["/up/form_filled.pdf" := PdfFile [jane_filled_page]]>
                  sample_fs)) as Hrun by by_evaluation.
  assert (pdf_template sample_fs (path_of <$> Some "/up/form.pdf")
          = Some (path_of "/up/form.pdf")) as Ht
    by by_evaluation.
  split; [exact Hrun|]. split; [exact Ht|].
  exact (filler_keeps_the_template_content sample_search sample_repr
           sample_fs jane "/up" (Some "/up/form.pdf") _ _ _ Hrun Ht).
Defined.

(** X10: filling a template adds nothing but field values next to labels.
    The texts of the written first page beyond the template's are at most
    six, and each is the text of a truthy value of the label map, in size
    10, placed from the first hit of that value's label. *)
Theorem filler_adds_only_values_at_labels
    search_for py_repr fs (fields : PyVal) (output_dir : string)
    (template_path : option string) (path : string) fs' (t : Path) :
  generate_filled_pdf search_for py_repr fs fields output_dir template_path
    = Ok (path, fs') →
  pdf_template fs (path_of <$> template_path) = Some t →
  ∃ doc doc' page page' added,
    fitz_open fs (path_str t) = Ok doc
    ∧ fs' !! path = Some (PdfFile doc')
    ∧ doc !! 0%nat = Some page
    ∧ doc' !! 0%nat = Some page'
    ∧ drawn page' = drawn page ++ added
    ∧ (length added ≤ 6)%nat
    ∧ Forall (placed_for search_for py_repr page
                (label_map (field_of fields "name") (field_of fields "dob")
                   (field_of fields "address") (field_of fields "phone")
                   (field_of fields "email"))) added.
Proof.
  intros Hgen Ht. apply generate_inv in Hgen as [_ Hcase].
  destruct Hcase as [(Hno & _) | (t' & doc & page & Ht' & Hopen & Hpage & _ & ->)];
    [by rewrite Hno in Ht|].
  rewrite Ht in Ht'. injection Ht' as <-.
  destruct (place_labels_shape search_for py_repr page
              (label_map (field_of fields "name") (field_of fields "dob")
                 (field_of fields "address") (field_of fields "phone")
                 (field_of fields "email")))
    as (added & Hspans & Hdrawn & Hlen & Hall).
  eexists doc, _, page, _, added. split; [exact Hopen|].
  split; [unfold save; by rewrite lookup_insert_eq|].
  split; [by apply first_page_lookup|].
  split; [by eapply first_page_insert_lookup|].
  split; [exact Hdrawn|]. split; [exact Hlen | exact Hall].
Qed.

Lemma filler_adds_only_values_at_labels_witness :
  generate_filled_pdf sample_search sample_repr sample_fs jane "/up"
    (Some "/up/form.pdf")
  = Ok ("/up/form_filled.pdf",
        <["/up/form_filled.pdf" := PdfFile [jane_filled_page]]> sample_fs)
  ∧ pdf_template sample_fs (path_of <$> Some "/up/form.pdf")
    = Some (path_of "/up/form.pdf")
  ∧ ∃ doc doc' page page' added,
      fitz_open sample_fs (path_str (path_of "/up/form.pdf")) = Ok doc
      ∧ (<["/up/form_filled.pdf" := PdfFile [jane_filled_page]]> sample_fs)
          !! "/up/form_filled.pdf" = Some (PdfFile doc')
      ∧ doc !! 0%nat = Some page
      ∧ doc' !! 0%nat = Some page'
      ∧ drawn page' = drawn page ++ added
      ∧ (length added ≤ 6)%nat
      ∧ Forall (placed_for sample_search sample_repr page
                  (label_map (field_of jane "name") (field_of jane "dob")
                     (field_of jane "address") (field_of jane "phone")
                     (field_of jane "email"))) added.
Proof.
  assert (generate_filled_pdf sample_search sample_repr sample_fs jane "/up"
            (Some "/up/form.pdf")
          = Ok ("/up/form_filled.pdf",
                <["/up/form_filled.pdf" := PdfFile [jane_filled_page]]>
                  sample_fs)) as Hrun by by_evaluation.
  assert (pdf_template sample_fs (path_of <$> Some "/up/form.pdf")
          = Some (path_of "/up/form.pdf")) as Ht
    by by_evaluation.
  split; [exact Hrun|]. split; [exact Ht|].
  exact (filler_adds_only_values_at_labels sample_search sample_repr
           sample_fs jane "/up" (Some "/up/form.pdf") _ _ _ Hrun Ht).
Defined.

(** X11: a template with nothing to place is written back as it is.  When
    the template opens with a first page and every entry of the label map
    has a falsy value or a label without hit on that page, the call
    returns and the document written is the template's. *)
Theorem filler_copies_template_when_nothing_to_place
    search_for py_repr fs (fields : PyVal) (output_dir : string)
    (template_path : option string) (t : Path) (doc : Document)
    (page : Page) :
  mkdir fs (path_of output_dir) = Ok tt →
  pdf_template fs (path_of <$> template_path) = Some t →
  fitz_open fs (path_str t) = Ok doc →
  first_page doc = Ok page →
  (∀ label value,
     (label, value) ∈ label_map (field_of fields "name")
                        (field_of fields "dob") (field_of fields "address")
                        (field_of fields "phone") (field_of fields "email") →
     truthy value = false ∨ search_for page label = []) →
  ∃ path fs',
    generate_filled_pdf search_for py_repr fs fields output_dir template_path
    = Ok (path, fs')
    ∧ fs' !! path = Some (PdfFile doc).
Proof.
  intros Hmk Ht Hopen Hpage Hno. eexists _, _. split.
  - by eapply generate_with_template.
  - unfold save. rewrite lookup_insert_eq.
    rewrite (place_labels_nothing _ _ _ _ Hno).
    by rewrite (first_page_insert _ _ Hpage).
Qed.

Lemma filler_copies_template_when_nothing_to_place_witness :
  mkdir sample_fs (path_of "/up") = Ok tt
  ∧ pdf_template sample_fs (path_of <$> Some "/up/form.pdf")
    = Some (path_of "/up/form.pdf")
  ∧ fitz_open sample_fs (path_str (path_of "/up/form.pdf")) = Ok [form_page]
  ∧ first_page [form_page] = Ok form_page
  ∧ ∃ path fs',
      generate_filled_pdf sample_search sample_repr sample_fs (PyList [])
        "/up" (Some "/up/form.pdf") = Ok (path, fs')
      ∧ fs' !! path = Some (PdfFile [form_page]).
Proof.
  assert (mkdir sample_fs (path_of "/up") = Ok tt) as Hmk
    by by_evaluation.
  assert (pdf_template sample_fs (path_of <$> Some "/up/form.pdf")
          = Some (path_of "/up/form.pdf")) as Ht
    by by_evaluation.
  assert (fitz_open sample_fs (path_str (path_of "/up/form.pdf"))
          = Ok [form_page]) as Hopen
    by by_evaluation.
  repeat (split; [first [exact Hmk | exact Ht | exact Hopen | reflexivity]|]).
  refine (filler_copies_template_when_nothing_to_place sample_search
            sample_repr sample_fs (PyList []) "/up" (Some "/up/form.pdf")
            (path_of "/up/form.pdf") [form_page] form_page
            Hmk Ht Hopen eq_refl _).
  intros label value Hin. left.
  unfold label_map in Hin. simpl in Hin.
  repeat (apply elem_of_cons in Hin as [[= -> ->]|Hin]; [reflexivity|]).
  by apply elem_of_nil in Hin.
Defined.

(** X12: the filler reads the five fields and nothing else.  Two field
    values that agree on the five keys give the same outcome; a value that
    is not a dictionary counts as a dictionary without the five keys. *)
Theorem filler_reads_only_the_five_fields
    search_for py_repr fs (fields fields' : PyVal) (output_dir : string)
    (template_path : option string) :
  (∀ k, k ∈ FIELD_KEYS → field_of fields k = field_of fields' k) →
  generate_filled_pdf search_for py_repr fs fields output_dir template_path
  = generate_filled_pdf search_for py_repr fs fields' output_dir
      template_path.
Proof.
  intros Hsame. unfold generate_filled_pdf.
  rewrite (Hsame "name"), (Hsame "dob"), (Hsame "address"), (Hsame "phone"),
    (Hsame "email"); [done|..]; unfold FIELD_KEYS; set_solver.
Qed.

Lemma filler_reads_only_the_five_fields_witness :
  (∀ k, k ∈ FIELD_KEYS → field_of (PyList []) k = field_of (PyDict ∅) k)
  ∧ generate_filled_pdf sample_search sample_repr sample_fs (PyList []) "/up"
      None
    = generate_filled_pdf sample_search sample_repr sample_fs (PyDict ∅)
        "/up" None.
Proof.
  assert (∀ k, k ∈ FIELD_KEYS →
            field_of (PyList []) k = field_of (PyDict ∅) k) as Hsame
    by (intros k _; reflexivity).
  split; [exact Hsame|].
  exact (filler_reads_only_the_five_fields sample_search sample_repr
           sample_fs (PyList []) (PyDict ∅) "/up" None Hsame).
Defined.

(* ===================================================================== *)
(** * Stored uploads *)
(* ===================================================================== *)

Lemma hex_digit_is_plain (c : ascii) :
  is_hex_digit c = true → Ascii.eqb c SLASH = false ∧ Ascii.eqb c DOT = false.
Proof. by destruct c as [[] [] [] [] [] [] [] []]. Qed.

Lemma all_hex_plain (s : string) :
  all_hex s = true → has_slash s = false ∧ has_dot s = false.
Proof.
  induction s as [|c s IH]; [done|]. simpl.
  intros [[Hs Hd]%hex_digit_is_plain [Hs' Hd']%IH]%andb_true_iff.
  by rewrite Hs, Hd, Hs', Hd'.
Qed.

Lemma uuid_hex_plain (s : string) :
  is_uuid_hex s = true →
  s ≠ EmptyString ∧ has_slash s = false ∧ has_dot s = false.
Proof.
  intros [Hlen Hall]%andb_true_iff. split; [by destruct s|].
  by apply all_hex_plain.
Qed.

Lemma rsplit_dot_none (s : string) :
  has_dot s = false → rsplit_dot s = None.
Proof.
  induction s as [|c s IH]; [done|]. simpl.
  intros [Hc Hs]%orb_false_iff. by rewrite (IH Hs), Hc.
Qed.

Lemma rsplit_dot_after (name before after : string) :
  rsplit_dot name = Some (before, after) →
  ∃ rest, after = String DOT rest ∧ has_dot rest = false.
Proof.
  revert before. induction name as [|c name IH]; intros before; [done|].
  simpl. destruct (rsplit_dot name) as [[b a]|] eqn:Hr.
  - intros [= <- <-]. by eapply IH.
  - destruct (Ascii.eqb c DOT) eqn:Hc; [|done]. intros [= <- <-].
    apply Ascii.eqb_eq in Hc as ->. exists name. split; [done|].
    destruct (has_dot name) eqn:Hd; [|done].
    clear IH. exfalso. revert Hr Hd. clear. induction name as [|c name IH];
      [done|]. simpl. destruct (rsplit_dot name) as [[]|]; [done|].
    destruct (Ascii.eqb c DOT); [done|]. simpl. by intros _ ?%IH.
Qed.

Lemma rsplit_dot_glue (head rest : string) :
  has_dot rest = false →
  rsplit_dot (head ++ String DOT rest) = Some (head, String DOT rest).
Proof.
  intros Hrest. induction head as [|c head IH].
  - rewrite append_empty_l. simpl. by rewrite (rsplit_dot_none _ Hrest).
  - rewrite append_cons. simpl. by rewrite IH.
Qed.

Lemma has_slash_suffix (s : string) :
  has_slash (path_suffix (path_of s)) = false.
Proof.
  pose proof (path_name_no_slash s) as Hn.
  rewrite (split_suffix_app (path_name (path_of s))), has_slash_app in Hn.
  by apply orb_false_iff in Hn as [_ ?].
Qed.

Lemma suffix_shape (name : string) :
  snd (split_suffix name) = EmptyString
  ∨ ∃ rest, snd (split_suffix name) = String DOT rest
      ∧ has_dot rest = false
      ∧ (1 <? String.length (String DOT rest))%nat = true.
Proof.
  unfold split_suffix. destruct (rsplit_dot name) as [[before after]|] eqn:Hr;
    [|by left].
  destruct (negb (String.eqb before EmptyString)
            && (1 <? String.length after)%nat) eqn:Hvalid; [|by left].
  right. destruct (rsplit_dot_after _ _ _ Hr) as (rest & -> & Hrest).
  exists rest. apply andb_true_iff in Hvalid as [_ Hlen]. done.
Qed.

(** Gluing an identifier before the suffix of a name gives a name with
    that identifier as stem and that suffix. *)
Lemma split_suffix_glue (hex name : string) :
  hex ≠ EmptyString → has_dot hex = false →
  split_suffix (hex ++ snd (split_suffix name))
  = (hex, snd (split_suffix name)).
Proof.
  intros Hne Hdot.
  destruct (suffix_shape name) as [-> | (rest & -> & Hrest & Hlen)].
  - rewrite append_empty_r. unfold split_suffix.
    by rewrite (rsplit_dot_none _ Hdot).
  - unfold split_suffix. rewrite (rsplit_dot_glue _ _ Hrest), Hlen.
    by destruct hex.
Qed.

Lemma stored_name_is_component (hex original : string) :
  is_uuid_hex hex = true →
  has_slash (hex ++ path_suffix (path_of original)) = false
  ∧ is_component (hex ++ path_suffix (path_of original)) = true.
Proof.
  intros (Hne & Hslash & Hdot)%uuid_hex_plain. split.
  - by rewrite has_slash_app, Hslash, has_slash_suffix.
  - unfold is_component. destruct hex as [|c hex]; [done|].
    rewrite append_cons. simpl in Hdot |- *.
    apply orb_false_iff in Hdot as [Hc _].
    unfold DOT in Hc. by rewrite Hc.
Qed.

(** Where an upload is stored and under which name. *)
Lemma stored_path (dir : Path) (hex original : string) :
  is_uuid_hex hex = true →
  let dest := path_join dir (hex ++ path_suffix (path_of original)) in
  dest = {| root := root dir;
            comps := comps dir ++ [(hex ++ path_suffix (path_of original))%string] |}
  ∧ path_name dest = (hex ++ path_suffix (path_of original))%string
  ∧ path_parent dest = dir
  ∧ path_stem dest = hex
  ∧ path_suffix dest = path_suffix (path_of original).
Proof.
  intros Hhex dest. destruct (stored_name_is_component hex original Hhex)
    as [Hs Hc].
  destruct (path_join_name_parent dir _ Hs Hc) as [Hname Hparent].
  split; [by apply path_join_component|]. split; [done|]. split; [done|].
  destruct (uuid_hex_plain _ Hhex) as (Hne & _ & Hdot).
  unfold path_stem, path_suffix at 1. subst dest. rewrite Hname.
  unfold path_suffix. by rewrite (split_suffix_glue _ _ Hne Hdot).
Qed.

Lemma save_upload_file_ok (module_dir : Path) (hex : string) (fs : FS)
    (upload_file : UploadFile) (base_dir : option Path) :
  mkdir fs (default (uploads_of module_dir) base_dir) = Ok tt →
  let dest :=
    path_join (default (uploads_of module_dir) base_dir)
      (hex ++ path_suffix (path_of (original_name_of upload_file))) in
  save_upload_file module_dir hex fs upload_file base_dir
  = Ok (dest, <[path_str dest := file upload_file]> fs).
Proof.
  intros Hmk. unfold save_upload_file.
  destruct base_dir as [dir|];
    [change (mkdir fs dir = Ok tt) in Hmk
    |change (mkdir fs (uploads_of module_dir) = Ok tt) in Hmk];
    rewrite Hmk; reflexivity.
Qed.

(** X13: an upload is stored directly in the directory given, under the
    drawn identifier followed by the suffix of the client's file name (of
    [file] when the client sent none), whatever else that name holds; the
    stored path has that identifier as stem and that suffix; the content
    is the upload's and no other file changes. *)
Theorem upload_is_stored_under_identifier_and_suffix
    (module_dir : Path) (hex : string) (fs : FS) (upload_file : UploadFile)
    (base_dir : option Path) :
  is_uuid_hex hex = true →
  mkdir fs (default (uploads_of module_dir) base_dir) = Ok tt →
  ∃ dest fs',
    save_upload_file module_dir hex fs upload_file base_dir = Ok (dest, fs')
    ∧ path_parent dest = default (uploads_of module_dir) base_dir
    ∧ path_name dest
      = (hex ++ path_suffix (path_of (original_name_of upload_file)))%string
    ∧ path_stem dest = hex
    ∧ path_suffix dest = path_suffix (path_of (original_name_of upload_file))
    ∧ fs' !! path_str dest = Some (file upload_file)
    ∧ ∀ other, other ≠ path_str dest → fs' !! other = fs !! other.
Proof.
  intros Hhex Hmk. eexists _, _.
  split; [by apply save_upload_file_ok|].
  destruct (stored_path (default (uploads_of module_dir) base_dir) hex
              (original_name_of upload_file) Hhex)
    as (_ & Hname & Hparent & Hstem & Hsuffix).
  repeat split; [done|done|done|done|apply lookup_insert_eq|].
  intros other Hne. by rewrite lookup_insert_ne.
Qed.

Lemma upload_is_stored_under_identifier_and_suffix_witness :
  is_uuid_hex sample_hex = true
  ∧ mkdir ∅ (default (uploads_of backend_dir) None) = Ok tt
  ∧ ∃ dest fs',
      save_upload_file backend_dir sample_hex ∅ sneaky_upload None
        = Ok (dest, fs')
      ∧ path_parent dest = default (uploads_of backend_dir) None
      ∧ path_name dest
        = (sample_hex
           ++ path_suffix (path_of (original_name_of sneaky_upload)))%string
      ∧ path_stem dest = sample_hex
      ∧ path_suffix dest
        = path_suffix (path_of (original_name_of sneaky_upload))
      ∧ fs' !! path_str dest = Some (file sneaky_upload)
      ∧ ∀ other, other ≠ path_str dest → fs' !! other = (∅ : FS) !! other.
Proof.
  assert (is_uuid_hex sample_hex = true) as Hhex by reflexivity.
  assert (mkdir ∅ (default (uploads_of backend_dir) None) = Ok tt) as Hmk
    by by_evaluation.
  split; [exact Hhex|]. split; [exact Hmk|].
  exact (upload_is_stored_under_identifier_and_suffix backend_dir sample_hex
           ∅ sneaky_upload None Hhex Hmk).
Defined.

(** Where the sneaky upload ends up. *)
Example sneaky_upload_stays_inside :
  match save_upload_file backend_dir sample_hex ∅ sneaky_upload None with
  | Ok (dest, _) => Some (path_str dest)
  | Raise _ => None
  end
  = Some "/srv/backend/uploads/0123456789abcdef0123456789abcdef.PDF".
Proof. by_evaluation. Qed.

(* ===================================================================== *)
(** * The endpoints *)
(* ===================================================================== *)

Lemma uploads_well_formed (module_dir : Path) :
  well_formed module_dir → well_formed (uploads_of module_dir).
Proof. apply path_join_well_formed. Qed.

Lemma path_join_plain_round_trip (dir : Path) (seg : string) :
  well_formed dir → has_slash seg = false → is_component seg = true →
  path_of (path_str (path_join dir seg)) = path_join dir seg.
Proof.
  intros Hdir Hs Hc. apply path_of_str_wf. by apply path_join_well_formed.
Qed.

Section EndpointFacts.

Variable module_dir : Path.
Variable search_for : Page -> string -> list Rect.
Variable py_repr : PyVal -> string.

Notation uploads := (uploads_of module_dir).
Notation fill := (fill_pdf module_dir search_for py_repr).

(** What [fill_pdf] does when it gets to call the filler. *)
Lemma fill_pdf_unfold fs request_fields request_template :
  mkdir fs uploads = Ok tt →
  fill fs request_fields request_template
  = match generate_filled_pdf search_for py_repr fs (PyDict request_fields)
            (path_str uploads)
            (path_str <$>
               match request_template with
               | None | Some EmptyString => None
               | Some name =>
                   if is_file fs (path_join uploads name)
                   then Some (path_join uploads name) else None
               end) with
    | Raise e => (fs, respond (Raise e))
    | Ok (filled_pdf_path, fs') =>
        (fs', Success (path_name (path_of filled_pdf_path)))
    end.
Proof. intros Hmk. unfold fill_pdf. by rewrite Hmk. Qed.

(** The path the filler writes to, seen from the endpoint. *)
Lemma fill_pdf_success fs request_fields request_template fs' name :
  fill fs request_fields request_template = (fs', Success name) →
  mkdir fs uploads = Ok tt
  ∧ ∃ path template_path,
      generate_filled_pdf search_for py_repr fs (PyDict request_fields)
        (path_str uploads) template_path = Ok (path, fs')
      ∧ name = path_name (path_of path).
Proof.
  intros Hfill.
  destruct (mkdir fs uploads) as [[]|e] eqn:Hmk;
    [|unfold fill_pdf in Hfill; by rewrite Hmk in Hfill].
  split; [done|]. rewrite (fill_pdf_unfold _ _ _ Hmk) in Hfill.
  destruct (generate_filled_pdf _ _ _ _ _ _) as [[path fs'']|e] eqn:Hgen;
    [|done].
  injection Hfill as -> <-. by eexists _, _.
Qed.

End EndpointFacts.

(** X14: a request that names no template on disk gets the summary.  When
    the uploads directory can be made and the request names no template,
    the empty name, or a name that is no file there, [fill_pdf] answers
    with the file name [filled_form.pdf], and that file of the uploads
    directory is then a one-page document carrying the summary text; no
    other file changes. *)
Theorem fill_without_template_answers_filled_form
    (module_dir : Path) search_for py_repr (fs : FS)
    (request_fields : gmap string PyVal) (request_template : option string) :
  well_formed module_dir →
  mkdir fs (uploads_of module_dir) = Ok tt →
  names_no_file fs (uploads_of module_dir) request_template →
  ∃ fs',
    fill_pdf module_dir search_for py_repr fs request_fields request_template
    = (fs', Success "filled_form.pdf")
    ∧ fs' !! path_str (path_join (uploads_of module_dir) "filled_form.pdf")
      = Some (PdfFile
                [ {| spans := [];
                     drawn :=
                       [ {| op_x := 72; op_y := 72;
                            op_text :=
                              summary_text py_repr
                                (dict_get request_fields "name")
                                (dict_get request_fields "dob")
                                (dict_get request_fields "address")
                                (dict_get request_fields "phone")
                                (dict_get request_fields "email");
                            op_fontsize := 12 |} ] |} ])
    ∧ ∀ other,
        other ≠ path_str (path_join (uploads_of module_dir) "filled_form.pdf") →
        fs' !! other = fs !! other.
Proof.
  intros Hwf Hmk Hno.
  pose proof (uploads_well_formed _ Hwf) as Hup.
  rewrite (fill_pdf_unfold _ _ _ _ _ _ Hmk).
  assert (match request_template with
          | None | Some EmptyString => None
          | Some name =>
              if is_file fs (path_join (uploads_of module_dir) name)
              then Some (path_join (uploads_of module_dir) name) else None
          end = None) as ->.
  { destruct request_template as [[|c name]|]; try done.
    simpl in Hno. by rewrite Hno. }
  rewrite generate_without_template;
    [|by rewrite (path_of_str_wf _ Hup) | done].
  rewrite (path_of_str_wf _ Hup).
  eexists. split.
  { rewrite path_join_plain_round_trip by done.
    by rewrite (proj1 (path_join_name_parent _ "filled_form.pdf"
                         eq_refl eq_refl)). }
  unfold save. split; [by rewrite lookup_insert_eq|].
  intros other Hne. by rewrite lookup_insert_ne.
Qed.

Lemma fill_without_template_answers_filled_form_witness :
  well_formed backend_dir
  ∧ mkdir ∅ (uploads_of backend_dir) = Ok tt
  ∧ names_no_file ∅ (uploads_of backend_dir) (Some "missing.pdf")
  ∧ ∃ fs',
      fill_pdf backend_dir sample_search sample_repr ∅ jane_fields
        (Some "missing.pdf")
      = (fs', Success "filled_form.pdf")
      ∧ fs' !! path_str (path_join (uploads_of backend_dir) "filled_form.pdf")
        = Some (PdfFile
                  [ {| spans := [];
                       drawn :=
                         [ {| op_x := 72; op_y := 72;
                              op_text :=
                                summary_text sample_repr
                                  (dict_get jane_fields "name")
                                  (dict_get jane_fields "dob")
                                  (dict_get jane_fields "address")
                                  (dict_get jane_fields "phone")
                                  (dict_get jane_fields "email");
                              op_fontsize := 12 |} ] |} ])
      ∧ ∀ other,
          other
          ≠ path_str (path_join (uploads_of backend_dir) "filled_form.pdf") →
          fs' !! other = (∅ : FS) !! other.
Proof.
  assert (well_formed backend_dir) as Hwf by apply path_of_well_formed.
  assert (mkdir ∅ (uploads_of backend_dir) = Ok tt) as Hmk by by_evaluation.
  assert (names_no_file ∅ (uploads_of backend_dir) (Some "missing.pdf"))
    as Hno by (unfold names_no_file; by_evaluation).
  split; [exact Hwf|]. split; [exact Hmk|]. split; [exact Hno|].
  exact (fill_without_template_answers_filled_form backend_dir sample_search
           sample_repr ∅ jane_fields (Some "missing.pdf") Hwf Hmk Hno).
Defined.

(** X15: the file [fill_pdf] names is the file it has written.  Whenever
    [fill_pdf] answers with a file name, the name has no slash and the
    file of that name in the uploads directory is a PDF document. *)
Theorem fill_names_a_file_of_the_uploads_directory
    (module_dir : Path) search_for py_repr (fs fs' : FS)
    (request_fields : gmap string PyVal) (request_template : option string)
    (name : string) :
  well_formed module_dir →
  fill_pdf module_dir search_for py_repr fs request_fields request_template
    = (fs', Success name) →
  has_slash name = false
  ∧ ∃ doc,
      fs' !! path_str (path_join (uploads_of module_dir) name)
      = Some (PdfFile doc).
Proof.
  intros Hwf Hfill.
  pose proof (uploads_well_formed _ Hwf) as Hup.
  apply fill_pdf_success in Hfill
    as (_ & path & template_path & Hgen & ->).
  apply generate_inv in Hgen as [_ Hcase].
  rewrite (path_of_str_wf _ Hup) in Hcase.
  assert (∃ seg doc,
            has_slash seg = false ∧ is_component seg = true
            ∧ path = path_str (path_join (uploads_of module_dir) seg)
            ∧ fs' !! path = Some (PdfFile doc)) as (seg & doc & Hs & Hc & -> & Hdoc).
  { destruct Hcase as [(_ & -> & ->)
                      | (t & doc & page & Ht & _ & _ & -> & ->)].
    - eexists "filled_form.pdf", _. repeat split; try done.
      unfold save. by rewrite lookup_insert_eq.
    - apply pdf_template_inv in Ht as (s & _ & -> & _).
      destruct (filled_name_is_component _ (path_stem_no_slash s))
        as [Hs Hc].
      eexists _, _. repeat split; try done.
      unfold save. by rewrite lookup_insert_eq. }
  rewrite path_join_plain_round_trip by done.
  rewrite (proj1 (path_join_name_parent _ _ Hs Hc)). split; [done|].
  by exists doc.
Qed.

Lemma fill_names_a_file_of_the_uploads_directory_witness :
  well_formed backend_dir
  ∧ fill_pdf backend_dir sample_search sample_repr ∅ jane_fields None
    = (save ∅ [blank_page]
         (insert_text blank_page 72 72
            (summary_text sample_repr (PyStr "Jane Doe") PyNone PyNone PyNone
               PyNone) 12)
         "/srv/backend/uploads/filled_form.pdf",
       Success "filled_form.pdf")
  ∧ has_slash "filled_form.pdf" = false
  ∧ ∃ doc,
      save ∅ [blank_page]
        (insert_text blank_page 72 72
           (summary_text sample_repr (PyStr "Jane Doe") PyNone PyNone PyNone
              PyNone) 12)
        "/srv/backend/uploads/filled_form.pdf"
      !! path_str (path_join (uploads_of backend_dir) "filled_form.pdf")
      = Some (PdfFile doc).
Proof.
  assert (well_formed backend_dir) as Hwf by apply path_of_well_formed.
  assert (fill_pdf backend_dir sample_search sample_repr ∅ jane_fields None
          = (save ∅ [blank_page]
               (insert_text blank_page 72 72
                  (summary_text sample_repr (PyStr "Jane Doe") PyNone PyNone
                     PyNone PyNone) 12)
               "/srv/backend/uploads/filled_form.pdf",
             Success "filled_form.pdf")) as Hrun by by_evaluation.
  split; [exact Hwf|]. split; [exact Hrun|].
  exact (fill_names_a_file_of_the_uploads_directory backend_dir sample_search
           sample_repr ∅ _ jane_fields None "filled_form.pdf" Hwf Hrun).
Defined.

Lemma save_upload_file_inv (module_dir : Path) (hex : string) (fs : FS)
    (upload_file : UploadFile) (dir dest : Path) (fs' : FS) :
  save_upload_file module_dir hex fs upload_file (Some dir) = Ok (dest, fs') →
  mkdir fs dir = Ok tt
  ∧ dest = path_join dir
             (hex ++ path_suffix (path_of (original_name_of upload_file)))
  ∧ fs' = <[path_str dest := file upload_file]> fs.
Proof.
  unfold save_upload_file. destruct (mkdir fs dir) as [[]|e]; [|done].
  cbn [mbind PyResult_bind]. by intros [= <- <-].
Qed.

(** A path with one component more than [dir] is not a path of another
    length. *)
Lemma stored_path_differs (dir q : Path) (hex original : string) :
  is_uuid_hex hex = true → well_formed dir → well_formed q →
  length (comps q) ≠ S (length (comps dir)) →
  path_str q
  ≠ path_str (path_join dir (hex ++ path_suffix (path_of original))).
Proof.
  intros Hhex Hdir Hq Hlen Heq.
  apply path_str_inj in Heq; [|done|by apply path_join_well_formed].
  destruct (stored_path dir hex original Hhex) as (Hdest & _).
  rewrite Heq, Hdest in Hlen. simpl in Hlen.
  rewrite length_app in Hlen. simpl in Hlen. lia.
Qed.

Section ProcessFacts.

Variable module_dir : Path.
Variable uuids : nat -> string.
Variable image_to_string : FileContent -> PyResult string.
Variable page_to_string : Page -> PyResult string.
Variable cfg : Config.
Variable generate_content : string -> string -> PyResult string.
Variable json_loads : string -> PyResult PyVal.

Notation uploads := (uploads_of module_dir).
Notation process :=
  (process_form module_dir uuids image_to_string page_to_string cfg
     generate_content json_loads).
Notation process_body :=
  (process_form_body module_dir uuids image_to_string page_to_string cfg
     generate_content json_loads).

(** Storing the documents touches no path of another depth than theirs. *)
Lemma save_documents_frame draw fs dir documents fs' outcome (q : Path) :
  (∀ i, is_uuid_hex (uuids i) = true) → well_formed dir → well_formed q →
  length (comps q) ≠ S (length (comps dir)) →
  save_documents module_dir uuids draw fs dir documents = (fs', outcome) →
  fs' !! path_str q = fs !! path_str q.
Proof.
  intros Hhex Hdir Hq Hlen. revert draw fs fs' outcome.
  induction documents as [|doc rest IH]; intros draw fs fs' outcome; simpl.
  - by intros [= <- _].
  - destruct (save_upload_file _ _ _ _ _) as [[dest fs1]|e] eqn:Hsave;
      [|by intros [= <- _]].
    apply save_upload_file_inv in Hsave as (_ & -> & ->).
    destruct (save_documents _ _ _ _ _ _) as [fs2 r] eqn:Hrest.
    apply IH in Hrest.
    rewrite lookup_insert_ne in Hrest
      by (apply not_eq_sym; by apply stored_path_differs).
    destruct r; by intros [= <- _].
Qed.

(** What [process_form] has done when it gets past the storing. *)
Lemma process_form_stored fs form_image documents :
  well_formed module_dir → (∀ i, is_uuid_hex (uuids i) = true) →
  mkdir fs uploads = Ok tt →
  let form_path :=
    path_join uploads
      (uuids 0 ++ path_suffix (path_of (original_name_of form_image))) in
  ∃ fs',
    fst (process_body fs form_image documents) = fs'
    ∧ fs' !! path_str form_path = Some (file form_image)
    ∧ fs' !! path_str uploads = None.
Proof.
  intros Hwf Hhex Hmk form_path. eexists. split; [done|].
  pose proof (uploads_well_formed _ Hwf) as Hup.
  assert (well_formed form_path) as Hform
    by by apply path_join_well_formed.
  destruct (stored_path uploads (uuids 0) (original_name_of form_image)
              (Hhex 0)) as (Hdest & _).
  fold form_path in Hdest.
  assert (length (comps form_path) = S (length (comps uploads))) as Hlen.
  { rewrite Hdest. simpl. rewrite length_app. simpl. lia. }
  assert (path_str uploads ≠ path_str form_path) as Hne.
  { intros Heq%path_str_inj; [|done..]. rewrite <- Heq in Hlen. lia. }
  assert (fs !! path_str uploads = None) as Hnone.
  { unfold mkdir, is_file in Hmk. case_bool_decide as Hsome; [done|].
    by apply eq_None_not_Some. }
  unfold process_form_body. rewrite Hmk.
  rewrite (save_upload_file_ok module_dir (uuids 0) fs form_image
             (Some uploads) Hmk).
  cbn [default from_option id]. fold form_path.
  assert (length (comps (path_join uploads "docs"))
          = S (length (comps uploads))) as Hdepth.
  { rewrite (path_join_component _ "docs" eq_refl eq_refl).
    simpl. rewrite length_app. simpl. lia. }
  pose proof (path_join_well_formed _ "docs" Hup) as Hdocsdir.
  destruct (save_documents _ _ _ _ _ _) as [fs2 r] eqn:Hdocs.
  assert (fs2 !! path_str form_path = Some (file form_image)) as Hf1.
  { erewrite save_documents_frame;
      [apply lookup_insert_eq | exact Hhex | exact Hdocsdir | exact Hform
      | lia | exact Hdocs]. }
  assert (fs2 !! path_str uploads = None) as Hf2.
  { erewrite save_documents_frame;
      [by rewrite lookup_insert_ne | exact Hhex | exact Hdocsdir | exact Hup
      | lia | exact Hdocs]. }
  by destruct r.
Qed.

Lemma process_form_split fs form_image documents :
  process fs form_image documents
  = (fst (process_body fs form_image documents),
     respond (snd (process_body fs form_image documents))).
Proof. unfold process_form. by destruct (process_form_body _ _ _ _ _ _ _ _ _ _). Qed.

(** What a successful [process_form] offers as template. *)
Lemma process_form_template fs form_image documents body :
  snd (process_body fs form_image documents) = Ok body →
  let form_path :=
    path_join uploads
      (uuids 0 ++ path_suffix (path_of (original_name_of form_image))) in
  mkdir fs uploads = Ok tt
  ∧ template_pdf_filename body
    = if String.eqb (lower (path_suffix form_path)) ".pdf"
      then Some (path_name form_path) else None.
Proof.
  unfold process_form_body.
  destruct (mkdir fs uploads) as [[]|e] eqn:Hmk; [|done].
  rewrite (save_upload_file_ok module_dir (uuids 0) fs form_image
             (Some uploads) Hmk).
  cbn [default from_option id].
  destruct (save_documents _ _ _ _ _ _) as [fs2 [paths|e]]; [|done].
  cbn [snd].
  match goal with
  | |- context [@mbind PyResult _ _ _ _ ?ocr] =>
      destruct ocr as [raw_text|e]; [|done]
  end.
  cbn [mbind PyResult_bind].
  destruct (extract_fields_with_gemini _ _ _ _) as [flds|e]; [|done].
  cbn [mbind PyResult_bind]. intros [= <-]. split; [done|]. cbn.
  by destruct (String.eqb _ _).
Qed.

Lemma extract_without_key raw_text :
  API_KEY cfg = None ∨ API_KEY cfg = Some EmptyString →
  extract_fields_with_gemini cfg generate_content json_loads raw_text
  = Raise (RuntimeError
             "GEMINI_API_KEY is not set in environment or .env file").
Proof.
  intros Hkey. unfold extract_fields_with_gemini, _get_model.
  by destruct Hkey as [-> | ->].
Qed.

Lemma process_body_without_key fs form_image documents :
  API_KEY cfg = None ∨ API_KEY cfg = Some EmptyString →
  ∃ e, snd (process_body fs form_image documents) = Raise e.
Proof.
  intros Hkey. unfold process_form_body.
  destruct (mkdir fs uploads) as [[]|e] eqn:Hmk; [|by eexists].
  destruct (save_upload_file _ _ _ _ _) as [[form_path fs1]|e];
    [|by eexists].
  destruct (save_documents _ _ _ _ _ _) as [fs2 [paths|e]]; [|by eexists].
  cbn [snd].
  match goal with
  | |- context [@mbind PyResult _ _ _ _ ?ocr] =>
      destruct ocr as [raw_text|e]; [|by eexists]
  end.
  cbn [mbind PyResult_bind]. rewrite (extract_without_key _ Hkey).
  by eexists.
Qed.

End ProcessFacts.


(** X16: without a key [/process] never succeeds, and leaves the upload
    behind.  When the key is unset or empty and the uploads directory can
    be made, [process_form] answers with status 500, and the uploaded form
    is on disk afterwards, under its identifier and suffix. *)
Theorem process_without_key_answers_500_and_keeps_the_upload
    (module_dir : Path) (uuids : nat -> string) image_to_string
    page_to_string cfg generate_content json_loads (fs : FS)
    (form_image : UploadFile) (documents : list UploadFile) :
  API_KEY cfg = None ∨ API_KEY cfg = Some EmptyString →
  well_formed module_dir →
  (∀ i, is_uuid_hex (uuids i) = true) →
  mkdir fs (uploads_of module_dir) = Ok tt →
  ∃ fs' detail,
    process_form module_dir uuids image_to_string page_to_string cfg
      generate_content json_loads fs form_image documents
    = (fs', HTTPException 500 detail)
    ∧ fs' !! path_str
               (path_join (uploads_of module_dir)
                  (uuids 0
                   ++ path_suffix (path_of (original_name_of form_image))))
      = Some (file form_image).
Proof.
  intros Hkey Hwf Hhex Hmk.
  destruct (process_body_without_key module_dir uuids image_to_string
              page_to_string cfg generate_content json_loads fs form_image
              documents Hkey) as [e He].
  destruct (process_form_stored module_dir uuids image_to_string
              page_to_string cfg generate_content json_loads fs form_image
              documents Hwf Hhex Hmk) as (fs' & Hfs & Hform & _).
  exists fs', (exn_str e). rewrite process_form_split, He, Hfs. by split.
Qed.

Lemma process_without_key_answers_500_and_keeps_the_upload_witness :
  (API_KEY unset_cfg = None ∨ API_KEY unset_cfg = Some EmptyString)
  ∧ well_formed backend_dir
  ∧ (∀ i, is_uuid_hex (sample_uuids i) = true)
  ∧ mkdir ∅ (uploads_of backend_dir) = Ok tt
  ∧ ∃ fs' detail,
      process_form backend_dir sample_uuids (reading texas) (reading texas)
        unset_cfg (answering texas_answer) json_reader ∅ form_upload []
      = (fs', HTTPException 500 detail)
      ∧ fs' !! path_str
                 (path_join (uploads_of backend_dir)
                    (sample_uuids 0
                     ++ path_suffix (path_of (original_name_of form_upload))))
        = Some (file form_upload).
Proof.
  assert (API_KEY unset_cfg = None ∨ API_KEY unset_cfg = Some EmptyString)
    as Hkey by (by left).
  assert (well_formed backend_dir) as Hwf by apply path_of_well_formed.
  assert (∀ i, is_uuid_hex (sample_uuids i) = true) as Hhex
    by (intros i; reflexivity).
  assert (mkdir ∅ (uploads_of backend_dir) = Ok tt) as Hmk by by_evaluation.
  split; [exact Hkey|]. split; [exact Hwf|]. split; [exact Hhex|].
  split; [exact Hmk|].
  exact (process_without_key_answers_500_and_keeps_the_upload backend_dir
           sample_uuids (reading texas) (reading texas) unset_cfg
           (answering texas_answer) json_reader ∅ form_upload []
           Hkey Hwf Hhex Hmk).
Defined.

Lemma generate_template_unreadable search_for py_repr fs fields output_dir
    template_path t :
  mkdir fs (path_of output_dir) = Ok tt →
  pdf_template fs (path_of <$> template_path) = Some t →
  ∀ e,
    (doc ← fitz_open fs (path_str t); first_page doc) = Raise e →
    generate_filled_pdf search_for py_repr fs fields output_dir template_path
    = Raise e.
Proof.
  intros Hmk Ht e Hbad. unfold generate_filled_pdf. rewrite Hmk.
  cbn [mbind PyResult_bind]. rewrite Ht.
  destruct (fitz_open fs (path_str t)) as [doc|e'] eqn:Hopen;
    cbn [mbind PyResult_bind] in *; [|by injection Hbad as ->].
  destruct (first_page doc) as [page|e'] eqn:Hpage;
    cbn [mbind PyResult_bind]; [done | by injection Hbad as ->].
Qed.

Lemma template_choice (fs : FS) (uploads : Path) (name : string) :
  name ≠ EmptyString →
  match Some name with
  | None | Some EmptyString => None
  | Some n =>
      if is_file fs (path_join uploads n)
      then Some (path_join uploads n) else None
  end
  = if is_file fs (path_join uploads name)
    then Some (path_join uploads name) else None.
Proof. by destruct name. Qed.

(** X17: the template that [/process] offers is the one [/fill] takes.
    When [process_form] succeeds and offers a template file name, that
    name is the identifier drawn for the form followed by the suffix of
    the client's file name, and the uploaded form is on disk under it.
    Sent back to [fill_pdf], the name is accepted as template: when the
    stored upload opens as a document with a first page, the answer is the
    identifier followed by [_filled.pdf]; when opening it or taking its
    first page raises, the answer is status 500 with the text of that
    exception, and nothing is written. *)
Theorem processed_template_is_taken_by_fill
    (module_dir : Path) (uuids : nat -> string) image_to_string
    page_to_string cfg generate_content json_loads search_for py_repr
    (fs fs1 : FS) (form_image : UploadFile) (documents : list UploadFile)
    (body : Processed) (name : string) :
  well_formed module_dir →
  (∀ i, is_uuid_hex (uuids i) = true) →
  process_form module_dir uuids image_to_string page_to_string cfg
    generate_content json_loads fs form_image documents
    = (fs1, Success body) →
  template_pdf_filename body = Some name →
  name = (uuids 0 ++ path_suffix (path_of (original_name_of form_image)))%string
  ∧ fs1 !! path_str (path_join (uploads_of module_dir) name)
    = Some (file form_image)
  ∧ ∀ request_fields,
      match doc ← fitz_open fs1
                    (path_str (path_join (uploads_of module_dir) name));
            first_page doc with
      | Ok _ =>
          ∃ fs2,
            fill_pdf module_dir search_for py_repr fs1 request_fields
              (Some name)
            = (fs2, Success (uuids 0 ++ "_filled.pdf")%string)
      | Raise e =>
          fill_pdf module_dir search_for py_repr fs1 request_fields
            (Some name)
          = (fs1, HTTPException 500 (exn_str e))
      end.
Proof.
  intros Hwf Hhex Hproc Hname.
  pose proof (uploads_well_formed _ Hwf) as Hup.
  rewrite process_form_split in Hproc. injection Hproc as Hfs Hresp.
  destruct (snd (process_form_body _ _ _ _ _ _ _ _ _ _)) as [body'|e]
    eqn:Hbody; [|done].
  injection Hresp as ->.
  apply process_form_template in Hbody as [Hmk Htemplate].
  destruct (stored_path (uploads_of module_dir) (uuids 0)
              (original_name_of form_image) (Hhex 0))
    as (_ & Hpname & _ & Hstem & Hsuffix).
  set (form_path :=
         path_join (uploads_of module_dir)
           (uuids 0 ++ path_suffix (path_of (original_name_of form_image))))
    in *.
  rewrite Hname in Htemplate.
  destruct (String.eqb (lower (path_suffix form_path)) ".pdf") eqn:Hpdf;
    [|done].
  injection Htemplate as ->. rewrite Hpname.
  destruct (process_form_stored module_dir uuids image_to_string
              page_to_string cfg generate_content json_loads fs form_image
              documents Hwf Hhex Hmk) as (fs' & Hfs' & Hform & Hnone).
  rewrite Hfs in Hfs'. subst fs'. fold form_path in Hform.
  split; [done|]. split; [exact Hform|]. intros request_fields.
  assert (mkdir fs1 (uploads_of module_dir) = Ok tt) as Hmk1.
  { unfold mkdir, is_file. rewrite Hnone.
    by rewrite bool_decide_eq_false_2 by (by intros [? ?]). }
  assert (is_file fs1 form_path = true) as Hfile.
  { unfold is_file. rewrite Hform. by apply bool_decide_eq_true_2. }
  assert (well_formed form_path) as Hformwf
    by by apply path_join_well_formed.
  assert (pdf_template fs1 (path_of <$> Some (path_str form_path))
          = Some form_path) as Ht.
  { simpl. rewrite (path_of_str_wf _ Hformwf). by rewrite Hfile, Hpdf. }
  assert (fill_pdf module_dir search_for py_repr fs1 request_fields
            (Some (uuids 0
                   ++ path_suffix (path_of (original_name_of form_image)))%string)
          = match generate_filled_pdf search_for py_repr fs1
                    (PyDict request_fields)
                    (path_str (uploads_of module_dir))
                    (Some (path_str form_path)) with
            | Raise e => (fs1, respond (Raise e))
            | Ok (filled_pdf_path, fs2) =>
                (fs2, Success (path_name (path_of filled_pdf_path)))
            end) as ->.
  { rewrite (fill_pdf_unfold _ _ _ _ _ _ Hmk1).
    rewrite template_choice.
    - fold form_path. by rewrite Hfile.
    - destruct (uuid_hex_plain _ (Hhex 0)) as (Hne & _).
      by intros [? _]%append_eq_empty. }
  assert (mkdir fs1 (path_of (path_str (uploads_of module_dir))) = Ok tt)
    as Hmk1' by by rewrite (path_of_str_wf _ Hup).
  fold form_path.
  destruct (fitz_open fs1 (path_str form_path)) as [doc|e] eqn:Hopen;
    cbn [mbind PyResult_bind].
  - destruct (first_page doc) as [page|e] eqn:Hpage.
    + rewrite (generate_with_template _ _ _ _ _ _ form_path doc page
                 Hmk1' Ht Hopen Hpage).
      cbv zeta. eexists. f_equal.
      rewrite (path_of_str_wf _ Hup).
      unfold path_stem. rewrite Hpname.
      destruct (uuid_hex_plain _ (Hhex 0)) as (Hne & Hslash & Hdot).
      unfold path_suffix. rewrite (split_suffix_glue _ _ Hne Hdot). cbn [fst].
      assert (has_slash (uuids 0 ++ "_filled.pdf") = false
              ∧ is_component (uuids 0 ++ "_filled.pdf") = true) as [Hs Hc]
        by by apply filled_name_is_component.
      rewrite path_join_plain_round_trip by done.
      by rewrite (proj1 (path_join_name_parent _ _ Hs Hc)).
    + rewrite (generate_template_unreadable search_for py_repr fs1
                 (PyDict request_fields) _ _ _ Hmk1' Ht e);
        [done|]. by rewrite Hopen.
  - rewrite (generate_template_unreadable search_for py_repr fs1
               (PyDict request_fields) _ _ _ Hmk1' Ht e);
      [done|]. by rewrite Hopen.
Qed.

Lemma processed_template_is_taken_by_fill_witness :
  well_formed backend_dir
  ∧ (∀ i, is_uuid_hex (sample_uuids i) = true)
  ∧ process_form backend_dir sample_uuids (reading texas) (reading texas)
      sample_cfg (answering texas_answer) json_reader ∅ form_upload []
    = (processed_fs, Success processed_body)
  ∧ template_pdf_filename processed_body
    = Some "0123456789abcdef0123456789abcdef.pdf"
  ∧ "0123456789abcdef0123456789abcdef.pdf"
    = (sample_uuids 0
       ++ path_suffix (path_of (original_name_of form_upload)))%string
  ∧ processed_fs
      !! path_str (path_join (uploads_of backend_dir)
                     "0123456789abcdef0123456789abcdef.pdf")
    = Some (file form_upload)
  ∧ ∀ request_fields,
      match doc ← fitz_open processed_fs
                    (path_str
                       (path_join (uploads_of backend_dir)
                          "0123456789abcdef0123456789abcdef.pdf"));
            first_page doc with
      | Ok _ =>
          ∃ fs2,
            fill_pdf backend_dir sample_search sample_repr processed_fs
              request_fields (Some "0123456789abcdef0123456789abcdef.pdf")
            = (fs2, Success (sample_uuids 0 ++ "_filled.pdf")%string)
      | Raise e =>
          fill_pdf backend_dir sample_search sample_repr processed_fs
            request_fields (Some "0123456789abcdef0123456789abcdef.pdf")
          = (processed_fs, HTTPException 500 (exn_str e))
      end.
Proof.
  assert (well_formed backend_dir) as Hwf by apply path_of_well_formed.
  assert (∀ i, is_uuid_hex (sample_uuids i) = true) as Hhex
    by (intros i; reflexivity).
  assert (process_form backend_dir sample_uuids (reading texas)
            (reading texas) sample_cfg (answering texas_answer) json_reader
            ∅ form_upload []
          = (processed_fs, Success processed_body)) as Hrun
    by by_evaluation.
  split; [exact Hwf|]. split; [exact Hhex|]. split; [exact Hrun|].
  split; [reflexivity|].
  exact (processed_template_is_taken_by_fill backend_dir sample_uuids
           (reading texas) (reading texas) sample_cfg
           (answering texas_answer) json_reader sample_search sample_repr
           ∅ processed_fs form_upload [] processed_body
           "0123456789abcdef0123456789abcdef.pdf" Hwf Hhex Hrun eq_refl).
Defined.

(** The text recognized and the outcome of the extraction behind a
    successful [process_form]. *)
Lemma process_form_fields (module_dir : Path) (uuids : nat -> string)
    image_to_string page_to_string cfg generate_content json_loads
    (fs : FS) (form_image : UploadFile) (documents : list UploadFile)
    (body : Processed) :
  snd (process_form_body module_dir uuids image_to_string page_to_string cfg
         generate_content json_loads fs form_image documents) = Ok body →
  ∃ raw_text,
    extract_fields_with_gemini cfg generate_content json_loads raw_text
    = Ok (fields body).
Proof.
  unfold process_form_body.
  destruct (mkdir fs (uploads_of module_dir)) as [[]|e]; [|done].
  destruct (save_upload_file _ _ _ _ _) as [[form_path fs1]|e]; [|done].
  destruct (save_documents _ _ _ _ _ _) as [fs2 [paths|e]]; [|done].
  cbn [snd].
  match goal with
  | |- context [@mbind PyResult _ _ _ _ ?ocr] =>
      destruct ocr as [raw_text|e]; [|done]
  end.
  cbn [mbind PyResult_bind].
  destruct (extract_fields_with_gemini _ _ _ _) as [flds|e] eqn:Hextract;
    [|done].
  cbn [mbind PyResult_bind]. intros [= <-]. by exists raw_text.
Qed.

Lemma origin_raw_text cfg generate_content json_loads raw_text r :
  Origin cfg generate_content json_loads raw_text r →
  r !! "raw_text" = Some (PyStr raw_text).
Proof.
  intros [model exc _ _ | model response msg _ _ _ | model response d _ _ _].
  - unfold failure_dict. rewrite lookup_insert_ne by done.
    apply lookup_insert_eq.
  - apply lookup_insert_eq.
  - apply lookup_insert_eq.
Qed.

(** X18: what [/process] returns is grounded in the recognized text.
    Whenever [process_form] succeeds, its fields are a dictionary that
    holds under [raw_text] a text, and each of the five fields that holds
    a string holds one whose normal form occurs in the normal form of that
    text. *)
Theorem processed_fields_occur_in_recognized_text
    (module_dir : Path) (uuids : nat -> string) image_to_string
    page_to_string cfg generate_content json_loads
    (fs fs' : FS) (form_image : UploadFile) (documents : list UploadFile)
    (body : Processed) :
  process_form module_dir uuids image_to_string page_to_string cfg
    generate_content json_loads fs form_image documents
    = (fs', Success body) →
  ∃ r raw_text,
    fields body = PyDict r
    ∧ r !! "raw_text" = Some (PyStr raw_text)
    ∧ ∀ k s, k ∈ FIELD_KEYS → r !! k = Some (PyStr s) →
        is_substring (normalize s) (normalize raw_text).
Proof.
  intros Hproc. rewrite process_form_split in Hproc.
  injection Hproc as _ Hresp.
  destruct (snd (process_form_body _ _ _ _ _ _ _ _ _ _)) as [body'|e]
    eqn:Hbody; [|done].
  injection Hresp as ->.
  apply process_form_fields in Hbody as [raw_text Hextract].
  apply origin_of_extract in Hextract as (r & Hr & Horigin).
  exists r, raw_text. split; [done|].
  split; [by eapply origin_raw_text|].
  intros k s Hk Hs. apply contains_spec. by eapply origin_string_field.
Qed.

Lemma processed_fields_occur_in_recognized_text_witness :
  process_form backend_dir sample_uuids (reading texas) (reading texas)
    sample_cfg (answering texas_answer) json_reader ∅ form_upload []
  = (processed_fs, Success processed_body)
  ∧ ∃ r raw_text,
      fields processed_body = PyDict r
      ∧ r !! "raw_text" = Some (PyStr raw_text)
      ∧ ∀ k s, k ∈ FIELD_KEYS → r !! k = Some (PyStr s) →
          is_substring (normalize s) (normalize raw_text).
Proof.
  assert (process_form backend_dir sample_uuids (reading texas)
            (reading texas) sample_cfg (answering texas_answer) json_reader
            ∅ form_upload []
          = (processed_fs, Success processed_body)) as Hrun
    by by_evaluation.
  split; [exact Hrun|].
  exact (processed_fields_occur_in_recognized_text backend_dir sample_uuids
           (reading texas) (reading texas) sample_cfg
           (answering texas_answer) json_reader ∅ processed_fs form_upload
           [] processed_body Hrun).
Defined.
